(** * CurrentPrompt: the content enrichment pipeline, its quality gate,
      the embedding contract and the similarity search

    A shallow embedding of

    - [src/agents/*.ts]            the eight capability adapters,
    - [src/services/aiPipeline.ts] the phase orchestrator and the cost table,
    - [src/services/moduleService.ts] record creation and semantic search,
    - [src/routes/aiRoutes.ts]     the request schema in front of the pipeline,
    - [migrations/004_add_vector_search.sql] the search function,

    followed by the vocabulary of the properties, sample environments,
    and the properties of the specification with their proofs.

    Conventions.

    - A JavaScript string is a [string] of code units below 256.
    - A number that comes out of [JSON.parse] is a rational or a signed
      infinity ([JSON.parse] never yields NaN).  Comparisons, [Math.min]
      and [Math.max] are exact on doubles, so rationals model them
      exactly.  Costs are summed as rationals.
    - [cosineSimilarity] is computed in binary64, which is what
      executes.
    - An asynchronous function is a function of the state that returns
      the new state and either the thrown value or the result.  The
      state holds the trace of requests sent, the embeddings client
      singleton and the database.
    - Remote models, the embedding provider, the database's answers, the
      clock, pgvector's distance operator, the order the database gives
      rows that [ORDER BY] does not tell apart, and the built-ins
      [JSON.parse], [JSON.stringify] and [String] are fields of an
      environment record [Env]; every theorem holds for all
      environments.
    - Console output is left out, but not the conversion to a string
      of a value that the orchestrator interpolates into a message: it
      throws for a value that has no primitive conversion. *)

From Stdlib Require Import Bool Arith ZArith QArith Lia List Sorted.
From Stdlib Require Import Ascii String DecimalString.
From Stdlib Require Import Floats.
Import ListNotations.

Local Open Scope string_scope.
Local Open Scope list_scope.
Local Open Scope nat_scope.

Set Implicit Arguments.
Set Warnings "-register-all,-abstract-large-number".

(* ================================================================== *)
(** * JavaScript values and built-ins *)
(* ================================================================== *)

Module JS.

(** A number decoded from JSON: finite, or an overflowed literal. *)
Inductive number : Type :=
| Fin (q : Q)
| Inf (negative : bool).

Inductive json : Type :=
| JNull
| JBool (b : bool)
| JNum (n : number)
| JStr (s : string)
| JArr (l : list json)
| JObj (o : list (string * json)).

(** A JSON object, as an association list in property order. *)
Definition object := list (string * json).

(** The value of a property read: [None] is [undefined]. *)
Definition value := option json.

(** What a [throw] carries: an [Error] with its message, or some value
    that is not an [Error]. *)
Inductive exn : Type :=
| Error (message : string)
| Thrown.

(** [error instanceof Error ? error.message : "Unknown error"] *)
Definition message_of (e : exn) : string :=
  match e with
  | Error m => m
  | Thrown => "Unknown error"
  end.

(** ** Numbers *)

Definition num_le (a b : number) : bool :=
  match a, b with
  | Inf true, _ => true
  | _, Inf false => true
  | Fin x, Fin y => Qle_bool x y
  | _, _ => false
  end.

Definition num_lt (a b : number) : bool := negb (num_le b a).

Definition Math_max (a b : number) : number := if num_le a b then b else a.
Definition Math_min (a b : number) : number := if num_le a b then a else b.

Definition num_div (a : number) (d : Q) : number :=
  match a with
  | Fin q => Fin (q / d)
  | Inf s => Inf s
  end.

Definition of_nat (n : nat) : number := Fin (inject_Z (Z.of_nat n)).

(** ** Truthiness, property access and update *)

Definition truthy (v : value) : bool :=
  match v with
  | None => false
  | Some JNull => false
  | Some (JBool b) => b
  | Some (JNum (Fin q)) => negb (Qeq_bool q 0)
  | Some (JNum (Inf _)) => true
  | Some (JStr s) => negb (String.eqb s "")
  | Some (JArr _) => true
  | Some (JObj _) => true
  end.

Fixpoint get (o : object) (k : string) : value :=
  match o with
  | [] => None
  | (k', v) :: o' => if String.eqb k k' then Some v else get o' k
  end.

(** [o[k] = v]: an existing property keeps its place, a new one is
    appended. *)
Fixpoint set (o : object) (k : string) (v : json) : object :=
  match o with
  | [] => [(k, v)]
  | (k', v') :: o' =>
      if String.eqb k k' then (k, v) :: o' else (k', v') :: set o' k v
  end.

(** [v.k] for a value that is not [null]: a property of an object; a
    string, a number, a boolean and an array out of [JSON.parse] have
    no property of such a name. *)
Definition property (v : json) (k : string) : value :=
  match v with
  | JObj o => get o k
  | _ => None
  end.

(** ** Conversion to a string *)

(** A template literal converts an object to a primitive by its
    [toString], then by its [valueOf].  No property of a value that
    comes out of [JSON.parse] is callable: an object with a property
    [toString] of its own has no conversion, whatever its [valueOf]
    (the inherited one returns the object); any other object is
    rendered by the inherited [toString].  An array is joined, which
    converts its elements, [null] apart. *)
Fixpoint converts (v : json) : bool :=
  match v with
  | JObj o =>
      match get o "toString" with
      | Some _ => false
      | None => true
      end
  | JArr l => forallb converts l
  | JNull | JBool _ | JNum _ | JStr _ => true
  end.

(** The message of the [TypeError] thrown for the others. *)
Definition no_primitive_value : string :=
  "Cannot convert object to primitive value".

(** ** Strings *)

Definition nl : string := String (ascii_of_nat 10) "".
Definition dq : string := String (ascii_of_nat 34) "".

(** Template-literal rendering of an array length or a counter. *)
Definition string_of_nat (n : nat) : string :=
  NilEmpty.string_of_uint (Nat.to_uint n).

(** The lower-case mapping of the code units below 256: the letters A
    to Z, and the accented capitals 192 to 222 except the multiplication
    sign 215. *)
Definition lower_ascii (c : ascii) : ascii :=
  let n := nat_of_ascii c in
  if ((65 <=? n) && (n <=? 90))
     || ((192 <=? n) && (n <=? 222) && negb (n =? 215))
  then ascii_of_nat (n + 32)
  else c.

Fixpoint toLowerCase (s : string) : string :=
  match s with
  | "" => ""
  | String c s' => String (lower_ascii c) (toLowerCase s')
  end.

(** White space and line terminators among the code units below 256. *)
Definition is_space (c : ascii) : bool :=
  let n := nat_of_ascii c in
  ((9 <=? n) && (n <=? 13)) || (n =? 32) || (n =? 160).

Fixpoint trimStart (s : string) : string :=
  match s with
  | "" => ""
  | String c s' => if is_space c then trimStart s' else s
  end.

Fixpoint trimEnd (s : string) : string :=
  match s with
  | "" => ""
  | String c s' =>
      match trimEnd s' with
      | "" => if is_space c then "" else String c ""
      | t => String c t
      end
  end.

Definition trim (s : string) : string := trimEnd (trimStart s).

(** [s.substring(0, n)] *)
Definition substring0 (n : nat) (s : string) : string := String.substring 0 n s.

(** [s.includes(sub)] *)
Fixpoint includes (sub s : string) : bool :=
  String.prefix sub s ||
  match s with
  | "" => false
  | String _ s' => includes sub s'
  end.

(** [s.split(",")] *)
Fixpoint split_comma (s : string) : list string :=
  match s with
  | "" => [""]
  | String c s' =>
      if Ascii.eqb c "," then "" :: split_comma s'
      else match split_comma s' with
           | [] => [String c ""]
           | w :: ws => String c w :: ws
           end
  end.

(** [l.join(sep)] *)
Fixpoint join (sep : string) (l : list string) : string :=
  match l with
  | [] => ""
  | [x] => x
  | x :: l' => x ++ sep ++ join sep l'
  end.

(** [s.replace(/\s+/g, " ")]: every maximal run of white space becomes
    one space; [in_run] tells that the previous code unit was white
    space. *)
Fixpoint collapse_from (in_run : bool) (s : string) : string :=
  match s with
  | "" => ""
  | String c s' =>
      if is_space c
      then if in_run then collapse_from true s'
           else String " " (collapse_from true s')
      else String c (collapse_from false s')
  end.

Definition collapse_spaces (s : string) : string := collapse_from false s.

(** ** The two regular expressions of the adapters *)

(** The suffix of [s] that starts at its first opening brace. *)
Fixpoint from_first_open (s : string) : option string :=
  match s with
  | "" => None
  | String c s' => if Ascii.eqb c "{" then Some s else from_first_open s'
  end.

(** The longest prefix of [s] that ends with a closing brace. *)
Fixpoint upto_last_close (s : string) : option string :=
  match s with
  | "" => None
  | String c s' =>
      match upto_last_close s' with
      | Some p => Some (String c p)
      | None => if Ascii.eqb c "}" then Some (String c "") else None
      end
  end.

(** [text.match(/\{[\s\S]*\}/)]: greedy, from the first opening brace
    to the last closing brace after it; [None] when there is no match.
    On a match the result is [jsonMatch[0]]. *)
Definition match_braces (text : string) : option string :=
  match from_first_open text with
  | Some s => upto_last_close s
  | None => None
  end.

Definition tag_char (c : ascii) : bool :=
  let n := nat_of_ascii c in
  ((97 <=? n) && (n <=? 122)) || ((48 <=? n) && (n <=? 57)) || (n =? 45).

Fixpoint all_chars (p : ascii -> bool) (s : string) : bool :=
  match s with
  | "" => true
  | String c s' => p c && all_chars p s'
  end.

(** [/^[a-z0-9-]+$/.test(s)] *)
Definition test_tag (s : string) : bool :=
  negb (String.eqb s "") && all_chars tag_char s.

End JS.

(* ================================================================== *)
(** * Effects: the I/O trace, the store, errors *)
(* ================================================================== *)

Import JS.

(** The eight capabilities of the pipeline. *)
Inductive Capability : Type :=
| Summary | SEO | Category | Tags          (* Phase 1 *)
| Schema | ImagePrompt | Embeddings         (* Phase 2 *)
| Validator.                                (* Phase 3 *)

Definition phase (k : Capability) : nat :=
  match k with
  | Summary | SEO | Category | Tags => 1
  | Schema | ImagePrompt | Embeddings => 2
  | Validator => 3
  end.

(** The row [createModule] inserts into [modules]. *)
Module ModuleData.
Record t : Type := mk {
  title : string;
  slug : string;
  category : json;
  tags : list string;
  summary_short : json;
  summary_medium : json;
  summary_long : json;
  meta_title : json;
  meta_description : json;
  seo_keywords : list string;
  schema_json : object;
  image_prompt : json;
  quality_score : number;
  validation_report : json;
  owner : string;
  source_url : option string;
  source_label : option string;
  latest_version : Z;
  status : string
}.
End ModuleData.

Inductive Row : Type :=
| ModuleRow (data : ModuleData.t)
| EmbeddingRow (module_id : string) (embedding : list json)
| VersionRow (module_id : string) (version : Z) (changelog : string).

Inductive Table : Type := modules | module_embeddings | module_versions.

(** What a run does to the outside world, in order. *)
Inductive Event : Type :=
| Invoke (k : Capability) (input : string)  (* a request to a remote model *)
| Insert (t : Table) (r : Row)              (* an insert sent to the database *)
| Rpc (query_embedding : list json) (match_threshold : Q) (match_count : Z).
                                            (* a call of the search function *)

(** A stored module: its generated id and its columns. *)
Definition Module_ : Type := (string * ModuleData.t)%type.

Record Database : Type := mkDatabase {
  stored_modules : list Module_;
  stored_embeddings : list (string * list json);
  stored_versions : list (string * Z * string)
}.

Record State : Type := mkState {
  trace : list Event;
  openaiClient : bool;     (* the module-level client singleton is set *)
  db : Database
}.

Definition M (A : Type) : Type := State -> State * (exn + A).

Definition ret {A} (a : A) : M A := fun s => (s, inr a).

Definition throw {A} (e : exn) : M A := fun s => (s, inl e).

Definition bind {A B} (m : M A) (k : A -> M B) : M B :=
  fun s =>
    match m s with
    | (s', inl e) => (s', inl e)
    | (s', inr a) => k a s'
    end.

(** [try { m } catch (error) { h error }] *)
Definition try_catch {A} (m : M A) (h : exn -> M A) : M A :=
  fun s =>
    match m s with
    | (s', inl e) => h e s'
    | (s', inr a) => (s', inr a)
    end.

Definition lift {A} (r : exn + A) : M A := fun s => (s, r).

(** The state after one more event. *)
Definition record (s : State) (e : Event) : State :=
  mkState (trace s ++ [e]) (openaiClient s) (db s).

Definition emit (e : Event) : M unit := fun s => (record s e, inr tt).

Declare Scope run_scope.
Delimit Scope run_scope with run.
Notation "x <- m ;; k" := (bind m (fun x => k))
  (at level 61, m at next level, right associativity) : run_scope.
Notation "' p <- m ;; k" := (bind m (fun p => k))
  (at level 61, p pattern, m at next level, right associativity) : run_scope.
Notation "m ;;; k" := (bind m (fun _ => k))
  (at level 61, right associativity) : run_scope.
Local Open Scope run_scope.

(** A [float8] of the database that is not infinite: a number, or NaN.
    PostgreSQL compares NaN as equal to itself and greater than every
    number. *)
Inductive float8 : Type :=
| Float8 (q : Q)
| NaN.

(** [1 - x]; a number stands for the computed value. *)
Definition one_minus (x : float8) : float8 :=
  match x with
  | Float8 q => Float8 (1 - q)
  | NaN => NaN
  end.

(** [x > t] for a number [t]. *)
Definition float8_gt (x : float8) (t : Q) : bool :=
  match x with
  | Float8 q => negb (Qle_bool q t)
  | NaN => true
  end.

(** The environment of a run: the built-ins and everything remote. *)
Record Env : Type := mkEnv {
  (** [JSON.parse] on a text that starts with an opening brace: a
      [SyntaxError] with its message, or an object. *)
  JSON_parse : string -> string + object;
  (** [JSON.stringify(v, null, indent)]; indent 0 is [JSON.stringify(v)]. *)
  JSON_stringify : nat -> json -> string;
  (** [String(v)] for a value that is not a string. *)
  ToString : json -> string;
  (** [v > n] with the coercions of the relational comparison, for an
      arbitrary property value [v]. *)
  gt_coerced : value -> nat -> bool;
  (** [agent.generate(prompt)]: rejects, or fulfils with a response
      whose [text] may be absent. *)
  agent_generate : Capability -> string -> exn + option string;
  (** [process.env.OPENAI_API_KEY] *)
  OPENAI_API_KEY : option string;
  (** [(await client.embeddings.create(...)).data[0]?.embedding] *)
  embeddings_create : string -> exn + value;
  (** The instant at which the promise of a capability settles. *)
  settled_at : Capability -> nat;
  (** [new Date().toISOString().split("T")[0]] *)
  today : string;
  (** [Date.now() - startTime] when the run ends. *)
  elapsed_ms : Z;
  (** The error the database returns for an insert, if any. *)
  insert_error : Table -> Row -> option string;
  (** The error the database returns for a remote procedure call. *)
  rpc_error : option string;
  (** [gen_random_uuid()] for the n-th stored module. *)
  gen_random_uuid : nat -> string;
  (** pgvector's cosine distance operator [<=>] on a stored vector and
      a query of the same dimension: a number, or NaN when one of the
      two has norm zero. *)
  cosine_distance : list json -> list json -> float8;
  (** In a call of the search function with this query, threshold and
      count: whether the row of the first module is produced before
      the row of the second when [ORDER BY] does not tell them apart. *)
  tie_order : list json -> Q -> Z -> Module_ -> Module_ -> bool;
  (** The message of the database for a count that is outside the
      range of its type [int]. *)
  int_out_of_range : Z -> string
}.

(** Template-literal interpolation of a value that has a conversion to
    a string ([JS.converts]). *)
Definition interpolate (env : Env) (v : json) : string :=
  match v with
  | JStr s => s
  | _ => ToString env v
  end.

(* ================================================================== *)
(** * The capability adapters ([src/agents]) *)
(* ================================================================== *)

Module SummaryResult.
Record t : Type := mk {
  summary_short : json;
  summary_medium : json;
  summary_long : json
}.
End SummaryResult.

Module SeoResult.
Record t : Type := mk {
  meta_title : json;
  meta_description : json;
  seo_keywords : json
}.
End SeoResult.

Module CategoryResult.
Record t : Type := mk {
  category : json;
  confidence : number;
  reasoning : json
}.
End CategoryResult.

Module ImagePromptResult.
Record t : Type := mk {
  image_prompt : json;
  style_notes : json
}.
End ImagePromptResult.

(** The object [validateMetadata] returns, read through the interface
    [ValidationResult]: the parsed response with [quality_score] and
    [passed] overwritten.  Its other properties are not read anywhere. *)
Module ValidationResult.
Record t : Type := mk {
  quality_score : number;
  passed : bool;
  validation_report : json
}.
End ValidationResult.

(** The second argument of [validateMetadata]. *)
Module Metadata.
Record t : Type := mk {
  summaries : SummaryResult.t;
  seo : SeoResult.t;
  category : CategoryResult.t;
  tags : list string;
  schema : object;
  imagePrompt : ImagePromptResult.t
}.
End Metadata.

(** A property that must be truthy: [!o.k] rejects the others. *)
Definition required (v : value) : option json :=
  if truthy v then v else None.

Section Adapters.

Variable env : Env.

(** The opening lines every agent-backed adapter repeats: call the
    agent, take the text of the response (the empty string when there
    is none), match the braces, parse.  A call that yields no usable
    response object counts as a rejection of the call. *)
Definition extract_json (k : Capability) (prompt : string) : M object :=
  emit (Invoke k prompt) ;;;
  response_text <- lift (agent_generate env k prompt) ;;
  let text := match response_text with Some t => t | None => "" end in
  match match_braces text with
  | None => throw (Error "No valid JSON found in response")
  | Some jsonMatch =>
      match JSON_parse env jsonMatch with
      | inl syntax_error => throw (Error syntax_error)
      | inr parsed => ret parsed
      end
  end.

(** [catch (error) { throw new Error(`<prefix>: ${message}`) }] *)
Definition rethrow {A} (prefix : string) (error : exn) : M A :=
  throw (Error (prefix ++ ": " ++ message_of error)).

Definition generateSummaries (markdownContent : string)
  : M SummaryResult.t :=
  try_catch
    (summaries <- extract_json Summary
       ("Analyze this markdown content and create three summaries:"
          ++ nl ++ nl ++ markdownContent) ;;
     match required (get summaries "summary_short"),
           required (get summaries "summary_medium"),
           required (get summaries "summary_long") with
     | Some short, Some medium, Some long =>
         ret (SummaryResult.mk short medium long)
     | _, _, _ => throw (Error "Missing required summary fields")
     end)
    (rethrow "Failed to generate summaries").

(** [v.length > n] for a truthy property value. *)
Definition length_exceeds (v : json) (n : nat) : bool :=
  match v with
  | JStr s => n <? String.length s
  | JArr l => n <? List.length l
  | JObj o => gt_coerced env (get o "length") n
  | JNull | JBool _ | JNum _ => false
  end.

(** [if (v.length > n) v = v.substring(0, n)]: only a string has
    [substring]. *)
Definition truncate (name : string) (v : json) (n : nat) : M json :=
  if length_exceeds v n then
    match v with
    | JStr s => ret (JStr (substring0 n s))
    | _ => throw (Error (name ++ ".substring is not a function"))
    end
  else ret v.

Definition generateSEOMetadata (markdownContent : string) : M SeoResult.t :=
  try_catch
    (metadata <- extract_json SEO
       ("Analyze this markdown content and create SEO metadata:"
          ++ nl ++ nl ++ markdownContent) ;;
     match required (get metadata "meta_title"),
           required (get metadata "meta_description"),
           required (get metadata "seo_keywords") with
     | Some title, Some description, Some keywords =>
         title' <- truncate "metadata.meta_title" title 60 ;;
         description' <-
           truncate "metadata.meta_description" description 160 ;;
         ret (SeoResult.mk title' description' keywords)
     | _, _, _ => throw (Error "Missing required SEO metadata fields")
     end)
    (rethrow "Failed to generate SEO metadata").

Definition categorizeContent (markdownContent : string)
  : M CategoryResult.t :=
  try_catch
    (result <- extract_json Category
       ("Analyze this markdown content and determine its category:"
          ++ nl ++ nl ++ markdownContent) ;;
     match required (get result "category"), get result "confidence" with
     | Some category, Some (JNum c) =>
         let confidence := if num_lt (Fin 1) c then num_div c 100 else c in
         ret (CategoryResult.mk
                category
                (Math_min (Math_max confidence (Fin 0)) (Fin 1))
                match required (get result "reasoning") with
                | Some r => r
                | None => JStr "No reasoning provided"
                end)
     | _, _ => throw (Error "Missing required category fields")
     end)
    (rethrow "Failed to categorize content").

(** [tags.map((tag) => tag.toLowerCase().trim())]: the callback throws a
    [TypeError] at the first element that is not a string. *)
Fixpoint lower_trim_all (tags : list json) : exn + list string :=
  match tags with
  | [] => inr []
  | JStr tag :: rest =>
      match lower_trim_all rest with
      | inr rest' => inr (trim (toLowerCase tag) :: rest')
      | inl e => inl e
      end
  | JNull :: _ =>
      inl (Error "Cannot read properties of null (reading 'toLowerCase')")
  | _ :: _ => inl (Error "tag.toLowerCase is not a function")
  end.

Definition generateTags (markdownContent : string) : M (list string) :=
  try_catch
    (result <- extract_json Tags
       ("Analyze this markdown content and generate relevant tags:"
          ++ nl ++ nl ++ markdownContent) ;;
     match get result "tags" with
     | Some (JArr tags) =>
         if List.length tags <? 3
         then throw (Error "Must have at least 3 tags")
         else
           let tags := if 5 <? List.length tags then firstn 5 tags else tags in
           lowered <- lift (lower_trim_all tags) ;;
           let normalizedTags :=
             filter (fun tag => (0 <? String.length tag) && test_tag tag)
                    lowered in
           if List.length normalizedTags <? 3
           then throw (Error "Not enough valid tags after normalization")
           else ret (firstn 5 normalizedTags)
     | _ => throw (Error "Tags must be an array")
     end)
    (rethrow "Failed to generate tags").

Definition is_schema_org (v : json) : bool :=
  match v with
  | JStr s => String.eqb s "https://schema.org"
  | _ => false
  end.

Definition generateSchemaOrgData (markdownContent : string) : M object :=
  try_catch
    (schema <- extract_json Schema
       ("Analyze this markdown content and generate Schema.org structured data:"
          ++ nl ++ nl ++ markdownContent) ;;
     match required (get schema "@context"),
           required (get schema "@type") with
     | Some context, Some _ =>
         let schema :=
           if is_schema_org context then schema
           else set schema "@context" (JStr "https://schema.org") in
         let schema :=
           if truthy (get schema "datePublished") then schema
           else set schema "datePublished" (JStr (today env)) in
         ret schema
     | _, _ =>
         throw (Error "Missing required Schema.org fields (@context, @type)")
     end)
    (rethrow "Failed to generate Schema.org data").

(** The warning logged for a prompt shorter than 100 characters has no
    effect on the result and is left out, as is all console output. *)
Definition generateImagePrompt (markdownContent : string)
  : M ImagePromptResult.t :=
  try_catch
    (result <- extract_json ImagePrompt
       ("Analyze this markdown content and create a compelling image prompt for a thumbnail:"
          ++ nl ++ nl ++ markdownContent) ;;
     match required (get result "image_prompt") with
     | Some imagePrompt =>
         imagePrompt' <- truncate "imagePrompt" imagePrompt 200 ;;
         ret (ImagePromptResult.mk
                imagePrompt'
                match required (get result "style_notes") with
                | Some notes => notes
                | None => JStr "No style notes provided"
                end)
     | None => throw (Error "Missing required image_prompt field")
     end)
    (rethrow "Failed to generate image prompt").

(** ** The embeddings adapter *)

Definition getOpenAIClient : M unit :=
  fun s =>
    if openaiClient s then (s, inr tt)
    else
      match OPENAI_API_KEY env with
      | None | Some "" =>
          (s, inl (Error
             "OPENAI_API_KEY environment variable is required for embeddings generation"))
      | Some _ => (mkState (trace s) true (db s), inr tt)
      end.

Definition dimension_mismatch (n : nat) : string :=
  "Unexpected embedding dimensions: " ++ string_of_nat n ++ " (expected 3072)".

(** The body of the [try] block. *)
Definition request_embedding (markdownContent : string) : M (list json) :=
  getOpenAIClient ;;;
  let cleanedContent :=
    substring0 30000 (trim (collapse_spaces markdownContent)) in
  if String.eqb cleanedContent ""
  then throw (Error "Content is empty after cleaning")
  else
    emit (Invoke Embeddings cleanedContent) ;;;
    embedding <- lift (embeddings_create env cleanedContent) ;;
    match embedding with
    | Some (JArr components) =>
        if negb (List.length components =? 3072)
        then throw (Error (dimension_mismatch (List.length components)))
        else ret components
    | _ => throw (Error "Invalid embedding response from OpenAI")
    end.

(** The [catch] block: more specific messages for three kinds of
    failure, the generic prefix for the rest. *)
Definition explain_embedding_failure (error : exn) : M (list json) :=
  match error with
  | Error message =>
      if includes "API key" message then
        throw (Error
          "OpenAI API key is invalid or missing. Please check your OPENAI_API_KEY environment variable.")
      else if includes "rate limit" message then
        throw (Error
          "OpenAI API rate limit exceeded. Please try again later.")
      else if includes "quota" message then
        throw (Error
          "OpenAI API quota exceeded. Please check your billing settings.")
      else rethrow "Failed to generate embeddings" error
  | Thrown => rethrow "Failed to generate embeddings" error
  end.

Definition generateEmbeddings (markdownContent : string) : M (list json) :=
  try_catch (request_embedding markdownContent) explain_embedding_failure.

(** ** The quality gate *)

Definition validationInput (originalContent : string) (metadata : Metadata.t)
  : string :=
  let summaries := Metadata.summaries metadata in
  let seo := Metadata.seo metadata in
  nl ++ "ORIGINAL CONTENT:" ++ nl
  ++ substring0 2000 originalContent ++ nl
  ++ nl ++ "GENERATED METADATA:" ++ nl
  ++ nl ++ "SUMMARIES:" ++ nl
  ++ "- Short: " ++ interpolate env (SummaryResult.summary_short summaries) ++ nl
  ++ "- Medium: " ++ interpolate env (SummaryResult.summary_medium summaries) ++ nl
  ++ "- Long: " ++ interpolate env (SummaryResult.summary_long summaries) ++ nl
  ++ nl ++ "SEO:" ++ nl
  ++ "- Meta Title: " ++ interpolate env (SeoResult.meta_title seo) ++ nl
  ++ "- Meta Description: " ++ interpolate env (SeoResult.meta_description seo) ++ nl
  ++ "- Keywords: " ++ interpolate env (SeoResult.seo_keywords seo) ++ nl
  ++ nl ++ "CATEGORIZATION:" ++ nl
  ++ "- Category: "
  ++ interpolate env (CategoryResult.category (Metadata.category metadata)) ++ nl
  ++ "- Tags: " ++ join ", " (Metadata.tags metadata) ++ nl
  ++ nl ++ "SCHEMA.ORG:" ++ nl
  ++ JSON_stringify env 2 (JObj (Metadata.schema metadata)) ++ nl
  ++ nl ++ "IMAGE PROMPT:" ++ nl
  ++ interpolate env
       (ImagePromptResult.image_prompt (Metadata.imagePrompt metadata)) ++ nl
  ++ nl ++ "Evaluate this metadata quality and return a validation score." ++ nl.

Definition validateMetadata (originalContent : string) (metadata : Metadata.t)
  : M ValidationResult.t :=
  try_catch
    (result <- extract_json Validator
                 (validationInput originalContent metadata) ;;
     match get result "quality_score",
           get result "passed",
           required (get result "validation_report") with
     | Some (JNum score), Some (JBool _), Some report =>
         let quality_score := Math_min (Math_max score (Fin 0)) (Fin 100) in
         ret (ValidationResult.mk
                quality_score
                (num_le (Fin 70) quality_score)
                report)
     | _, _, _ => throw (Error "Invalid validation response structure")
     end)
    (rethrow "Failed to validate metadata").

End Adapters.

(* ================================================================== *)
(** * The phase orchestrator ([src/services/aiPipeline.ts]) *)
(* ================================================================== *)

Module AIPipelineResult.
Record t : Type := mk {
  summary_short : json;
  summary_medium : json;
  summary_long : json;
  meta_title : json;
  meta_description : json;
  seo_keywords : json;
  category : json;
  category_confidence : number;
  tags : list string;
  schema_json : object;
  image_prompt : json;
  embedding : list json;
  quality_score : number;
  validation_report : json;
  processing_time_ms : Z;
  estimated_cost_usd : Q
}.
End AIPipelineResult.

(** Cost estimates per agent (in USD). *)
Module CostTable.
Record t : Type := mk {
  summary : Q;
  seo : Q;
  category : Q;
  tags : Q;
  schema : Q;
  imagePrompt : Q;
  embeddings : Q;
  validator : Q
}.
End CostTable.

Definition COST_ESTIMATES : CostTable.t :=
  CostTable.mk 0.001 0.002 0.003 0.003 0.02 0.01 0.013 0.02.

(** [Object.values(COST_ESTIMATES)], in property order. *)
Definition Object_values (c : CostTable.t) : list Q :=
  [ CostTable.summary c; CostTable.seo c; CostTable.category c;
    CostTable.tags c; CostTable.schema c; CostTable.imagePrompt c;
    CostTable.embeddings c; CostTable.validator c ].

(** ** [Promise.all] *)

(** Start a promise and keep its outcome, fulfilled or rejected. *)
Definition settle {A} (m : M A) : M (exn + A) :=
  fun s => let (s', r) := m s in (s', inr r).

Definition rejection {A} (r : exn + A) : option exn :=
  match r with
  | inl e => Some e
  | inr _ => None
  end.

(** Among promises given with their settling instants, the rejection
    that comes first; at equal instants, the one listed first. *)
Fixpoint first_rejection (l : list (nat * option exn)) : option (nat * exn) :=
  match l with
  | [] => None
  | (_, None) :: l' => first_rejection l'
  | (t, Some e) :: l' =>
      match first_rejection l' with
      | Some (t', e') => if t' <? t then Some (t', e') else Some (t, e)
      | None => Some (t, e)
      end
  end.

Definition reject_first {A} (l : list (nat * option exn)) : M A :=
  match first_rejection l with
  | Some (_, e) => throw e
  | None => throw Thrown
  end.

(** [await Promise.all([pa, pb, pc, pd])]: the four calls are made in
    order and each sends its request at once, before any response is
    awaited; what an adapter does with its response does not touch the
    state, so it is run here in call order.  The result is the tuple of
    the four values, or the rejection that settles first. *)
Definition Promise_all4 {A B C D} (ta tb tc td : nat)
  (pa : M A) (pb : M B) (pc : M C) (pd : M D) : M (A * B * C * D) :=
  ra <- settle pa ;;
  rb <- settle pb ;;
  rc <- settle pc ;;
  rd <- settle pd ;;
  match ra, rb, rc, rd with
  | inr a, inr b, inr c, inr d => ret (a, b, c, d)
  | _, _, _, _ =>
      reject_first [ (ta, rejection ra); (tb, rejection rb);
                     (tc, rejection rc); (td, rejection rd) ]
  end.

Definition Promise_all3 {A B C} (ta tb tc : nat)
  (pa : M A) (pb : M B) (pc : M C) : M (A * B * C) :=
  ra <- settle pa ;;
  rb <- settle pb ;;
  rc <- settle pc ;;
  match ra, rb, rc with
  | inr a, inr b, inr c => ret (a, b, c)
  | _, _, _ =>
      reject_first [ (ta, rejection ra); (tb, rejection rb);
                     (tc, rejection rc) ]
  end.

(** [console.log] of a template literal that interpolates [values]
    ([None] is [undefined], which converts): the output is left out,
    the conversion is not. *)
Definition console_log (values : list value) : M unit :=
  if forallb (fun v => match v with
                       | Some x => converts x
                       | None => true
                       end) values
  then ret tt
  else throw (Error no_primitive_value).

Section Pipeline.

Variable env : Env.

Definition phase1 (markdownContent : string)
  : M (SummaryResult.t * SeoResult.t * CategoryResult.t * list string) :=
  Promise_all4
    (settled_at env Summary) (settled_at env SEO)
    (settled_at env Category) (settled_at env Tags)
    (generateSummaries env markdownContent)
    (generateSEOMetadata env markdownContent)
    (categorizeContent env markdownContent)
    (generateTags env markdownContent).

Definition phase2 (markdownContent : string)
  : M (object * ImagePromptResult.t * list json) :=
  Promise_all3
    (settled_at env Schema) (settled_at env ImagePrompt)
    (settled_at env Embeddings)
    (generateSchemaOrgData env markdownContent)
    (generateImagePrompt env markdownContent)
    (generateEmbeddings env markdownContent).

Definition processMarkdownWithAI (markdownContent : string)
  : M AIPipelineResult.t :=
  let totalCost := 0%Q in
  try_catch
    ('(summaries, seo, categoryResult, tags) <- phase1 markdownContent ;;
     let totalCost :=
       (totalCost
        + (CostTable.summary COST_ESTIMATES + CostTable.seo COST_ESTIMATES
           + CostTable.category COST_ESTIMATES
           + CostTable.tags COST_ESTIMATES))%Q in
     (* `   - Category: ${categoryResult.category}` *)
     console_log [Some (CategoryResult.category categoryResult)] ;;;
     '(schema, imagePrompt, embedding) <- phase2 markdownContent ;;
     let totalCost :=
       (totalCost
        + (CostTable.schema COST_ESTIMATES
           + CostTable.imagePrompt COST_ESTIMATES
           + CostTable.embeddings COST_ESTIMATES))%Q in
     validation <-
       validateMetadata env markdownContent
         (Metadata.mk summaries seo categoryResult tags schema imagePrompt) ;;
     let totalCost := (totalCost + CostTable.validator COST_ESTIMATES)%Q in
     (* `   Feedback: ${validation.validation_report.overall_feedback}` *)
     (if ValidationResult.passed validation then ret tt
      else console_log
             [property (ValidationResult.validation_report validation)
                "overall_feedback"]) ;;;
     ret (AIPipelineResult.mk
            (SummaryResult.summary_short summaries)
            (SummaryResult.summary_medium summaries)
            (SummaryResult.summary_long summaries)
            (SeoResult.meta_title seo)
            (SeoResult.meta_description seo)
            (SeoResult.seo_keywords seo)
            (CategoryResult.category categoryResult)
            (CategoryResult.confidence categoryResult)
            tags
            schema
            (ImagePromptResult.image_prompt imagePrompt)
            embedding
            (ValidationResult.quality_score validation)
            (ValidationResult.validation_report validation)
            (elapsed_ms env)
            totalCost))
    (rethrow "AI Pipeline failed").

End Pipeline.

(** Estimate cost for processing markdown content. *)
Module CostEstimate.
Record t : Type := mk {
  total : Q;
  perModule : Q;
  breakdown : CostTable.t
}.
End CostEstimate.

Definition estimateProcessingCost (contentCount : Q) : CostEstimate.t :=
  let perModuleCost :=
    fold_left (fun sum cost => (sum + cost)%Q) (Object_values COST_ESTIMATES) 0%Q in
  CostEstimate.mk (perModuleCost * contentCount)%Q perModuleCost COST_ESTIMATES.

(** The initial state of a process: nothing done, no client yet. *)
Definition empty_db : Database := mkDatabase [] [] [].
Definition initial : State := mkState [] false empty_db.

(* ================================================================== *)
(** * Cosine similarity ([src/agents/embeddingsAgent.ts]) *)
(* ================================================================== *)

(** JavaScript numbers are binary64 floating-point numbers. *)

(** The loop body, over the common indices of [a] and [b]; the
    accumulator is [(dotProduct, normA, normB)]. *)
Fixpoint accumulate (a b : list float) (acc : float * float * float)
  : float * float * float :=
  match a, b with
  | x :: a', y :: b' =>
      let '(dotProduct, normA, normB) := acc in
      accumulate a' b'
        (dotProduct + x * y, normA + x * x, normB + y * y)%float
  | _, _ => acc
  end.

Definition cosineSimilarity (a b : list float) : exn + float :=
  if negb (List.length a =? List.length b)
  then inl (Error "Embeddings must have the same dimensions")
  else
    let '(dotProduct, normA, normB) :=
      accumulate a b (0, 0, 0)%float in
    inr (dotProduct / (PrimFloat.sqrt normA * PrimFloat.sqrt normB))%float.

(** [expect(x).toBeCloseTo(1, 5)] of the repository's test. *)
Definition close_to_one (x : float) : bool :=
  PrimFloat.ltb (PrimFloat.abs (PrimFloat.sub x 1%float)) 0x1.4f8b588e368f1p-18%float.

(* ================================================================== *)
(** * The search function ([migrations/004_add_vector_search.sql]) *)
(* ================================================================== *)

(** A row of the result table: the module columns and [similarity]. *)
Module SearchRow.
Record t : Type := mk {
  module : Module_;
  similarity : float8
}.
End SearchRow.

(** The range of the type [int]. *)
Definition is_int (z : Z) : bool :=
  ((- 2147483648 <=? z) && (z <=? 2147483647))%Z.

(** [r] is produced before [r'] by an ascending [ORDER BY] on the
    distance: the smaller distance first, NaN after every number;
    [first] decides between two rows at the same distance. *)
Definition ordered_before (first : Module_ -> Module_ -> bool)
  (r r' : float8 * Module_) : bool :=
  match fst r, fst r' with
  | Float8 x, Float8 y =>
      if Qeq_bool x y then first (snd r) (snd r') else Qle_bool x y
  | Float8 _, NaN => true
  | NaN, Float8 _ => false
  | NaN, NaN => first (snd r) (snd r')
  end.

Fixpoint insert_by_distance (first : Module_ -> Module_ -> bool)
  (r : float8 * Module_) (l : list (float8 * Module_))
  : list (float8 * Module_) :=
  match l with
  | [] => [r]
  | r' :: l' =>
      if ordered_before first r r' then r :: r' :: l'
      else r' :: insert_by_distance first r l'
  end.

Fixpoint order_by_distance (first : Module_ -> Module_ -> bool)
  (l : list (float8 * Module_)) : list (float8 * Module_) :=
  match l with
  | [] => []
  | r :: l' => insert_by_distance first r (order_by_distance first l')
  end.

Section Search.

Variable env : Env.

(** [FROM modules m INNER JOIN module_embeddings e ON m.id = e.module_id],
    each row with its distance [e.embedding <=> query_embedding]. *)
Definition joined (d : Database) (query_embedding : list json)
  : list (float8 * Module_) :=
  flat_map
    (fun m =>
       map (fun e => (cosine_distance env (snd e) query_embedding, m))
           (filter (fun e => String.eqb (fst m) (fst e)) (stored_embeddings d)))
    (stored_modules d).

(** The function is entered with a count of type [int]; then
    [WHERE 1 - distance > match_threshold], [ORDER BY distance] and
    [LIMIT match_count], which fails on a negative count. *)
Definition search_modules_by_embedding (d : Database)
  (query_embedding : list json)
  (match_threshold : option Q) (match_count : option Z)
  : string + list SearchRow.t :=
  let match_threshold :=
    match match_threshold with Some t => t | None => 0.5%Q end in
  let match_count :=
    match match_count with Some c => c | None => 10%Z end in
  if negb (is_int match_count) then inl (int_out_of_range env match_count)
  else if (match_count <? 0)%Z then inl "LIMIT must not be negative"
  else
    inr (map (fun r => SearchRow.mk (snd r) (one_minus (fst r)))
           (firstn (Z.to_nat match_count)
              (order_by_distance
                 (tie_order env query_embedding match_threshold match_count)
                 (filter
                    (fun r => float8_gt (one_minus (fst r)) match_threshold)
                    (joined d query_embedding))))).

End Search.

(* ================================================================== *)
(** * Record creation and semantic search
      ([src/services/moduleService.ts]) *)
(* ================================================================== *)

Module CreateModuleInput.
Record t : Type := mk {
  title : string;
  markdownContent : string;
  owner : option string;
  source_url : option string;
  source_label : option string
}.
End CreateModuleInput.

(** [limit] is an integer, as the route's schema requires. *)
Module SemanticSearchInput.
Record t : Type := mk {
  query : string;
  limit : option Z;
  threshold : option Q
}.
End SemanticSearchInput.

Definition slug_char (c : ascii) : bool :=
  let n := nat_of_ascii c in
  ((97 <=? n) && (n <=? 122)) || ((48 <=? n) && (n <=? 57)).

(** [.replace(/[^a-z0-9]+/g, "-")] *)
Fixpoint dash_runs (in_run : bool) (s : string) : string :=
  match s with
  | "" => ""
  | String c s' =>
      if slug_char c then String c (dash_runs false s')
      else if in_run then dash_runs true s'
           else String "-" (dash_runs true s')
  end.

Fixpoint strip_leading_dashes (s : string) : string :=
  match s with
  | "" => ""
  | String c s' => if Ascii.eqb c "-" then strip_leading_dashes s' else s
  end.

Fixpoint strip_trailing_dashes (s : string) : string :=
  match s with
  | "" => ""
  | String c s' =>
      match strip_trailing_dashes s' with
      | "" => if Ascii.eqb c "-" then "" else String c ""
      | t => String c t
      end
  end.

(** Generate a URL-safe slug from a title. *)
Definition generateSlug (title : string) : string :=
  strip_trailing_dashes
    (strip_leading_dashes (dash_runs false (toLowerCase title))).

Definition update_db (f : Database -> Database) : M unit :=
  fun s => (mkState (trace s) (openaiClient s) (f (db s)), inr tt).

Definition get_db : M Database := fun s => (s, inr (db s)).

Section ModuleService.

Variable env : Env.

(** [supabase.from(table).insert([row])]: the request is sent; the row
    is stored unless the database answers with an error. *)
Definition supabase_insert (t : Table) (r : Row) (store : Database -> Database)
  : M (option string) :=
  emit (Insert t r) ;;;
  match insert_error env t r with
  | Some message => ret (Some message)
  | None => update_db store ;;; ret None
  end.

Definition createModule (input : CreateModuleInput.t)
  : M (Module_ * AIPipelineResult.t) :=
  (* Step 1: process markdown through the pipeline *)
  aiResult <-
    processMarkdownWithAI env (CreateModuleInput.markdownContent input) ;;
  (* Step 2: check quality threshold *)
  if num_lt (AIPipelineResult.quality_score aiResult) (Fin 70)
  then
    throw (Error
      ("Module quality score ("
         ++ interpolate env (JNum (AIPipelineResult.quality_score aiResult))
         ++ ") is below threshold (70). Validation feedback: "
         ++ JSON_stringify env 0 (AIPipelineResult.validation_report aiResult)))
  else
    (* Step 3: generate slug *)
    let slug := generateSlug (CreateModuleInput.title input) in
    (* Step 4: insert module *)
    seo_keywords <-
      match AIPipelineResult.seo_keywords aiResult with
      | JStr keywords => ret (map trim (split_comma keywords))
      | _ => throw (Error "aiResult.seo_keywords.split is not a function")
      end ;;
    let moduleData :=
      ModuleData.mk
        (CreateModuleInput.title input)
        slug
        (AIPipelineResult.category aiResult)
        (AIPipelineResult.tags aiResult)
        (AIPipelineResult.summary_short aiResult)
        (AIPipelineResult.summary_medium aiResult)
        (AIPipelineResult.summary_long aiResult)
        (AIPipelineResult.meta_title aiResult)
        (AIPipelineResult.meta_description aiResult)
        seo_keywords
        (AIPipelineResult.schema_json aiResult)
        (AIPipelineResult.image_prompt aiResult)
        (AIPipelineResult.quality_score aiResult)
        (AIPipelineResult.validation_report aiResult)
        match CreateModuleInput.owner input with
        | None | Some "" => "Keith Armstrong"
        | Some owner => owner
        end
        (CreateModuleInput.source_url input)
        (CreateModuleInput.source_label input)
        1%Z
        "draft" in
    before <- get_db ;;
    let module : Module_ :=
      (gen_random_uuid env (List.length (stored_modules before)), moduleData) in
    moduleError <-
      supabase_insert modules (ModuleRow moduleData)
        (fun d => mkDatabase (stored_modules d ++ [module])
                    (stored_embeddings d) (stored_versions d)) ;;
    match moduleError with
    | Some message => throw (Error ("Failed to create module: " ++ message))
    | None =>
        (* Step 5: insert embedding; a failure is only logged *)
        supabase_insert module_embeddings
          (EmbeddingRow (fst module) (AIPipelineResult.embedding aiResult))
          (fun d => mkDatabase (stored_modules d)
                      (stored_embeddings d
                         ++ [(fst module, AIPipelineResult.embedding aiResult)])
                      (stored_versions d)) ;;;
        (* Step 6: create initial version; a failure is only logged *)
        supabase_insert module_versions
          (VersionRow (fst module) 1%Z "Initial version")
          (fun d => mkDatabase (stored_modules d) (stored_embeddings d)
                      (stored_versions d
                         ++ [(fst module, 1%Z, "Initial version")])) ;;;
        ret (module, aiResult)
    end.

(** Search modules using semantic vector similarity. *)
Definition semanticSearch (input : SemanticSearchInput.t)
  : M (list SearchRow.t) :=
  queryEmbedding <- generateEmbeddings env (SemanticSearchInput.query input) ;;
  let limit :=
    match SemanticSearchInput.limit input with
    | Some l => if (l =? 0)%Z then 10%Z else l
    | None => 10%Z
    end in
  let threshold :=
    match SemanticSearchInput.threshold input with
    | Some t => if Qeq_bool t 0 then 0.5%Q else t
    | None => 0.5%Q
    end in
  emit (Rpc queryEmbedding threshold limit) ;;;
  d <- get_db ;;
  match rpc_error env with
  | Some message => throw (Error ("Semantic search failed: " ++ message))
  | None =>
      match search_modules_by_embedding env d queryEmbedding
              (Some threshold) (Some limit) with
      | inl message => throw (Error ("Semantic search failed: " ++ message))
      | inr data => ret data
      end
  end.

End ModuleService.

(* ================================================================== *)
(** * The request schema in front of the pipeline
      ([src/routes/aiRoutes.ts]) *)
(* ================================================================== *)

Inductive HttpResponse : Type :=
| Ok200 (data : AIPipelineResult.t)
| BadRequest400 (error : string) (details : string)
| ServerError500 (error : string).

(** [ProcessMarkdownSchema.parse(req.body)]:
    [z.object({ content: z.string().min(10, ...) })]. *)
Definition ProcessMarkdownSchema_parse (body : value) : string + string :=
  match body with
  | Some (JObj o) =>
      match get o "content" with
      | Some (JStr content) =>
          if String.length content <? 10
          then inl "Content must be at least 10 characters"
          else inr content
      | _ => inl "Invalid input: expected string"
      end
  | _ => inl "Invalid input: expected object"
  end.

Section Routes.

Variable env : Env.

(** [POST /api/ai/process] *)
Definition post_process (body : value) : M HttpResponse :=
  match ProcessMarkdownSchema_parse body with
  | inl issue => ret (BadRequest400 "Validation error" issue)
  | inr content =>
      try_catch
        (result <- processMarkdownWithAI env content ;;
         ret (Ok200 result))
        (fun error =>
           ret (ServerError500
                  match error with
                  | Error message => message
                  | Thrown => "AI processing failed"
                  end))
  end.

End Routes.

(* ================================================================== *)
(** * Lookups, version history and deletion
      ([src/services/moduleService.ts], [migrations/001], [003]) *)
(* ================================================================== *)

(** The answers of the database to the statements below.  Of what a
    run does to the outside world the trace keeps the remote requests,
    the inserts and the search calls; selects and deletes are seen
    through their results and through the database. *)
Record Failures : Type := mkFailures {
  (** The error the database returns for a select, if any. *)
  select_error : Table -> option string;
  (** The error the database returns for a delete, if any. *)
  delete_error : option string;
  (** The input function of the type [uuid], applied to the text that
      is compared with a column of that type: the id the text spells,
      as the database prints ids, or the error for a text that spells
      none.  The function accepts other spellings of an id than the
      printed one (upper-case digits among them). *)
  uuid_in : string -> string + string
}.

(** A row of [module_versions]: module id, version, changelog. *)
Definition Version : Type := (string * Z * string)%type.

(** [ORDER BY version DESC] *)
Fixpoint insert_by_version (v : Version) (l : list Version) : list Version :=
  match l with
  | [] => [v]
  | v' :: l' =>
      if (snd (fst v') <=? snd (fst v))%Z then v :: v' :: l'
      else v' :: insert_by_version v l'
  end.

Fixpoint order_by_version (l : list Version) : list Version :=
  match l with
  | [] => []
  | v :: l' => insert_by_version v (order_by_version l')
  end.

Section Lookups.

Variable failures : Failures.

(** [supabase.from("modules").select("*").eq(column, value).single()]:
    the row that matches, as [data]; there is an [error] instead when
    the database fails, and when the rows that match are not exactly
    one.  The callers only log the error, which is left out. *)
Definition select_single (matching : Module_ -> bool) (d : Database)
  : option Module_ :=
  match select_error failures modules with
  | Some _ => None
  | None =>
      match filter matching (stored_modules d) with
      | [data] => Some data
      | _ => None
      end
  end.

(** The id a text denotes where it is compared with the ids [ids] of
    stored rows.  A stored id is a text the database printed, and
    denotes itself; any other text goes through [uuid_in]. *)
Definition denoted (ids : list string) (text : string) : string + string :=
  if existsb (String.eqb text) ids then inr text else uuid_in failures text.

(** Get a module by ID: [null] on an error. *)
Definition getModuleById (id : string) : M (option Module_) :=
  d <- get_db ;;
  match denoted (map fst (stored_modules d)) id with
  | inl _ => ret None
  | inr uuid => ret (select_single (fun m => String.eqb (fst m) uuid) d)
  end.

(** Get a module by slug. *)
Definition getModuleBySlug (slug : string) : M (option Module_) :=
  d <- get_db ;;
  ret (select_single
         (fun m => String.eqb (ModuleData.slug (snd m)) slug) d).

(** Delete a module.  The foreign keys of [module_versions] and
    [module_embeddings] are declared [ON DELETE CASCADE]. *)
Definition deleteModule (id : string) : M unit :=
  d <- get_db ;;
  match delete_error failures, denoted (map fst (stored_modules d)) id with
  | Some message, _ | None, inl message =>
      throw (Error ("Failed to delete module: " ++ message))
  | None, inr uuid =>
      update_db
        (fun d =>
           mkDatabase
             (filter (fun m => negb (String.eqb (fst m) uuid))
                (stored_modules d))
             (filter (fun e => negb (String.eqb (fst e) uuid))
                (stored_embeddings d))
             (filter (fun v => negb (String.eqb (fst (fst v)) uuid))
                (stored_versions d)))
  end.

(** Get module versions, latest first. *)
Definition getModuleVersions (moduleId : string) : M (list Version) :=
  d <- get_db ;;
  match select_error failures module_versions,
        denoted (map (fun v : Version => fst (fst v)) (stored_versions d))
          moduleId with
  | Some message, _ | None, inl message =>
      throw (Error ("Failed to get module versions: " ++ message))
  | None, inr uuid =>
      ret (order_by_version
             (filter (fun v => String.eqb (fst (fst v)) uuid)
                (stored_versions d)))
  end.

End Lookups.

(* ================================================================== *)
(** * The module routes ([src/routes/moduleRoutes.ts]) and the cost
      route ([src/routes/aiRoutes.ts]) *)
(* ================================================================== *)

(** [Number.isInteger] on a finite number. *)
Definition is_integer (q : Q) : bool := (Z.pos (Qden (Qred q)) =? 1)%Z.

(** An optional property of a request body: absent, or of the right
    kind.  [None] is a validation issue. *)
Definition optional {A} (check : json -> option A) (v : value)
  : option (option A) :=
  match v with
  | None => Some None
  | Some x =>
      match check x with
      | Some a => Some (Some a)
      | None => None
      end
  end.

(** [z.number().int().min(1).max(100)] *)
Definition limit_schema (v : json) : option Z :=
  match v with
  | JNum (Fin q) =>
      if is_integer q && Qle_bool 1 q && Qle_bool q 100
      then Some (Qnum (Qred q)) else None
  | _ => None
  end.

(** [z.number().min(0).max(1)] *)
Definition threshold_schema (v : json) : option Q :=
  match v with
  | JNum (Fin q) => if Qle_bool 0 q && Qle_bool q 1 then Some q else None
  | _ => None
  end.

(** [SemanticSearchSchema.parse(req.body)]; [None] stands for the
    [ZodError], whose issues are left out. *)
Definition SemanticSearchSchema_parse (body : value)
  : option SemanticSearchInput.t :=
  match body with
  | Some (JObj o) =>
      match get o "query",
            optional limit_schema (get o "limit"),
            optional threshold_schema (get o "threshold") with
      | Some (JStr query), Some limit, Some threshold =>
          if 1 <=? String.length query
          then Some (SemanticSearchInput.mk query limit threshold)
          else None
      | _, _, _ => None
      end
  | _ => None
  end.

Inductive SearchResponse : Type :=
| SearchOk200 (query : string) (results : list SearchRow.t) (count : nat)
| SearchBadRequest400
| SearchServerError500 (error : string).

(** [z.string().min(1).max(200)], [z.string().min(10)], [z.string()] *)
Definition string_schema (min : nat) (max : option nat) (v : json)
  : option string :=
  match v with
  | JStr s =>
      if (min <=? String.length s)
         && match max with
            | Some n => String.length s <=? n
            | None => true
            end
      then Some s else None
  | _ => None
  end.

Inductive CreateResponse : Type :=
| Created201 (module : Module_) (quality_score : number)
    (processing_time_ms : Z) (estimated_cost_usd : Q)
| CreateBadRequest400
| CreateServerError500 (error : string).

Inductive ModuleResponse : Type :=
| ModuleOk200 (data : Module_)
| ModuleNotFound404.

Definition is_hex (c : ascii) : bool :=
  let n := nat_of_ascii c in
  ((48 <=? n) && (n <=? 57)) || ((97 <=? n) && (n <=? 102))
  || ((65 <=? n) && (n <=? 70)).

(** [n] hexadecimal digits at the start of [s]; what follows them. *)
Fixpoint hex_digits (n : nat) (s : string) : option string :=
  match n, s with
  | 0, _ => Some s
  | S n', String c s' => if is_hex c then hex_digits n' s' else None
  | S _, "" => None
  end.

(** A group of [n] hexadecimal digits and a dash. *)
Definition hex_group (n : nat) (s : string) : option string :=
  match hex_digits n s with
  | Some (String c s') => if Ascii.eqb c "-" then Some s' else None
  | _ => None
  end.

(** [/^[0-9a-f]{8}-[0-9a-f]{4}-[0-9a-f]{4}-[0-9a-f]{4}-[0-9a-f]{12}$/i
    .test(identifier)] *)
Definition isUUID (identifier : string) : bool :=
  match hex_group 8 identifier with
  | Some s1 =>
      match hex_group 4 s1 with
      | Some s2 =>
          match hex_group 4 s2 with
          | Some s3 =>
              match hex_group 4 s3 with
              | Some s4 =>
                  match hex_digits 12 s4 with
                  | Some "" => true
                  | _ => false
                  end
              | None => false
              end
          | None => false
          end
      | None => false
      end
  | None => false
  end.

Inductive DeleteResponse : Type :=
| DeleteOk200
| DeleteServerError500 (error : string).

(** [EstimateCostSchema.parse(req.body)]:
    [z.number().int().positive().max(10000)]. *)
Definition EstimateCostSchema_parse (body : value) : option Q :=
  match body with
  | Some (JObj o) =>
      match get o "count" with
      | Some (JNum (Fin q)) =>
          if is_integer q && negb (Qle_bool q 0) && Qle_bool q 10000
          then Some q else None
      | _ => None
      end
  | _ => None
  end.

Inductive EstimateResponse : Type :=
| EstimateOk200 (estimate : CostEstimate.t) (count : Q)
| EstimateBadRequest400.

(** [POST /api/ai/estimate-cost]: [estimateProcessingCost] does not
    throw, so that the handler's 500 answer is out of reach. *)
Definition post_estimate_cost (body : value) : EstimateResponse :=
  match EstimateCostSchema_parse body with
  | None => EstimateBadRequest400
  | Some count => EstimateOk200 (estimateProcessingCost count) count
  end.

Section ModuleRoutes.

Variable env : Env.
Variable failures : Failures.

(** [z.string().url()] on a string. *)
Variable is_url : string -> bool.

Definition url_schema (v : json) : option string :=
  match v with
  | JStr s => if is_url s then Some s else None
  | _ => None
  end.

(** [CreateModuleSchema.parse(req.body)] *)
Definition CreateModuleSchema_parse (body : value)
  : option CreateModuleInput.t :=
  match body with
  | Some (JObj o) =>
      match get o "title", get o "markdownContent" with
      | Some title, Some markdownContent =>
          match string_schema 1 (Some 200) title,
                string_schema 10 None markdownContent,
                optional (string_schema 0 None) (get o "owner"),
                optional url_schema (get o "source_url"),
                optional (string_schema 0 None) (get o "source_label") with
          | Some title, Some markdownContent, Some owner, Some source_url,
            Some source_label =>
              Some (CreateModuleInput.mk title markdownContent owner
                      source_url source_label)
          | _, _, _, _, _ => None
          end
      | _, _ => None
      end
  | _ => None
  end.

(** [POST /api/modules/create] *)
Definition post_create (body : value) : M CreateResponse :=
  match CreateModuleSchema_parse body with
  | None => ret CreateBadRequest400
  | Some input =>
      try_catch
        ('(module, aiResult) <- createModule env input ;;
         ret (Created201 module
                (AIPipelineResult.quality_score aiResult)
                (AIPipelineResult.processing_time_ms aiResult)
                (AIPipelineResult.estimated_cost_usd aiResult)))
        (fun error =>
           ret (CreateServerError500
                  match error with
                  | Error message => message
                  | Thrown => "Failed to create module"
                  end))
  end.

(** [POST /api/modules/search] *)
Definition post_search (body : value) : M SearchResponse :=
  match SemanticSearchSchema_parse body with
  | None => ret SearchBadRequest400
  | Some input =>
      try_catch
        (results <- semanticSearch env input ;;
         ret (SearchOk200 (SemanticSearchInput.query input) results
                (List.length results)))
        (fun error =>
           ret (SearchServerError500
                  match error with
                  | Error message => message
                  | Thrown => "Search failed"
                  end))
  end.

(** [GET /api/modules/:identifier]: by id when the identifier has the
    form of a UUID, else by slug. *)
Definition get_module (identifier : string) : M ModuleResponse :=
  module <-
    (if isUUID identifier then getModuleById failures identifier
     else getModuleBySlug failures identifier) ;;
  match module with
  | None => ret ModuleNotFound404
  | Some data => ret (ModuleOk200 data)
  end.

(** [DELETE /api/modules/:id] *)
Definition delete_module (id : string) : M DeleteResponse :=
  try_catch
    (deleteModule failures id ;;; ret DeleteOk200)
    (fun error =>
       ret (DeleteServerError500
              match error with
              | Error message => message
              | Thrown => "Failed to delete module"
              end)).

End ModuleRoutes.

(* ================================================================== *)
(** * Vocabulary of the properties *)
(* ================================================================== *)

(** The request each agent-backed adapter sends for a document. *)
Definition request (k : Capability) (markdownContent : string) : string :=
  match k with
  | Summary => "Analyze this markdown content and create three summaries:"
  | SEO => "Analyze this markdown content and create SEO metadata:"
  | Category => "Analyze this markdown content and determine its category:"
  | Tags => "Analyze this markdown content and generate relevant tags:"
  | Schema =>
      "Analyze this markdown content and generate Schema.org structured data:"
  | ImagePrompt =>
      "Analyze this markdown content and create a compelling image prompt for a thumbnail:"
  | Embeddings | Validator => ""
  end ++ nl ++ nl ++ markdownContent.

(** The four requests of Phase 1, in the order they are sent. *)
Definition phase1_requests (markdownContent : string) : list Event :=
  [ Invoke Summary (request Summary markdownContent);
    Invoke SEO (request SEO markdownContent);
    Invoke Category (request Category markdownContent);
    Invoke Tags (request Tags markdownContent) ].

(** The two agent requests of Phase 2. *)
Definition phase2_requests (markdownContent : string) : list Event :=
  [ Invoke Schema (request Schema markdownContent);
    Invoke ImagePrompt (request ImagePrompt markdownContent) ].

(** What [generateEmbeddings] sends to the provider. *)
Definition cleanedContent (markdownContent : string) : string :=
  substring0 30000 (trim (collapse_spaces markdownContent)).

(** The state after a list of events. *)
Definition record_all (s : State) (evs : list Event) : State :=
  mkState (trace s ++ evs) (openaiClient s) (db s).

(** The rejection of a Phase 1 adapter on a document, if it rejects. *)
Definition phase1_rejection (env : Env) (markdownContent : string)
  (k : Capability) : option exn :=
  match k with
  | Summary => rejection (snd (generateSummaries env markdownContent initial))
  | SEO => rejection (snd (generateSEOMetadata env markdownContent initial))
  | Category => rejection (snd (categorizeContent env markdownContent initial))
  | Tags => rejection (snd (generateTags env markdownContent initial))
  | Schema | ImagePrompt | Embeddings | Validator => None
  end.

(** The embeddings client can be obtained: it is cached, or the key is
    set. *)
Definition client_available (env : Env) (s : State) : Prop :=
  openaiClient s = true
  \/ exists key, OPENAI_API_KEY env = Some key /\ key <> "".

Definition is_digit (c : ascii) : bool :=
  let n := nat_of_ascii c in (48 <=? n) && (n <=? 57).

(** The result the orchestrator assembles from the eight outputs. *)
Definition assemble (env : Env) (metadata : Metadata.t)
  (embedding : list json) (validation : ValidationResult.t)
  : AIPipelineResult.t :=
  let summaries := Metadata.summaries metadata in
  let seo := Metadata.seo metadata in
  AIPipelineResult.mk
    (SummaryResult.summary_short summaries)
    (SummaryResult.summary_medium summaries)
    (SummaryResult.summary_long summaries)
    (SeoResult.meta_title seo)
    (SeoResult.meta_description seo)
    (SeoResult.seo_keywords seo)
    (CategoryResult.category (Metadata.category metadata))
    (CategoryResult.confidence (Metadata.category metadata))
    (Metadata.tags metadata)
    (Metadata.schema metadata)
    (ImagePromptResult.image_prompt (Metadata.imagePrompt metadata))
    embedding
    (ValidationResult.quality_score validation)
    (ValidationResult.validation_report validation)
    (elapsed_ms env)
    (0 + (CostTable.summary COST_ESTIMATES + CostTable.seo COST_ESTIMATES
          + CostTable.category COST_ESTIMATES + CostTable.tags COST_ESTIMATES)
     + (CostTable.schema COST_ESTIMATES + CostTable.imagePrompt COST_ESTIMATES
        + CostTable.embeddings COST_ESTIMATES)
     + CostTable.validator COST_ESTIMATES)%Q.

(** Phase 2 is started: Phase 1 has fulfilled and the category it found
    could be written to the console. *)
Definition phase2_started (env : Env) (markdownContent : string) : bool :=
  match snd (phase1 env markdownContent initial) with
  | inr (_, _, categoryResult, _) =>
      converts (CategoryResult.category categoryResult)
  | inl _ => false
  end.

(** The warning for a result that did not pass can be written: the
    feedback it interpolates converts to a string. *)
Definition warning_converts (validation : ValidationResult.t) : bool :=
  ValidationResult.passed validation
  || match property (ValidationResult.validation_report validation)
             "overall_feedback" with
     | Some feedback => converts feedback
     | None => true
     end.

(** The error the orchestrator throws for a rejection. *)
Definition pipeline_failure (e : exn) : exn :=
  Error ("AI Pipeline failed: " ++ message_of e).

Definition is_invoke (ev : Event) : Prop := exists k input, ev = Invoke k input.

(** [x <= y] in the order of an ascending [ORDER BY]: NaN comes after
    every number. *)
Definition float8_le (x y : float8) : Prop :=
  match x, y with
  | Float8 a, Float8 b => (a <= b)%Q
  | _, NaN => True
  | NaN, Float8 _ => False
  end.

(** Rows in the order of [ORDER BY]: by ascending distance. *)
Definition closer (r r' : float8 * Module_) : Prop :=
  float8_le (fst r) (fst r').

(** Result rows by descending similarity; a row whose similarity is NaN
    comes after every row whose similarity is a number. *)
Definition more_similar (r r' : SearchRow.t) : Prop :=
  match SearchRow.similarity r, SearchRow.similarity r' with
  | Float8 x, Float8 y => (y <= x)%Q
  | _, NaN => True
  | NaN, Float8 _ => False
  end.

(** A result row is an indexed module with the similarity of its
    embedding to the query, [1 - distance]. *)
Definition indexed_row (env : Env) (d : Database)
  (query_embedding : list json) (r : SearchRow.t) : Prop :=
  In (SearchRow.module r) (stored_modules d)
  /\ exists e,
       In (fst (SearchRow.module r), e) (stored_embeddings d)
       /\ SearchRow.similarity r
          = one_minus (cosine_distance env e query_embedding).

(** The similarity of a row is a number strictly greater than the
    threshold. *)
Definition exceeds (match_threshold : Q) (r : SearchRow.t) : Prop :=
  exists x, SearchRow.similarity r = Float8 x /\ (match_threshold < x)%Q.

(** The similarity of a row is not defined: the embedding or the query
    has norm zero. *)
Definition undefined_similarity (r : SearchRow.t) : Prop :=
  SearchRow.similarity r = NaN.

(** What the claim says of every returned row. *)
Definition matches (env : Env) (d : Database) (query_embedding : list json)
  (match_threshold : Q) (r : SearchRow.t) : Prop :=
  indexed_row env d query_embedding r /\ exceeds match_threshold r.

(** What holds of every returned row. *)
Definition matches_or_undefined (env : Env) (d : Database)
  (query_embedding : list json) (match_threshold : Q) (r : SearchRow.t)
  : Prop :=
  indexed_row env d query_embedding r
  /\ (exceeds match_threshold r \/ undefined_similarity r).



(** A component that is zero, of either sign. *)
Definition is_zero (x : float) : Prop := PrimFloat.eqb x 0%float = true.

(** The first property of the claim on cosine similarity, in binary64:
    the similarity of a vector with itself is a number close to 1. *)
Definition self_similarity_is_one (a : list float) : Prop :=
  exists x, cosineSimilarity a a = inr x /\ close_to_one x = true.

(** A component that is a finite number. *)
Definition finite_number (v : json) : bool :=
  match v with
  | JNum (Fin _) => true
  | _ => false
  end.

(** The pipeline rejects a document before doing anything: the trace is
    as it was and the outcome is an error. *)
Definition rejected_before_any_capability (env : Env)
  (markdownContent : string) (s : State) : Prop :=
  trace (fst (processMarkdownWithAI env markdownContent s)) = trace s
  /\ exists e, snd (processMarkdownWithAI env markdownContent s) = inl e.

(** Two numbers with the same value. *)
Definition num_eq (a b : number) : Prop :=
  match a, b with
  | Fin x, Fin y => (x == y)%Q
  | Inf s, Inf s' => s = s'
  | _, _ => False
  end.


(* ================================================================== *)
(** * Sample responses and environments *)
(* ================================================================== *)

Module Sample.

(** A JSON string literal. *)
Definition quoted (s : string) : string := dq ++ s ++ dq.

Definition summaries_text : string :=
  "{" ++ quoted "summary_short" ++ ":" ++ quoted "Hooks in brief." ++ ","
      ++ quoted "summary_medium" ++ ":" ++ quoted "How React hooks manage state." ++ ","
      ++ quoted "summary_long" ++ ":"
      ++ quoted "A walk through useState and useEffect with examples." ++ "}".

Definition summaries_object : object :=
  [ ("summary_short", JStr "Hooks in brief.");
    ("summary_medium", JStr "How React hooks manage state.");
    ("summary_long",
     JStr "A walk through useState and useEffect with examples.") ].

Definition seo_text : string :=
  "{" ++ quoted "meta_title" ++ ":" ++ quoted "Understanding React Hooks" ++ ","
      ++ quoted "meta_description" ++ ":" ++ quoted "Learn React hooks step by step." ++ ","
      ++ quoted "seo_keywords" ++ ":" ++ quoted "react, hooks, state" ++ "}".

Definition seo_object : object :=
  [ ("meta_title", JStr "Understanding React Hooks");
    ("meta_description", JStr "Learn React hooks step by step.");
    ("seo_keywords", JStr "react, hooks, state") ].

Definition category_text : string :=
  "{" ++ quoted "category" ++ ":" ++ quoted "Technology" ++ ","
      ++ quoted "confidence" ++ ":0.95,"
      ++ quoted "reasoning" ++ ":" ++ quoted "It is about a UI library." ++ "}".

Definition category_object : object :=
  [ ("category", JStr "Technology");
    ("confidence", JNum (Fin 0.95));
    ("reasoning", JStr "It is about a UI library.") ].

Definition tags_text (a b c : string) : string :=
  "{" ++ quoted "tags" ++ ":[" ++ quoted a ++ "," ++ quoted b ++ "," ++ quoted c ++ "]}".

Definition tags_object (a b c : string) : object :=
  [ ("tags", JArr [JStr a; JStr b; JStr c]) ].

Definition schema_text : string :=
  "{" ++ quoted "@context" ++ ":" ++ quoted "https://schema.org" ++ ","
      ++ quoted "@type" ++ ":" ++ quoted "TechArticle" ++ "}".

Definition schema_object : object :=
  [ ("@context", JStr "https://schema.org"); ("@type", JStr "TechArticle") ].

Definition image_text : string :=
  "{" ++ quoted "image_prompt" ++ ":" ++ quoted "Isometric illustration of hooks" ++ ","
      ++ quoted "style_notes" ++ ":" ++ quoted "Flat and modern." ++ "}".

Definition image_object : object :=
  [ ("image_prompt", JStr "Isometric illustration of hooks");
    ("style_notes", JStr "Flat and modern.") ].

Definition report : json := JObj [ ("overall_feedback", JStr "Reviewed.") ].

(** A judgment with a score given as a decimal numeral and a flag. *)
Definition validator_text (score flag : string) : string :=
  "{" ++ quoted "quality_score" ++ ":" ++ score ++ ","
      ++ quoted "passed" ++ ":" ++ flag ++ ","
      ++ quoted "validation_report" ++ ":{"
      ++ quoted "overall_feedback" ++ ":" ++ quoted "Reviewed." ++ "}}".

Definition validator_object (score : Q) (flag : bool) : object :=
  [ ("quality_score", JNum (Fin score));
    ("passed", JBool flag);
    ("validation_report", report) ].

(** [JSON.parse] on the texts above. *)
Definition parse_table : list (string * object) :=
  [ (summaries_text, summaries_object);
    (seo_text, seo_object);
    (category_text, category_object);
    (tags_text "react" "hooks" "state", tags_object "react" "hooks" "state");
    (tags_text "react" "React" "hooks", tags_object "react" "React" "hooks");
    (schema_text, schema_object);
    (image_text, image_object);
    (validator_text "85" "true", validator_object 85 true);
    (validator_text "150" "false", validator_object 150 false);
    (validator_text "50" "true", validator_object 50 true) ].

Fixpoint lookup_text {A} (text : string) (table : list (string * A))
  : option A :=
  match table with
  | [] => None
  | (t, a) :: table' =>
      if String.eqb text t then Some a else lookup_text text table'
  end.

Definition parse (text : string) : string + object :=
  match lookup_text text parse_table with
  | Some o => inr o
  | None => inl "Unexpected token in JSON"
  end.

(** A provider vector of the expected length. *)
Definition unit_vector : list json := repeat (JNum (Fin 0.01)) 3072.

(** The same with an overflowed first component
    ([JSON.parse("1e999")] is [Infinity]). *)
Definition overflowed_vector : list json :=
  JNum (Inf false) :: repeat (JNum (Fin 0.01)) 3071.

(** An environment in which every remote call answers; the responses of
    the tags agent, of the validator and of the embedding provider
    are parameters. *)
Definition env (tags_response validator_response : string)
  (provider_vector : list json) : Env :=
  mkEnv
    parse
    (fun _ _ => "{}")
    (fun _ => "")
    (fun _ _ => false)
    (fun k _ =>
       inr (Some match k with
                 | Summary => summaries_text
                 | SEO => seo_text
                 | Category => category_text
                 | Tags => tags_response
                 | Schema => schema_text
                 | ImagePrompt => image_text
                 | Embeddings => ""
                 | Validator => validator_response
                 end))
    (Some "sk-sample")
    (fun _ => inr (Some (JArr provider_vector)))
    (fun k => match k with
              | Summary => 4 | SEO => 3 | Category => 2 | Tags => 1
              | Schema => 7 | ImagePrompt => 6 | Embeddings => 5
              | Validator => 8
              end)
    "2025-11-16"
    1234%Z
    (fun _ _ => None)
    None
    (fun n => ("module-" ++ string_of_nat n)%string)
    (fun e _ => match e with
                | JNum (Fin distance) :: _ =>
                    if Qeq_bool distance 0 then NaN else Float8 distance
                | _ => Float8 1
                end)
    (fun _ _ _ m m' => String.leb (fst m) (fst m'))
    (fun _ => "integer out of range").

(** Every capability answers well; the validator scores 85. *)
Definition happy : Env :=
  env (tags_text "react" "hooks" "state") (validator_text "85" "true")
      unit_vector.


(** The validator proposes 50 points and a passing flag. *)
Definition lenient : Env :=
  env (tags_text "react" "hooks" "state") (validator_text "50" "true")
      unit_vector.

(** The tags agent answers with two spellings of one tag. *)
Definition repeating : Env :=
  env (tags_text "react" "React" "hooks") (validator_text "85" "true")
      unit_vector.

(** The tags agent answers in prose, without a JSON object. *)
Definition tagless : Env :=
  env "I could not find any tags." (validator_text "85" "true") unit_vector.

(** The provider returns 3072 components, the first one overflowed. *)
Definition overflowing : Env :=
  env (tags_text "react" "hooks" "state") (validator_text "85" "true")
      overflowed_vector.

(** The provider returns a vector of the previous model's size. *)
Definition short_vector : Env :=
  env (tags_text "react" "hooks" "state") (validator_text "85" "true")
      (repeat (JNum (Fin 0.01)) 1536).

Definition metadata : Metadata.t :=
  Metadata.mk
    (SummaryResult.mk (JStr "Hooks in brief.")
       (JStr "How React hooks manage state.")
       (JStr "A walk through useState and useEffect with examples."))
    (SeoResult.mk (JStr "Understanding React Hooks")
       (JStr "Learn React hooks step by step.") (JStr "react, hooks, state"))
    (CategoryResult.mk (JStr "Technology") (Fin 0.95)
       (JStr "It is about a UI library."))
    ["react"; "hooks"; "state"]
    schema_object
    (ImagePromptResult.mk (JStr "Isometric illustration of hooks")
       (JStr "Flat and modern.")).

Definition module_data (title : string) : ModuleData.t :=
  ModuleData.mk title (generateSlug title) (JStr "Technology")
    ["react"; "hooks"; "state"]
    (JStr "Short.") (JStr "Medium.") (JStr "Long.")
    (JStr title) (JStr "Description.") ["react"; "hooks"]
    schema_object (JStr "Isometric illustration") (Fin 85) report
    "Keith Armstrong" None None 1%Z "draft".

(** Three indexed modules.  The sample distance operator reads the
    distance off the first stored component: 0.1, 0.7 and 0.3; a first
    component 0 stands for a vector of norm zero. *)
Definition indexed : Database :=
  mkDatabase
    [ ("m1", module_data "React Hooks");
      ("m2", module_data "Sourdough Bread");
      ("m3", module_data "State Machines") ]
    [ ("m1", [JNum (Fin 0.1)]);
      ("m2", [JNum (Fin 0.7)]);
      ("m3", [JNum (Fin 0.3)]) ]
    [].

(** Two indexed modules, the second with an embedding of norm zero. *)
Definition degenerate : Database :=
  mkDatabase
    [ ("m1", module_data "React Hooks");
      ("m4", module_data "Empty Page") ]
    [ ("m1", [JNum (Fin 0.1)]);
      ("m4", [JNum (Fin 0)]) ]
    [].

Definition input : CreateModuleInput.t :=
  CreateModuleInput.mk "Understanding React Hooks"
    ("# Understanding React Hooks" ++ nl ++ nl
     ++ "Hooks let you use state in function components.")
    None None None.

(** A search that asks for no similarity floor and for no results. *)
Definition zero_search : SemanticSearchInput.t :=
  SemanticSearchInput.mk "react hooks" (Some 0%Z) (Some 0%Q).

Definition document : string :=
  "# Understanding React Hooks" ++ nl ++ nl
  ++ "Hooks let you use state in function components.".

End Sample.

(* ================================================================== *)
(** * Vocabulary of the further properties *)
(* ================================================================== *)

(** The events a run has added to a trace that had [n] events. *)
Definition added (n : nat) (s' : State) : list Event := skipn n (trace s').

(** The eight requests of a complete run, in the order they are sent;
    [validation] is the request to the validator. *)
Definition all_requests (markdownContent validation : string) : list Event :=
  phase1_requests markdownContent
  ++ phase2_requests markdownContent
  ++ [ Invoke Embeddings (cleanedContent markdownContent);
       Invoke Validator validation ].

(** The prefix an adapter puts before the message of what it caught. *)
Definition failure_prefix (k : Capability) : string :=
  match k with
  | Summary => "Failed to generate summaries"
  | SEO => "Failed to generate SEO metadata"
  | Category => "Failed to categorize content"
  | Tags => "Failed to generate tags"
  | Schema => "Failed to generate Schema.org data"
  | ImagePrompt => "Failed to generate image prompt"
  | Embeddings => "Failed to generate embeddings"
  | Validator => "Failed to validate metadata"
  end.

(** The request an agent-backed adapter sends; the validator's is built
    from the metadata. *)
Definition agent_request (env : Env) (markdownContent : string)
  (metadata : Metadata.t) (k : Capability) : string :=
  match k with
  | Validator => validationInput env markdownContent metadata
  | _ => request k markdownContent
  end.

(** A run of the agent-backed adapter of a capability, reduced to the
    state it leaves and its rejection, if it rejects. *)
Definition agent_adapter_run (env : Env) (markdownContent : string)
  (metadata : Metadata.t) (k : Capability) (s : State)
  : State * option exn :=
  match k with
  | Summary =>
      let r := generateSummaries env markdownContent s in
      (fst r, rejection (snd r))
  | SEO =>
      let r := generateSEOMetadata env markdownContent s in
      (fst r, rejection (snd r))
  | Category =>
      let r := categorizeContent env markdownContent s in
      (fst r, rejection (snd r))
  | Tags =>
      let r := generateTags env markdownContent s in
      (fst r, rejection (snd r))
  | Schema =>
      let r := generateSchemaOrgData env markdownContent s in
      (fst r, rejection (snd r))
  | ImagePrompt =>
      let r := generateImagePrompt env markdownContent s in
      (fst r, rejection (snd r))
  | Validator =>
      let r := validateMetadata env markdownContent metadata s in
      (fst r, rejection (snd r))
  | Embeddings => (s, None)
  end.

(** The text of a response, empty when the response has none. *)
Definition text_of (response : option string) : string :=
  match response with
  | Some text => text
  | None => ""
  end.

(** What [getOpenAIClient] throws when the key is not set. *)
Definition missing_key_message : string :=
  "OPENAI_API_KEY environment variable is required for embeddings generation".

(** A code unit that is not white space, or is the space itself. *)
Definition plain_char (c : ascii) : bool :=
  negb (is_space c) || Ascii.eqb c " ".

Definition starts_with_space (s : string) : bool :=
  match s with
  | "" => false
  | String c _ => is_space c
  end.


(** [input.limit || 10] and [input.threshold || 0.5] *)
Definition limit_or_default (input : SemanticSearchInput.t) : Z :=
  match SemanticSearchInput.limit input with
  | Some l => if (l =? 0)%Z then 10%Z else l
  | None => 10%Z
  end.

Definition threshold_or_default (input : SemanticSearchInput.t) : Q :=
  match SemanticSearchInput.threshold input with
  | Some t => if Qeq_bool t 0 then 0.5%Q else t
  | None => 0.5%Q
  end.

Definition is_rpc (ev : Event) : bool :=
  match ev with
  | Rpc _ _ _ => true
  | _ => false
  end.

Definition is_insert (ev : Event) : bool :=
  match ev with
  | Insert _ _ => true
  | _ => false
  end.

(** The similarity the search function computes for a stored
    embedding. *)
Definition similarity_to (env : Env) (query_embedding e : list json)
  : float8 :=
  one_minus (cosine_distance env e query_embedding).

(** Two joined rows that [ORDER BY] does not tell apart: they are at
    the same distance, or both at none. *)
Definition tied (r r' : float8 * Module_) : bool :=
  match fst r, fst r' with
  | Float8 x, Float8 y => Qeq_bool x y
  | NaN, NaN => true
  | _, _ => false
  end.

(** No two rows of a list are tied. *)
Definition no_ties (l : list (float8 * Module_)) : Prop :=
  ForallOrdPairs (fun r r' => tied r r' = false) l.

(** A sum or a product that is a zero, of either sign, or NaN. *)
Definition zero_or_nan (x : float) : Prop :=
  match Prim2SF x with
  | S754_zero _ | S754_nan => True
  | _ => False
  end.

(** The row [createModule] builds for [modules] from its input, the
    pipeline's result and the split keywords. *)
Definition module_row (input : CreateModuleInput.t)
  (aiResult : AIPipelineResult.t) (seo_keywords : list string)
  : ModuleData.t :=
  ModuleData.mk
    (CreateModuleInput.title input)
    (generateSlug (CreateModuleInput.title input))
    (AIPipelineResult.category aiResult)
    (AIPipelineResult.tags aiResult)
    (AIPipelineResult.summary_short aiResult)
    (AIPipelineResult.summary_medium aiResult)
    (AIPipelineResult.summary_long aiResult)
    (AIPipelineResult.meta_title aiResult)
    (AIPipelineResult.meta_description aiResult)
    seo_keywords
    (AIPipelineResult.schema_json aiResult)
    (AIPipelineResult.image_prompt aiResult)
    (AIPipelineResult.quality_score aiResult)
    (AIPipelineResult.validation_report aiResult)
    match CreateModuleInput.owner input with
    | None | Some "" => "Keith Armstrong"
    | Some owner => owner
    end
    (CreateModuleInput.source_url input)
    (CreateModuleInput.source_label input)
    1%Z
    "draft".

(** The rows stored by an insert the database may refuse. *)
Definition stored_unless {A} (error : option string) (row : A) : list A :=
  match error with
  | Some _ => []
  | None => [row]
  end.

Definition starts_with_dash (s : string) : bool :=
  match s with
  | "" => false
  | String c _ => Ascii.eqb c "-"
  end.

Fixpoint ends_with_dash (s : string) : bool :=
  match s with
  | "" => false
  | String c "" => Ascii.eqb c "-"
  | String _ s' => ends_with_dash s'
  end.

(** A string as [generateSlug] returns them: lower-case letters, digits
    and single dashes between them. *)
Definition is_slug (s : string) : Prop :=
  all_chars tag_char s = true
  /\ starts_with_dash s = false
  /\ ends_with_dash s = false
  /\ includes "--" s = false.

(** Version rows in the order of [ORDER BY version DESC]. *)
Definition later_version (v v' : Version) : Prop :=
  (snd (fst v') <= snd (fst v))%Z.

(** What the search route may send: the query to the embedding
    provider, and calls of the search function within the bounds of
    the route's schema. *)
Definition search_event_in_bounds (ev : Event) : Prop :=
  match ev with
  | Rpc query_embedding match_threshold match_count =>
      List.length query_embedding = 3072
      /\ (1 <= match_count <= 100)%Z
      /\ (0 < match_threshold)%Q /\ (match_threshold <= 1)%Q
  | Invoke k _ => k = Embeddings
  | Insert _ _ => False
  end.

(** The test a normalised tag has to pass:
    [tag.length > 0 && /^[a-z0-9-]+$/.test(tag)]. *)
Definition valid_tag (tag : string) : bool :=
  (0 <? String.length tag) && test_tag tag.

(** [base] without the provider's key. *)
Definition without_key (base : Env) : Env :=
  mkEnv
    (JSON_parse base)
    (JSON_stringify base)
    (ToString base)
    (gt_coerced base)
    (agent_generate base)
    None
    (embeddings_create base)
    (settled_at base)
    (today base)
    (elapsed_ms base)
    (insert_error base)
    (rpc_error base)
    (gen_random_uuid base)
    (cosine_distance base)
    (tie_order base)
    (int_out_of_range base).

(** The three messages the embeddings adapter has for failures of the
    provider. *)
Definition openai_messages : list string :=
  [ "OpenAI API key is invalid or missing. Please check your OPENAI_API_KEY environment variable.";
    "OpenAI API rate limit exceeded. Please try again later.";
    "OpenAI API quota exceeded. Please check your billing settings." ].

(** A failure message that tells which capability failed. *)
Definition names_capability (k : Capability) (message : string) : Prop :=
  (exists cause, message = (failure_prefix k ++ ": " ++ cause)%string)
  \/ (k = Embeddings /\ In message openai_messages).

(** Environments for the examples: [base] with one agent answering
    [text], which parses to [parsed]. *)
Module Scenario.

Definition same_capability (a b : Capability) : bool :=
  match a, b with
  | Summary, Summary | SEO, SEO | Category, Category | Tags, Tags
  | Schema, Schema | ImagePrompt, ImagePrompt | Embeddings, Embeddings
  | Validator, Validator => true
  | _, _ => false
  end.

Definition with_answer (base : Env) (k : Capability) (text : string)
  (parsed : object) : Env :=
  mkEnv
    (fun t => if String.eqb t text then inr parsed else JSON_parse base t)
    (JSON_stringify base)
    (ToString base)
    (gt_coerced base)
    (fun k' prompt =>
       if same_capability k' k then inr (Some text)
       else agent_generate base k' prompt)
    (OPENAI_API_KEY base)
    (embeddings_create base)
    (settled_at base)
    (today base)
    (elapsed_ms base)
    (insert_error base)
    (rpc_error base)
    (gen_random_uuid base)
    (cosine_distance base)
    (tie_order base)
    (int_out_of_range base).

Definition long_title : string :=
  "Understanding React Hooks: a complete and thorough guide to state, effects and custom hooks".

(** The SEO agent answers with a title of 91 characters. *)
Definition wordy_seo : Env :=
  with_answer Sample.happy SEO
    ("{" ++ Sample.quoted "meta_title" ++ ":" ++ Sample.quoted long_title ++ ","
         ++ Sample.quoted "meta_description" ++ ":"
         ++ Sample.quoted "Learn React hooks step by step." ++ ","
         ++ Sample.quoted "seo_keywords" ++ ":"
         ++ Sample.quoted "react, hooks, state" ++ "}")
    [ ("meta_title", JStr long_title);
      ("meta_description", JStr "Learn React hooks step by step.");
      ("seo_keywords", JStr "react, hooks, state") ].

(** The image prompt agent answers without style notes. *)
Definition plain_image : Env :=
  with_answer Sample.happy ImagePrompt
    ("{" ++ Sample.quoted "image_prompt" ++ ":"
         ++ Sample.quoted "Isometric illustration of hooks" ++ "}")
    [ ("image_prompt", JStr "Isometric illustration of hooks") ].

(** The category agent reports its confidence as a percentage. *)
Definition percent_confidence : Env :=
  with_answer Sample.happy Category
    ("{" ++ Sample.quoted "category" ++ ":" ++ Sample.quoted "Technology" ++ ","
         ++ Sample.quoted "confidence" ++ ":95}")
    [ ("category", JStr "Technology"); ("confidence", JNum (Fin 95)) ].

(** The schema agent answers with another context and a headline. *)
Definition foreign_context : Env :=
  with_answer Sample.happy Schema
    ("{" ++ Sample.quoted "@context" ++ ":" ++ Sample.quoted "http://schema.org" ++ ","
         ++ Sample.quoted "@type" ++ ":" ++ Sample.quoted "TechArticle" ++ ","
         ++ Sample.quoted "headline" ++ ":" ++ Sample.quoted "React Hooks" ++ "}")
    [ ("@context", JStr "http://schema.org");
      ("@type", JStr "TechArticle");
      ("headline", JStr "React Hooks") ].

(** The category agent answers with an object for a category, which
    has a property [toString]. *)
Definition unprintable_category : Env :=
  with_answer Sample.happy Category
    ("{" ++ Sample.quoted "category" ++ ":{" ++ Sample.quoted "toString"
         ++ ":1}," ++ Sample.quoted "confidence" ++ ":0.9}")
    [ ("category", JObj [("toString", JNum (Fin 1))]);
      ("confidence", JNum (Fin 0.9)) ].

Definition keyless : Env := without_key Sample.happy.

(** A database that answers every statement, and reads a text of the
    form of a UUID, in either case of the letters, as the id printed
    in lower case. *)
Definition answering : Failures :=
  mkFailures
    (fun _ => None)
    None
    (fun text =>
       if isUUID text then inr (toLowerCase text)
       else inl ("invalid input syntax for type uuid: "
                   ++ Sample.quoted text)%string).

(** Two modules with ids of the form of a UUID, and the versions of
    the first. *)
Definition library : Database :=
  mkDatabase
    [ ("0a1b2c3d-1234-5678-9abc-0123456789ab",
       Sample.module_data "React Hooks");
      ("ffffffff-1234-5678-9abc-0123456789ab",
       Sample.module_data "State Machines") ]
    [ ("0a1b2c3d-1234-5678-9abc-0123456789ab", [JNum (Fin 0.1)]);
      ("ffffffff-1234-5678-9abc-0123456789ab", [JNum (Fin 0.3)]) ]
    [ ("0a1b2c3d-1234-5678-9abc-0123456789ab", 1%Z, "Initial version");
      ("ffffffff-1234-5678-9abc-0123456789ab", 1%Z, "Initial version");
      ("0a1b2c3d-1234-5678-9abc-0123456789ab", 2%Z, "Typos") ].

(** The tags agent answers with six tags; of the first five only two
    pass the test, the sixth would. *)
Definition six_tags : Env :=
  with_answer Sample.happy Tags
    ("{" ++ Sample.quoted "tags" ++ ":["
         ++ Sample.quoted "react" ++ "," ++ Sample.quoted "web dev" ++ ","
         ++ Sample.quoted "c++" ++ "," ++ Sample.quoted "hooks" ++ ","
         ++ Sample.quoted "node.js" ++ "," ++ Sample.quoted "state" ++ "]}")
    [ ("tags", JArr [JStr "react"; JStr "web dev"; JStr "c++"; JStr "hooks";
                     JStr "node.js"; JStr "state"]) ].

End Scenario.

(* ================================================================== *)
(** * Properties *)
(* ================================================================== *)

Lemma capability_eq_dec (a b : Capability) : {a = b} + {a <> b}.
Proof. decide equality. Defined.

(** ** Numbers *)

(** [Math.min(Math.max(x, 0), 100)] is a finite number of [[0,100]]. *)
Lemma clamp_in_range (score : number) :
  exists q, Math_min (Math_max score (Fin 0)) (Fin 100) = Fin q
            /\ (0 <= q)%Q /\ (q <= 100)%Q.
Proof.
  destruct score as [x | [|]]; unfold Math_max, Math_min; simpl.
  - destruct (Qle_bool x 0) eqn:Hx0; simpl.
    + exists 0%Q. repeat split; [apply Qle_refl | discriminate].
    + assert (H0 : (0 <= x)%Q).
      { apply Qnot_lt_le. intros Hlt. apply Qlt_le_weak in Hlt.
        apply Qle_bool_iff in Hlt. congruence. }
      destruct (Qle_bool x 100) eqn:Hx100.
      * exists x. repeat split; [exact H0 | now apply Qle_bool_iff].
      * exists 100%Q. repeat split; [discriminate | apply Qle_refl].
  - exists 0%Q. repeat split; [apply Qle_refl | discriminate].
  - exists 100%Q. repeat split; [discriminate | apply Qle_refl].
Qed.


(** ** The shape of an adapter run *)


(** Every run of [extract_json] makes exactly one request. *)
Lemma extract_json_trace env k prompt s :
  fst (extract_json env k prompt s)
  = record s (Invoke k prompt).
Proof.
  unfold extract_json, bind, emit, lift, throw, ret.
  destruct (agent_generate env k prompt) as [e | [text |]]; simpl; trivial;
    destruct (match_braces _); trivial;
    destruct (JSON_parse env _); trivial.
Qed.

(** ** C1: the quality gate *)


(** ** The agent-backed adapters: one request, then a pure decoding *)

Ltac unfold_run :=
  cbv beta iota zeta delta
    [ try_catch bind ret throw lift emit rethrow truncate extract_json
      settle reject_first fst snd ].

Ltac unfold_bind :=
  cbv beta iota zeta delta [ try_catch bind ret throw lift emit rethrow ].

Ltac innermost_match x :=
  lazymatch x with
  | context [match ?y with _ => _ end] => innermost_match y
  | _ => destruct x
  end.

Ltac split_match :=
  match goal with
  | |- context [match ?x with _ => _ end] => innermost_match x
  end.

Ltac adapter_run :=
  intros; unfold_run; repeat (split_match; unfold_run; try reflexivity).

Lemma generateSummaries_run env md s :
  generateSummaries env md s
  = (record s (Invoke Summary (request Summary md)),
     snd (generateSummaries env md initial)).
Proof. unfold generateSummaries, request. adapter_run. Qed.

Lemma generateSEOMetadata_run env md s :
  generateSEOMetadata env md s
  = (record s (Invoke SEO (request SEO md)),
     snd (generateSEOMetadata env md initial)).
Proof. unfold generateSEOMetadata, request. adapter_run. Qed.

Lemma categorizeContent_run env md s :
  categorizeContent env md s
  = (record s (Invoke Category (request Category md)),
     snd (categorizeContent env md initial)).
Proof. unfold categorizeContent, request. adapter_run. Qed.

Lemma generateTags_run env md s :
  generateTags env md s
  = (record s (Invoke Tags (request Tags md)),
     snd (generateTags env md initial)).
Proof. unfold generateTags, request. adapter_run. Qed.

Lemma generateSchemaOrgData_run env md s :
  generateSchemaOrgData env md s
  = (record s (Invoke Schema (request Schema md)),
     snd (generateSchemaOrgData env md initial)).
Proof. unfold generateSchemaOrgData, request. adapter_run. Qed.

Lemma generateImagePrompt_run env md s :
  generateImagePrompt env md s
  = (record s (Invoke ImagePrompt (request ImagePrompt md)),
     snd (generateImagePrompt env md initial)).
Proof. unfold generateImagePrompt, request. adapter_run. Qed.

Lemma validateMetadata_run env md metadata s :
  validateMetadata env md metadata s
  = (record s (Invoke Validator (validationInput env md metadata)),
     snd (validateMetadata env md metadata initial)).
Proof. unfold validateMetadata. adapter_run. Qed.

(** ** [Promise.all] and the phases *)

Lemma record_all_app s evs evs' :
  record_all (record_all s evs) evs' = record_all s (evs ++ evs').
Proof.
  unfold record_all. simpl. now rewrite <- app_assoc.
Qed.

Lemma record_as_record_all s e : record s e = record_all s [e].
Proof. reflexivity. Qed.

(** The earliest rejection is one of the rejections, and none of the
    others comes before it. *)
Lemma first_rejection_spec (l : list (nat * option exn)) :
  match first_rejection l with
  | Some (t, e) =>
      In (t, Some e) l /\ forall t' e', In (t', Some e') l -> t <= t'
  | None => forall t e, ~ In (t, Some e) l
  end.
Proof.
  induction l as [| [t [e |]] l IH]; simpl.
  - intros t e [].
  - destruct (first_rejection l) as [[t1 e1] |].
    + destruct IH as [Hin Hmin].
      destruct (t1 <? t) eqn:Hlt.
      * apply Nat.ltb_lt in Hlt. split; [now right |].
        intros t' e' [Heq | Hin']; [inversion Heq; subst; lia | eauto].
      * apply Nat.ltb_ge in Hlt. split; [now left |].
        intros t' e' [Heq | Hin'];
          [inversion Heq; subst; lia | specialize (Hmin _ _ Hin'); lia].
    + split; [now left |].
      intros t' e' [Heq | Hin']; [inversion Heq; subst; lia |].
      exfalso. exact (IH _ _ Hin').
  - destruct (first_rejection l) as [[t1 e1] |].
    + destruct IH as [Hin Hmin]. split; [now right |].
      intros t' e' [Heq | Hin']; [discriminate | eauto].
    + intros t' e' [Heq | Hin']; [discriminate | exact (IH _ _ Hin')].
Qed.

(** Phase 1 sends its four requests whatever the answers are; its
    outcome does not depend on the state it starts in. *)
Lemma phase1_run env md s :
  phase1 env md s
  = (record_all s (phase1_requests md), snd (phase1 env md initial)).
Proof.
  pose proof (generateSummaries_run env md) as H1.
  pose proof (generateSEOMetadata_run env md) as H2.
  pose proof (categorizeContent_run env md) as H3.
  pose proof (generateTags_run env md) as H4.
  set (o1 := snd (generateSummaries env md initial)) in *.
  set (o2 := snd (generateSEOMetadata env md initial)) in *.
  set (o3 := snd (categorizeContent env md initial)) in *.
  set (o4 := snd (generateTags env md initial)) in *.
  unfold phase1, Promise_all4. unfold_run.
  rewrite !H1. unfold_run. rewrite !H2. unfold_run.
  rewrite !H3. unfold_run. rewrite !H4. unfold_run.
  rewrite !record_as_record_all, !record_all_app.
  unfold phase1_requests. simpl app.
  destruct o1, o2, o3, o4; unfold_run;
    repeat (split_match; unfold_run); reflexivity.
Qed.

(** When a Phase 1 adapter rejects, Phase 1 rejects with the rejection
    that settles first. *)
Lemma phase1_rejects env md k0 e0 :
  phase1_rejection env md k0 = Some e0 ->
  exists k e,
    phase1_rejection env md k = Some e
    /\ (forall k' e', phase1_rejection env md k' = Some e' ->
                      settled_at env k <= settled_at env k')
    /\ snd (phase1 env md initial) = inl e.
Proof.
  intros Hfail.
  pose proof (generateSummaries_run env md) as H1.
  pose proof (generateSEOMetadata_run env md) as H2.
  pose proof (categorizeContent_run env md) as H3.
  pose proof (generateTags_run env md) as H4.
  pose proof (first_rejection_spec
    [ (settled_at env Summary, phase1_rejection env md Summary);
      (settled_at env SEO, phase1_rejection env md SEO);
      (settled_at env Category, phase1_rejection env md Category);
      (settled_at env Tags, phase1_rejection env md Tags) ]) as Hspec.
  assert (Hall : forall k' e', phase1_rejection env md k' = Some e' ->
            In (settled_at env k', Some e')
              [ (settled_at env Summary, phase1_rejection env md Summary);
                (settled_at env SEO, phase1_rejection env md SEO);
                (settled_at env Category, phase1_rejection env md Category);
                (settled_at env Tags, phase1_rejection env md Tags) ]).
  { intros k' e' Hk'. destruct k'; try discriminate; rewrite <- Hk';
      unfold In; tauto. }
  destruct (first_rejection _) as [[t e] |] eqn:Hfirst.
  - destruct Hspec as [Hin Hmin].
    assert (Hk : exists k, phase1_rejection env md k = Some e
                           /\ t = settled_at env k).
    { destruct Hin as [Hin | [Hin | [Hin | [Hin | []]]]]; inversion Hin;
        [ exists Summary | exists SEO | exists Category | exists Tags ];
        split; reflexivity. }
    destruct Hk as (k & Hk & ->).
    exists k, e. split; [exact Hk |]. split.
    + intros k' e' Hk'. apply (Hmin _ e'). now apply Hall.
    + clear Hin Hmin Hall Hk.
      assert (Hsome : phase1_rejection env md Summary <> None
                      \/ phase1_rejection env md SEO <> None
                      \/ phase1_rejection env md Category <> None
                      \/ phase1_rejection env md Tags <> None).
      { destruct k0; try discriminate; rewrite Hfail;
          [ left | right; left | right; right; left | right; right; right ];
          discriminate. }
      clear Hfail. unfold phase1_rejection in Hfirst, Hsome.
      set (o1 := snd (generateSummaries env md initial)) in *.
      set (o2 := snd (generateSEOMetadata env md initial)) in *.
      set (o3 := snd (categorizeContent env md initial)) in *.
      set (o4 := snd (generateTags env md initial)) in *.
      unfold phase1, Promise_all4. unfold_run.
      rewrite H1. unfold_run. rewrite H2. unfold_run.
      rewrite H3. unfold_run. rewrite H4. unfold_run.
      destruct o1, o2, o3, o4; unfold_run;
        try (rewrite Hfirst; reflexivity).
      unfold rejection in Hsome. tauto.
  - exfalso. exact (Hspec _ _ (Hall _ _ Hfail)).
Qed.

(** ** The embeddings adapter *)

Lemma substring0_nil n : substring0 n "" = "".
Proof. destruct n; reflexivity. Qed.

Lemma cleanedContent_empty : cleanedContent "" = "".
Proof. unfold cleanedContent. apply substring0_nil. Qed.

Ltac eval_includes :=
  repeat match goal with
         | |- context [includes ?a ?b] =>
             let v := eval vm_compute in (includes a b) in
             change (includes a b) with v
         end;
  cbv iota.

Ltac unfold_request :=
  unfold request_embedding, getOpenAIClient;
  change (substring0 30000 (trim (collapse_spaces ?md)))
    with (cleanedContent md).

(** The catch block always throws, and leaves the state alone. *)
Lemma explain_embedding_failure_rejects error s :
  exists message,
    explain_embedding_failure error s = (s, inl (Error message)).
Proof.
  unfold explain_embedding_failure. unfold_run.
  repeat split_match; eexists; reflexivity.
Qed.

(** The [try] block asks the provider at most once, with the cleaned
    content, and does not touch the database. *)
Lemma request_embedding_effect env md s :
  db (fst (request_embedding env md s)) = db s
  /\ (trace (fst (request_embedding env md s)) = trace s
      \/ trace (fst (request_embedding env md s))
         = trace s ++ [Invoke Embeddings (cleanedContent md)]).
Proof.
  unfold_request. unfold_run.
  repeat (split_match; unfold_run); simpl; auto.
Qed.

Lemma generateEmbeddings_state env md s :
  fst (generateEmbeddings env md s) = fst (request_embedding env md s).
Proof.
  unfold generateEmbeddings, try_catch.
  destruct (request_embedding env md s) as [s1 [e | a]]; [| reflexivity].
  destruct (explain_embedding_failure_rejects e s1) as [m ->]. reflexivity.
Qed.

Lemma generateEmbeddings_effect env md s :
  db (fst (generateEmbeddings env md s)) = db s
  /\ (trace (fst (generateEmbeddings env md s)) = trace s
      \/ trace (fst (generateEmbeddings env md s))
         = trace s ++ [Invoke Embeddings (cleanedContent md)]).
Proof.
  rewrite generateEmbeddings_state. apply request_embedding_effect.
Qed.

(** An adapter that rejects does so with an [Error]. *)
Lemma generateEmbeddings_rejects_with_Error env md s e :
  snd (generateEmbeddings env md s) = inl e -> exists message, e = Error message.
Proof.
  unfold generateEmbeddings, try_catch.
  destruct (request_embedding env md s) as [s1 [e1 | a]]; [| discriminate].
  destruct (explain_embedding_failure_rejects e1 s1) as [m ->].
  simpl. intros [= <-]. now exists m.
Qed.

(** Content that is empty after cleaning is rejected without a request
    to the provider. *)
Lemma generateEmbeddings_blank env md s :
  cleanedContent md = "" ->
  exists message,
    snd (generateEmbeddings env md s) = inl (Error message)
    /\ trace (fst (generateEmbeddings env md s)) = trace s
    /\ db (fst (generateEmbeddings env md s)) = db s.
Proof.
  intros Hblank.
  assert (Hbody : exists e, snd (request_embedding env md s) = inl e
                            /\ trace (fst (request_embedding env md s)) = trace s).
  { unfold_request. rewrite Hblank. unfold_run.
    change (String.eqb "" "") with true. cbv iota.
    repeat (split_match; unfold_run); eexists; split; reflexivity. }
  destruct Hbody as (e & Hsnd & Htrace).
  rewrite generateEmbeddings_state.
  destruct (request_embedding_effect env md s) as [Hdb _].
  unfold generateEmbeddings, try_catch.
  destruct (request_embedding env md s) as [s1 [e1 | a]]; [| discriminate].
  destruct (explain_embedding_failure_rejects e1 s1) as [m ->].
  exists m. simpl in *. auto.
Qed.

(** A returned embedding is the provider's array, of length 3072. *)
Lemma generateEmbeddings_ok_inv env md s s' e :
  generateEmbeddings env md s = (s', inr e) ->
  List.length e = 3072
  /\ embeddings_create env (cleanedContent md) = inr (Some (JArr e))
  /\ trace s' = trace s ++ [Invoke Embeddings (cleanedContent md)]
  /\ db s' = db s.
Proof.
  unfold generateEmbeddings, try_catch.
  destruct (request_embedding env md s) as [s1 [e1 | a]] eqn:Hbody.
  - destruct (explain_embedding_failure_rejects e1 s1) as [m ->]. discriminate.
  - intros [= <- <-]. revert Hbody. unfold_request. unfold_run.
    destruct (embeddings_create env (cleanedContent md))
      as [err | [[| | | | components |] |]];
      try (repeat (split_match; unfold_run); discriminate).
    destruct (List.length components =? 3072) eqn:Hlen; cbn [negb];
      [| repeat (split_match; unfold_run); discriminate ].
    apply Nat.eqb_eq in Hlen.
    repeat (split_match; unfold_run); try discriminate;
      intros [= <- <-]; simpl; auto.
Qed.

(** *** The messages the catch block looks for do not occur in the
        dimension message *)

Lemma includes_absent (c : ascii) (sub s : string) :
  all_chars (fun x => negb (Ascii.eqb x c)) s = true ->
  includes (String c sub) s = false.
Proof.
  induction s as [| x s IH]; intros Hall.
  - reflexivity.
  - simpl in Hall. apply andb_true_iff in Hall as [Hx Hs].
    simpl. destruct (ascii_dec c x) as [-> | _].
    + rewrite Ascii.eqb_refl in Hx. discriminate.
    + simpl. now apply IH.
Qed.

Lemma all_chars_app p a b :
  all_chars p (a ++ b) = all_chars p a && all_chars p b.
Proof.
  induction a as [| c a IH]; simpl; [reflexivity |].
  now rewrite IH, andb_assoc.
Qed.

Lemma digits_of_uint d : all_chars is_digit (NilEmpty.string_of_uint d) = true.
Proof. induction d; simpl; auto. Qed.

Lemma all_chars_weaken (p p' : ascii -> bool) s :
  (forall c, p c = true -> p' c = true) ->
  all_chars p s = true -> all_chars p' s = true.
Proof.
  intros Hpp'. induction s as [| c s IH]; simpl; [trivial |].
  intros H. apply andb_true_iff in H as [Hc Hs].
  now rewrite (Hpp' _ Hc), IH.
Qed.

Lemma digit_is_not (c : ascii) :
  is_digit c = false ->
  forall x, is_digit x = true -> negb (Ascii.eqb x c) = true.
Proof.
  intros Hc x Hx. destruct (Ascii.eqb x c) eqn:Heq; [| reflexivity].
  apply Ascii.eqb_eq in Heq. congruence.
Qed.

Lemma dimension_mismatch_avoids (c : ascii) (sub : string) (n : nat) :
  is_digit c = false ->
  all_chars (fun x => negb (Ascii.eqb x c))
    ("Unexpected embedding dimensions: " ++ " (expected 3072)") = true ->
  includes (String c sub) (dimension_mismatch n) = false.
Proof.
  intros Hc Hfixed. apply includes_absent. unfold dimension_mismatch.
  rewrite all_chars_app in Hfixed. apply andb_true_iff in Hfixed as [H1 H2].
  rewrite !all_chars_app, H1, H2, andb_true_r. simpl.
  apply all_chars_weaken with (p := is_digit); [now apply digit_is_not |].
  apply digits_of_uint.
Qed.

(** A provider vector of another length is rejected with the dimension
    message. *)
Lemma generateEmbeddings_mismatch env md s components :
  client_available env s ->
  cleanedContent md <> "" ->
  embeddings_create env (cleanedContent md) = inr (Some (JArr components)) ->
  List.length components <> 3072 ->
  snd (generateEmbeddings env md s)
  = inl (Error ("Failed to generate embeddings: "
                  ++ dimension_mismatch (List.length components))).
Proof.
  intros Hclient Hcontent Hprovider Hlen.
  apply String.eqb_neq in Hcontent. apply Nat.eqb_neq in Hlen.
  assert (Hbody : snd (request_embedding env md s)
                  = inl (Error (dimension_mismatch (List.length components)))).
  { unfold_request. unfold_run.
    destruct Hclient as [Hcached | (key & Hkey & Hnonempty)].
    - rewrite Hcached. unfold_run. rewrite Hcontent. unfold_run.
      rewrite Hprovider. unfold_run. rewrite Hlen. reflexivity.
    - destruct (openaiClient s); rewrite ?Hkey;
        try (destruct key as [| c key]; [congruence |]);
        unfold_run; rewrite Hcontent; unfold_run;
        rewrite Hprovider; unfold_run; rewrite Hlen; reflexivity. }
  unfold generateEmbeddings, try_catch.
  destruct (request_embedding env md s) as [s1 [e1 | a]];
    simpl in Hbody; [| discriminate].
  injection Hbody as ->.
  unfold explain_embedding_failure.
  rewrite !dimension_mismatch_avoids by reflexivity. reflexivity.
Qed.

(** ** The orchestrator, phase by phase *)

(** Phase 2 sends its two agent requests, then at most the provider
    request; it does not touch the database. *)
Lemma phase2_effect env md s :
  db (fst (phase2 env md s)) = db s
  /\ (trace (fst (phase2 env md s)) = trace s ++ phase2_requests md
      \/ trace (fst (phase2 env md s))
         = trace s ++ phase2_requests md
             ++ [Invoke Embeddings (cleanedContent md)]).
Proof.
  pose proof (generateSchemaOrgData_run env md) as H1.
  pose proof (generateImagePrompt_run env md) as H2.
  set (o1 := snd (generateSchemaOrgData env md initial)) in *.
  set (o2 := snd (generateImagePrompt env md initial)) in *.
  unfold phase2, Promise_all3. unfold_run.
  rewrite H1. unfold_run. rewrite H2. unfold_run.
  rewrite !record_as_record_all, !record_all_app. simpl app.
  fold (phase2_requests md).
  pose proof (generateEmbeddings_effect env md
                (record_all s (phase2_requests md))) as [Hdb Htrace].
  destruct (generateEmbeddings env md (record_all s (phase2_requests md)))
    as [s3 o3].
  simpl in Hdb, Htrace. rewrite <- app_assoc in Htrace.
  destruct o1, o2, o3; unfold_run;
    repeat (split_match; unfold_run); simpl; auto.
Qed.

(** On a document that is empty after cleaning, Phase 2 rejects after
    its two agent requests. *)
Lemma phase2_blank env md s :
  cleanedContent md = "" ->
  exists e,
    snd (phase2 env md s) = inl e
    /\ trace (fst (phase2 env md s)) = trace s ++ phase2_requests md.
Proof.
  intros Hblank.
  pose proof (generateSchemaOrgData_run env md) as H1.
  pose proof (generateImagePrompt_run env md) as H2.
  set (o1 := snd (generateSchemaOrgData env md initial)) in *.
  set (o2 := snd (generateImagePrompt env md initial)) in *.
  unfold phase2, Promise_all3. unfold_run.
  rewrite H1. unfold_run. rewrite H2. unfold_run.
  rewrite !record_as_record_all, !record_all_app. simpl app.
  fold (phase2_requests md).
  destruct (generateEmbeddings_blank env md
              (record_all s (phase2_requests md)) Hblank)
    as (m & Hsnd & Htrace & _).
  destruct (generateEmbeddings env md (record_all s (phase2_requests md)))
    as [s3 o3].
  simpl in Hsnd, Htrace. subst o3.
  pose proof (first_rejection_spec
                [ (settled_at env Schema, rejection o1);
                  (settled_at env ImagePrompt, rejection o2);
                  (settled_at env Embeddings, Some (Error m)) ]) as Hspec.
  destruct o1, o2; unfold_run; unfold rejection in *;
    destruct (first_rejection _) as [[? first] |];
    try (exfalso; apply (Hspec (settled_at env Embeddings) (Error m));
         simpl; tauto);
    exists first; split; trivial.
Qed.

(** The run of the orchestrator, case by case. *)
Lemma processMarkdownWithAI_cases env md s :
  let s1 := record_all s (phase1_requests md) in
  match snd (phase1 env md initial) with
  | inl e => processMarkdownWithAI env md s = (s1, inl (pipeline_failure e))
  | inr (summaries, seo, categoryResult, tags) =>
      if converts (CategoryResult.category categoryResult) then
        match phase2 env md s1 with
        | (s2, inl e) =>
            processMarkdownWithAI env md s = (s2, inl (pipeline_failure e))
        | (s2, inr (schema, imagePrompt, embedding)) =>
            let metadata :=
              Metadata.mk summaries seo categoryResult tags schema
                imagePrompt in
            let s3 :=
              record s2 (Invoke Validator (validationInput env md metadata)) in
            match snd (validateMetadata env md metadata initial) with
            | inl e =>
                processMarkdownWithAI env md s
                = (s3, inl (pipeline_failure e))
            | inr validation =>
                processMarkdownWithAI env md s
                = (s3,
                   if warning_converts validation
                   then inr (assemble env metadata embedding validation)
                   else inl (pipeline_failure (Error no_primitive_value)))
            end
        end
      else
        processMarkdownWithAI env md s
        = (s1, inl (pipeline_failure (Error no_primitive_value)))
  end.
Proof.
  unfold processMarkdownWithAI, pipeline_failure, console_log, warning_converts.
  unfold_bind. rewrite (phase1_run env md s).
  destruct (snd (phase1 env md initial))
    as [e | [[[summaries seo] categoryResult] tags]]; unfold_bind;
    [reflexivity |].
  cbn [forallb]. rewrite andb_true_r.
  destruct (converts (CategoryResult.category categoryResult)); unfold_bind;
    [| reflexivity].
  destruct (phase2 env md (record_all s (phase1_requests md)))
    as [s2 [e | [[schema imagePrompt] embedding]]]; unfold_bind;
    [reflexivity |].
  rewrite (validateMetadata_run env md _ s2).
  destruct (snd (validateMetadata env md _ initial)) as [e | validation];
    [reflexivity |].
  destruct (ValidationResult.passed validation); unfold_bind;
    [reflexivity |].
  cbn [forallb orb]. rewrite andb_true_r.
  destruct (property _ "overall_feedback") as [feedback |];
    [destruct (converts feedback) |]; reflexivity.
Qed.

(* ================================================================== *)
(** * Runs on the sample environments *)
(* ================================================================== *)

Example strings_run :
  match_braces ("Here you go: " ++ Sample.tags_text "a" "b" "c" ++ " Done.")
  = Some (Sample.tags_text "a" "b" "c")
  /\ match_braces "no object here" = None
  /\ toLowerCase "React-HOOKS 101" = "react-hooks 101"
  /\ trim ("  " ++ nl ++ "tag  ") = "tag"
  /\ test_tag "react-hooks" = true
  /\ test_tag "React" = false
  /\ test_tag "a b" = false
  /\ test_tag "" = false
  /\ generateSlug "  Hello, World -- React Hooks!  " = "hello-world-react-hooks"
  /\ map trim (split_comma "react, hooks, state") = ["react"; "hooks"; "state"].
Proof. repeat split. Qed.

(** With every capability answering, the run sends the eight requests,
    in phase order, and returns the assembled result. *)
Example happy_run :
  exists result,
    snd (processMarkdownWithAI Sample.happy Sample.document initial)
    = inr result
    /\ map (fun ev => match ev with Invoke k _ => Some k | _ => None end)
         (trace (fst (processMarkdownWithAI Sample.happy Sample.document
                        initial)))
       = map Some [ Summary; SEO; Category; Tags;
                    Schema; ImagePrompt; Embeddings; Validator ]
    /\ AIPipelineResult.tags result = ["react"; "hooks"; "state"]
    /\ AIPipelineResult.quality_score result = Fin 85
    /\ List.length (AIPipelineResult.embedding result) = 3072
    /\ (AIPipelineResult.estimated_cost_usd result == 0.072)%Q.
Proof.
  eexists. split; [vm_compute; reflexivity |].
  repeat split; vm_compute; reflexivity.
Qed.

(** On the empty document the same environment gets as far as the
    embeddings adapter. *)
Example empty_run :
  snd (processMarkdownWithAI Sample.happy "" initial)
  = inl (Error
      "AI Pipeline failed: Failed to generate embeddings: Content is empty after cleaning")
  /\ List.length (trace (fst (processMarkdownWithAI Sample.happy "" initial)))
     = 6.
Proof. split; vm_compute; reflexivity. Qed.

(** A passing document is stored with its embedding and a first
    version. *)
Example createModule_run :
  let s := fst (createModule Sample.happy Sample.input initial) in
  map fst (stored_modules (db s)) = ["module-0"]
  /\ map (fun m => ModuleData.slug (snd m)) (stored_modules (db s))
     = ["understanding-react-hooks"]
  /\ map fst (stored_embeddings (db s)) = ["module-0"]
  /\ stored_versions (db s) = [("module-0", 1%Z, "Initial version")]
  /\ List.length (trace s) = 11.
Proof. repeat split; vm_compute; reflexivity. Qed.

Example search_run :
  search_modules_by_embedding Sample.happy Sample.indexed [] (Some 0%Q)
    (Some (-1)%Z)
  = inl "LIMIT must not be negative"
  /\ match search_modules_by_embedding Sample.happy Sample.indexed []
            (Some 0%Q) (Some 2%Z) with
     | inr rows => map (fun r => fst (SearchRow.module r)) rows = ["m1"; "m3"]
     | inl _ => False
     end.
Proof. split; vm_compute; reflexivity. Qed.

(* ================================================================== *)
(** * The claims *)
(* ================================================================== *)


(** ** C2: empty input *)

(** With the client at hand, content that is empty after cleaning is
    rejected with the adapter's generic prefix, and nothing is sent. *)
Lemma generateEmbeddings_empty env md s :
  cleanedContent md = "" ->
  client_available env s ->
  snd (generateEmbeddings env md s)
  = inl (Error "Failed to generate embeddings: Content is empty after cleaning").
Proof.
  intros Hblank Hclient.
  unfold generateEmbeddings, try_catch. unfold_request. rewrite Hblank.
  unfold_run. change (String.eqb "" "") with true. cbv iota.
  destruct Hclient as [Hcached | (key & Hkey & Hnonempty)].
  - rewrite Hcached. unfold explain_embedding_failure. eval_includes.
    reflexivity.
  - destruct (openaiClient s); rewrite ?Hkey;
      try (destruct key as [| c key]; [congruence |]);
      unfold explain_embedding_failure; eval_includes; reflexivity.
Qed.

(** On a document that is empty after cleaning, Phase 2 rejects; with
    the client at hand and the two agents fulfilling, the rejection is
    that of the embeddings adapter. *)
Lemma phase2_empty env md s schema imagePrompt :
  cleanedContent md = "" ->
  client_available env s ->
  snd (generateSchemaOrgData env md initial) = inr schema ->
  snd (generateImagePrompt env md initial) = inr imagePrompt ->
  snd (phase2 env md s)
  = inl (Error "Failed to generate embeddings: Content is empty after cleaning").
Proof.
  intros Hblank Hclient Hschema Himage.
  pose proof (generateSchemaOrgData_run env md) as H1.
  pose proof (generateImagePrompt_run env md) as H2.
  set (o1 := snd (generateSchemaOrgData env md initial)) in *.
  set (o2 := snd (generateImagePrompt env md initial)) in *.
  unfold phase2, Promise_all3. unfold_run.
  rewrite H1. unfold_run. rewrite H2. unfold_run.
  clearbody o1 o2. subst o1 o2.
  rewrite !record_as_record_all, !record_all_app.
  assert (Hclient' : client_available env
                       (record_all s
                          ([Invoke Schema (request Schema md)]
                           ++ [Invoke ImagePrompt (request ImagePrompt md)])))
    by exact Hclient.
  pose proof (@generateEmbeddings_empty env md _ Hblank Hclient') as Hfails.
  destruct (generateEmbeddings env md _) as [s3 o3]. cbn [snd] in Hfails.
  subst o3. reflexivity.
Qed.

(** The run on a document that is empty after cleaning. *)
Lemma processMarkdownWithAI_empty env md s :
  cleanedContent md = "" ->
  exists e,
    snd (processMarkdownWithAI env md s) = inl (pipeline_failure e)
    /\ trace (fst (processMarkdownWithAI env md s))
       = trace s ++ phase1_requests md
           ++ (if phase2_started env md then phase2_requests md else [])
    /\ db (fst (processMarkdownWithAI env md s)) = db s
    /\ (phase2_started env md = true ->
        snd (phase2 env md (record_all s (phase1_requests md))) = inl e).
Proof.
  intros Hblank.
  pose proof (processMarkdownWithAI_cases env md s) as Hcases.
  cbv zeta in Hcases. unfold phase2_started.
  destruct (snd (phase1 env md initial))
    as [e | [[[summaries seo] categoryResult] tags]].
  { exists e. rewrite Hcases. cbn [fst snd record_all trace db].
    repeat split; discriminate. }
  destruct (converts (CategoryResult.category categoryResult)).
  2: { eexists. rewrite Hcases. cbn [fst snd record_all trace db].
       repeat split; discriminate. }
  destruct (@phase2_blank env md (record_all s (phase1_requests md)) Hblank)
    as (e & Hsnd & Htrace).
  destruct (phase2_effect env md (record_all s (phase1_requests md)))
    as [Hdb _].
  destruct (phase2 env md (record_all s (phase1_requests md)))
    as [s2 [e2 | [[schema imagePrompt] embedding]]];
    cbn [fst snd] in Hsnd, Htrace, Hdb; [| discriminate].
  exists e2. rewrite Hcases. cbn [fst snd].
  unfold record_all in *. cbn [trace db] in *.
  rewrite Htrace, <- app_assoc. auto.
Qed.

(** C2.  The orchestrator has no length check.  Whatever the
    environment and the state, its run on a document that is empty
    after cleaning, the empty document first of all, is not rejected
    before any capability is invoked: it sends the four requests of
    Phase 1, and, when Phase 1 fulfils and its category can be logged,
    the two agent requests of Phase 2; only then does it fail, and when
    the two agents fulfil and the client of the provider is at hand the
    failure is that of the embeddings adapter, "Content is empty after
    cleaning".  The validator is not asked and the database is left
    alone.  [createModule], which receives the text of an uploaded file
    as it is, runs the orchestrator on it and fails in the same way
    after the same requests.  The minimum length is the business of
    the schema of POST /api/ai/process, which answers content shorter
    than 10 characters with 400 and sends nothing. *)
Theorem empty_document_reaches_the_capabilities
  (env : Env) (md : string) (s : State) :
  cleanedContent md = "" ->
  let run := processMarkdownWithAI env md s in
  (exists message,
      snd run = inl (Error ("AI Pipeline failed: " ++ message)))
  /\ trace (fst run)
     = trace s ++ phase1_requests md
         ++ (if phase2_started env md then phase2_requests md else [])
  /\ db (fst run) = db s
  /\ ~ rejected_before_any_capability env md s
  /\ (forall schema imagePrompt,
         phase2_started env md = true ->
         client_available env s ->
         snd (generateSchemaOrgData env md initial) = inr schema ->
         snd (generateImagePrompt env md initial) = inr imagePrompt ->
         snd run
         = inl (Error
             "AI Pipeline failed: Failed to generate embeddings: Content is empty after cleaning"))
  /\ (forall input,
         CreateModuleInput.markdownContent input = md ->
         exists message,
           createModule env input s
           = (fst run, inl (Error ("AI Pipeline failed: " ++ message))))
  /\ (forall o content,
         get o "content" = Some (JStr content) ->
         String.length content < 10 ->
         post_process env (Some (JObj o)) s
         = (s, inr (BadRequest400 "Validation error"
                      "Content must be at least 10 characters")))
  /\ cleanedContent "" = "".
Proof.
  intros Hblank. cbv zeta.
  destruct (@processMarkdownWithAI_empty env md s Hblank)
    as (e & Hsnd & Htrace & Hdb & Hphase2).
  split; [exists (message_of e); exact Hsnd |].
  split; [exact Htrace |]. split; [exact Hdb |].
  split.
  { intros [Hsame _]. rewrite Hsame in Htrace.
    apply (f_equal (@List.length Event)) in Htrace.
    rewrite !length_app in Htrace. cbn [phase1_requests List.length] in Htrace.
    lia. }
  split.
  { intros schema imagePrompt Hstarted Hclient Hschema Himage.
    rewrite Hsnd. specialize (Hphase2 Hstarted).
    assert (Hclient' : client_available env
                         (record_all s (phase1_requests md)))
      by exact Hclient.
    rewrite (@phase2_empty env md _ schema imagePrompt Hblank Hclient' Hschema
               Himage) in Hphase2.
    injection Hphase2 as <-. reflexivity. }
  split.
  { intros input <-. exists (message_of e).
    unfold createModule. unfold_bind.
    destruct (processMarkdownWithAI env _ s) as [s1 outcome].
    cbn [fst snd] in *. subst outcome. reflexivity. }
  split; [| exact cleanedContent_empty].
  intros o content Hget Hshort.
  unfold post_process, ProcessMarkdownSchema_parse. rewrite Hget.
  apply Nat.ltb_lt in Hshort. rewrite Hshort. reflexivity.
Qed.

(** With every capability answering, the empty document costs six
    requests before the embeddings adapter turns it down. *)
Lemma empty_document_reaches_the_capabilities_witness :
  snd (processMarkdownWithAI Sample.happy "" initial)
  = inl (Error
      "AI Pipeline failed: Failed to generate embeddings: Content is empty after cleaning")
  /\ List.length (trace (fst (processMarkdownWithAI Sample.happy "" initial)))
     = 6.
Proof.
  destruct (@empty_document_reaches_the_capabilities Sample.happy ""
              initial cleanedContent_empty)
    as (_ & Htrace & _ & _ & Hfails & _).
  split.
  - apply (Hfails (Sample.schema_object
                     ++ [("datePublished", JStr "2025-11-16")])
             (ImagePromptResult.mk (JStr "Isometric illustration of hooks")
                (JStr "Flat and modern."))).
    + vm_compute. reflexivity.
    + right. exists "sk-sample". split; [reflexivity | discriminate].
    + vm_compute. reflexivity.
    + vm_compute. reflexivity.
  - rewrite Htrace. vm_compute. reflexivity.
Defined.

(** ** C3: tags *)

Lemma In_firstn {A} (x : A) n l : In x (firstn n l) -> In x l.
Proof.
  revert l. induction n as [| n IH]; intros [| y l]; simpl; try tauto.
  intros [-> | Hin]; auto.
Qed.

Lemma firstn_length_bounds {A} n (l : list A) :
  List.length (firstn n l) = Nat.min n (List.length l).
Proof.
  revert l. induction n as [| n IH]; intros [| y l]; simpl; auto.
Qed.

(** The part of C3 that holds: a returned list has three to five
    entries, each of which matches the tag pattern. *)
Lemma generateTags_count_and_shape env md s s' tags :
  generateTags env md s = (s', inr tags) ->
  3 <= List.length tags <= 5
  /\ Forall (fun tag => test_tag tag = true) tags.
Proof.
  unfold generateTags. unfold_bind.
  destruct (extract_json env Tags _ s) as [s1 [e | result]];
    [discriminate |].
  destruct (get result "tags") as [[| | | | tags0 |] |]; try discriminate.
  destruct (List.length tags0 <? 3); [discriminate |].
  destruct (lower_trim_all _) as [e | lowered]; [discriminate |].
  destruct (List.length (filter _ lowered) <? 3) eqn:Hcount;
    [discriminate |].
  set (kept := filter _ lowered) in *.
  remember (firstn 5 kept) as returned eqn:Hreturned.
  intros [= _ <-]. subst returned. apply Nat.ltb_ge in Hcount. split.
  - rewrite firstn_length_bounds. lia.
  - apply Forall_forall. intros tag Hin. apply In_firstn in Hin.
    apply filter_In in Hin as [_ Htag].
    now apply andb_true_iff in Htag as [_ Htag].
Qed.

(** C3, at the failing input.  When the agent answers
    [{"tags":["react","React","hooks"]}], [generateTags] returns
    [react] twice: nothing removes duplicates, and lowercasing makes
    new ones. *)
Theorem generateTags_returns_duplicates :
  snd (generateTags Sample.repeating Sample.document initial)
  = inr ["react"; "react"; "hooks"]
  /\ ~ NoDup ["react"; "react"; "hooks"].
Proof.
  split.
  - vm_compute. reflexivity.
  - intros Hnodup. inversion Hnodup as [| x l Hnotin _]. apply Hnotin.
    now left.
Qed.

(** ** C4: a Phase 1 failure *)

(** C4.  When a Phase 1 adapter rejects, [processMarkdownWithAI] throws
    the error of a Phase 1 adapter that rejected, the one whose promise
    settled first (so, when only one rejects, that one); the run has
    sent the four Phase 1 requests and nothing else: no capability of
    Phase 2 or Phase 3 is invoked. *)
Theorem phase1_failure_aborts_run
  (env : Env) (md : string) (s : State) (k0 : Capability) (e0 : exn) :
  phase1_rejection env md k0 = Some e0 ->
  (exists k e,
      phase k = 1
      /\ phase1_rejection env md k = Some e
      /\ (forall k' e', phase1_rejection env md k' = Some e' ->
                        settled_at env k <= settled_at env k')
      /\ snd (processMarkdownWithAI env md s)
         = inl (Error ("AI Pipeline failed: " ++ message_of e)))
  /\ ((forall k', k' <> k0 -> phase1_rejection env md k' = None) ->
      snd (processMarkdownWithAI env md s)
      = inl (Error ("AI Pipeline failed: " ++ message_of e0)))
  /\ trace (fst (processMarkdownWithAI env md s))
     = trace s ++ phase1_requests md
  /\ (forall k' input,
         In (Invoke k' input)
            (skipn (List.length (trace s))
               (trace (fst (processMarkdownWithAI env md s)))) ->
         phase k' = 1).
Proof.
  intros Hfail.
  destruct (phase1_rejects env md k0 Hfail) as (k & e & Hk & Hmin & Hsnd).
  pose proof (processMarkdownWithAI_cases env md s) as Hcases.
  cbv zeta in Hcases. rewrite Hsnd in Hcases. rewrite Hcases.
  unfold pipeline_failure. simpl fst. simpl snd.
  assert (Hphase : phase k = 1).
  { destruct k; try reflexivity; discriminate. }
  repeat split.
  - exists k, e. auto.
  - intros Honly. destruct (capability_eq_dec k k0) as [-> | Hneq].
    + rewrite Hk in Hfail. now injection Hfail as ->.
    + rewrite (Honly k Hneq) in Hk. discriminate.
  - unfold record_all. simpl.
    rewrite skipn_app, skipn_all, Nat.sub_diag. simpl.
    intros k' input Hin.
    repeat (destruct Hin as [Hin | Hin];
            [injection Hin as <- _; reflexivity |]).
    destruct Hin.
Qed.

(** With the tags agent answering in prose, the run ends with the tags
    adapter's error after the four Phase 1 requests. *)
Lemma phase1_failure_aborts_run_witness :
  snd (processMarkdownWithAI Sample.tagless Sample.document initial)
  = inl (Error
      "AI Pipeline failed: Failed to generate tags: No valid JSON found in response")
  /\ trace (fst (processMarkdownWithAI Sample.tagless Sample.document initial))
     = phase1_requests Sample.document.
Proof.
  assert (Hfail : phase1_rejection Sample.tagless Sample.document Tags
                  = Some (Error
                      "Failed to generate tags: No valid JSON found in response")).
  { vm_compute. reflexivity. }
  destruct (phase1_failure_aborts_run Sample.tagless Sample.document initial
              Tags Hfail) as (_ & Honly & Htrace & _).
  split.
  - apply Honly. intros k' Hk'.
    destruct k'; try (vm_compute; reflexivity). congruence.
  - exact Htrace.
Defined.

(** ** C5: the embedding *)

(** The claim fails as stated: a provider vector of 3072 components
    whose first one is infinite is returned as it is. *)
Lemma generateEmbeddings_returns_infinite_component :
  exists e,
    snd (generateEmbeddings Sample.overflowing Sample.document initial) = inr e
    /\ List.length e = 3072
    /\ forallb finite_number e = false.
Proof.
  exists Sample.overflowed_vector. repeat split; vm_compute; reflexivity.
Qed.

(** C5, amended.  An embedding returned by [generateEmbeddings] has
    exactly 3072 components, and they are the provider's components,
    returned without inspection; a provider vector of any other length
    is rejected with the dimension message. *)
Theorem generateEmbeddings_checks_dimension_only
  (env : Env) (md : string) (s : State) :
  (forall s' e,
      generateEmbeddings env md s = (s', inr e) ->
      List.length e = 3072
      /\ embeddings_create env (cleanedContent md) = inr (Some (JArr e)))
  /\
  (forall components,
      client_available env s ->
      cleanedContent md <> "" ->
      embeddings_create env (cleanedContent md)
      = inr (Some (JArr components)) ->
      List.length components <> 3072 ->
      snd (generateEmbeddings env md s)
      = inl (Error
               ("Failed to generate embeddings: Unexpected embedding dimensions: "
                  ++ string_of_nat (List.length components)
                  ++ " (expected 3072)"))).
Proof.
  split.
  - intros s' e Hrun.
    destruct (generateEmbeddings_ok_inv _ _ _ Hrun) as (Hlen & Hprov & _).
    auto.
  - intros components Hclient Hcontent Hprov Hlen.
    now rewrite (generateEmbeddings_mismatch _ Hclient Hcontent Hprov Hlen).
Qed.

(** A vector of 1536 components is rejected. *)
Lemma generateEmbeddings_checks_dimension_only_witness :
  snd (generateEmbeddings Sample.short_vector Sample.document initial)
  = inl (Error
      "Failed to generate embeddings: Unexpected embedding dimensions: 1536 (expected 3072)").
Proof.
  assert (Hlen : List.length (repeat (JNum (Fin 0.01)) 1536) = 1536)
    by apply repeat_length.
  pose proof (proj2 (generateEmbeddings_checks_dimension_only
                       Sample.short_vector Sample.document initial)
                (repeat (JNum (Fin 0.01)) 1536)) as Hreject.
  rewrite Hlen in Hreject. apply Hreject.
  - right. exists "sk-sample". split; [reflexivity | discriminate].
  - vm_compute. discriminate.
  - reflexivity.
  - vm_compute. discriminate.
Defined.

(** ** C8: the cost estimate *)

(** C8.  For every non-negative integer [n], the estimate for [n]
    documents has [total] equal to [perModule * n], where [perModule]
    is the sum of the eight constants of the cost table (0.072); the
    estimate is a function of [n] alone. *)
Theorem estimateProcessingCost_total (n : nat) :
  let estimate := estimateProcessingCost (inject_Z (Z.of_nat n)) in
  CostEstimate.total estimate
  = (CostEstimate.perModule estimate * inject_Z (Z.of_nat n))%Q
  /\ CostEstimate.perModule estimate
     = fold_left Qplus (Object_values COST_ESTIMATES) 0%Q
  /\ List.length (Object_values COST_ESTIMATES) = 8
  /\ (CostEstimate.perModule estimate == 0.072)%Q
  /\ CostEstimate.breakdown estimate = COST_ESTIMATES.
Proof.
  repeat split.
Qed.

(** ** C9: record creation *)

(** The orchestrator only sends requests to the capabilities: it never
    writes to the database. *)
Lemma processMarkdownWithAI_effect env md s :
  db (fst (processMarkdownWithAI env md s)) = db s
  /\ exists evs,
       trace (fst (processMarkdownWithAI env md s)) = trace s ++ evs
       /\ Forall is_invoke evs.
Proof.
  assert (Hreq : forall l, Forall is_invoke (phase1_requests md ++ l)
                           <-> Forall is_invoke l).
  { intros l. rewrite Forall_app. split; [tauto |]. intros Hl. split; [| exact Hl].
    repeat constructor; unfold is_invoke; eauto. }
  assert (Hreq2 : Forall is_invoke (phase2_requests md)).
  { repeat constructor; unfold is_invoke; eauto. }
  pose proof (processMarkdownWithAI_cases env md s) as Hcases.
  cbv zeta in Hcases.
  destruct (snd (phase1 env md initial))
    as [e | [[[summaries seo] categoryResult] tags]].
  - rewrite Hcases. split; [reflexivity |].
    exists (phase1_requests md). split; [reflexivity |].
    rewrite <- (app_nil_r (phase1_requests md)). apply Hreq. constructor.
  - destruct (converts (CategoryResult.category categoryResult)).
    2: { rewrite Hcases. split; [reflexivity |].
         exists (phase1_requests md). split; [reflexivity |].
         rewrite <- (app_nil_r (phase1_requests md)). apply Hreq.
         constructor. }
    destruct (phase2_effect env md (record_all s (phase1_requests md)))
      as [Hdb Htrace].
    destruct (phase2 env md (record_all s (phase1_requests md)))
      as [s2 [e | [[schema imagePrompt] embedding]]];
      cbn [fst snd] in Hdb, Htrace;
      unfold record_all in Hdb, Htrace; cbn [trace db] in Hdb, Htrace.
    + rewrite Hcases. cbn [fst]. split; [exact Hdb |].
      destruct Htrace as [-> | ->]; rewrite <- app_assoc;
        eexists; (split; [reflexivity |]); apply Hreq;
        [| apply Forall_app; split; [exact Hreq2 |]; repeat constructor;
           unfold is_invoke; eauto ];
        exact Hreq2.
    + destruct (snd (validateMetadata env md _ initial));
        rewrite Hcases; unfold record; cbn [fst trace db];
        (split; [exact Hdb |]);
        destruct Htrace as [-> | ->]; rewrite <- !app_assoc;
        eexists; (split; [reflexivity |]); apply Hreq;
        repeat (apply Forall_app; split);
        try exact Hreq2; repeat constructor; unfold is_invoke; eauto.
Qed.

Lemma supabase_insert_run env t r store s :
  supabase_insert env t r store s
  = match insert_error env t r with
    | Some message => (record s (Insert t r), inr (Some message))
    | None =>
        (mkState (trace s ++ [Insert t r]) (openaiClient s) (store (db s)),
         inr None)
    end.
Proof.
  unfold supabase_insert, update_db. unfold_bind.
  destruct (insert_error env t r); reflexivity.
Qed.

Lemma num_lt_false_le a b : num_lt a b = false -> num_le b a = true.
Proof. unfold num_lt. now destruct (num_le b a). Qed.

(** What [createModule] inserts into [modules] and what it stores there
    carries a passing score. *)
Lemma createModule_inserts_passing env input s :
  let s' := fst (createModule env input s) in
  (forall data,
      In (Insert modules (ModuleRow data)) (trace s') ->
      In (Insert modules (ModuleRow data)) (trace s)
      \/ num_le (Fin 70) (ModuleData.quality_score data) = true)
  /\ (forall m,
         In m (stored_modules (db s')) ->
         In m (stored_modules (db s))
         \/ num_le (Fin 70) (ModuleData.quality_score (snd m)) = true).
Proof.
  cbv zeta.
  destruct (processMarkdownWithAI_effect env
              (CreateModuleInput.markdownContent input) s)
    as (Hdb & evs & Htrace & Hevs).
  assert (Hold : forall data l,
             (forall ev, In ev l ->
                ev = Insert modules (ModuleRow data) ->
                num_le (Fin 70) (ModuleData.quality_score data) = true) ->
             In (Insert modules (ModuleRow data)) ((trace s ++ evs) ++ l) ->
             In (Insert modules (ModuleRow data)) (trace s)
             \/ num_le (Fin 70) (ModuleData.quality_score data) = true).
  { intros data l Hl Hin. apply in_app_or in Hin as [Hin | Hin].
    - apply in_app_or in Hin as [Hin | Hin]; [now left |].
      rewrite Forall_forall in Hevs. destruct (Hevs _ Hin) as (k & p & Heq).
      discriminate.
    - right. eapply Hl; eauto. }
  unfold createModule. unfold_bind.
  destruct (processMarkdownWithAI env _ s) as [s1 [e | aiResult]];
    cbn [fst snd] in Hdb, Htrace.
  - cbn [fst]. rewrite Htrace, Hdb. split; [| auto].
    intros data Hin. rewrite <- (app_nil_r (trace s ++ evs)) in Hin.
    apply (Hold data [] ); [intros ev [] | exact Hin].
  - destruct (num_lt (AIPipelineResult.quality_score aiResult) (Fin 70))
      eqn:Hscore.
    + cbn [fst]. rewrite Htrace, Hdb. split; [| auto].
      intros data Hin. rewrite <- (app_nil_r (trace s ++ evs)) in Hin.
      apply (Hold data []); [intros ev [] | exact Hin].
    + apply num_lt_false_le in Hscore.
      destruct (AIPipelineResult.seo_keywords aiResult);
        unfold_bind;
        try (cbn [fst]; rewrite Htrace, Hdb; split; [| auto];
             intros data Hin; rewrite <- (app_nil_r (trace s ++ evs)) in Hin;
             apply (Hold data []); [intros ev [] | exact Hin]).
      unfold get_db. rewrite !supabase_insert_run.
      destruct (insert_error env modules _); unfold_bind;
        [ unfold record; cbn [fst trace db]; rewrite Htrace, Hdb;
          split; [| auto];
          intros data Hin; apply (Hold data _ ) in Hin; [exact Hin |];
          intros ev [<- | []] [= <-]; exact Hscore |].
      rewrite !supabase_insert_run.
      destruct (insert_error env module_embeddings _); unfold_bind;
        rewrite !supabase_insert_run;
        destruct (insert_error env module_versions _); unfold_bind;
        unfold record; cbn [fst trace db stored_modules];
        rewrite Htrace, Hdb; rewrite <- ?app_assoc;
        (split;
         [ intros data Hin; rewrite app_assoc in Hin;
           apply (Hold data _) in Hin; [exact Hin |];
           cbn [app];
           intros ev [<- | [<- | [<- | []]]]; intros [= <-]; exact Hscore
         | intros m Hin; apply in_app_or in Hin as [Hin | [<- | []]];
           [now left | right; exact Hscore] ]).
Qed.

(** C9.  When the pipeline returns a result whose [quality_score] is
    below 70, [createModule] throws and the state is the one the
    pipeline left: the database is unchanged and no insert has been
    sent.  Hence every row this call inserts into [modules], and every
    module it stores, has [quality_score >= 70]. *)
Theorem createModule_aborts_below_threshold
  (env : Env) (input : CreateModuleInput.t) (s : State) :
  (forall s1 aiResult,
      processMarkdownWithAI env (CreateModuleInput.markdownContent input) s
      = (s1, inr aiResult) ->
      num_lt (AIPipelineResult.quality_score aiResult) (Fin 70) = true ->
      (exists message, createModule env input s = (s1, inl (Error message)))
      /\ db s1 = db s
      /\ (forall t r, In (Insert t r) (trace s1) -> In (Insert t r) (trace s)))
  /\
  (forall data,
      In (Insert modules (ModuleRow data))
         (trace (fst (createModule env input s))) ->
      In (Insert modules (ModuleRow data)) (trace s)
      \/ num_le (Fin 70) (ModuleData.quality_score data) = true)
  /\
  (forall m,
      In m (stored_modules (db (fst (createModule env input s)))) ->
      In m (stored_modules (db s))
      \/ num_le (Fin 70) (ModuleData.quality_score (snd m)) = true).
Proof.
  split; [| apply createModule_inserts_passing].
  intros s1 aiResult Hrun Hlow.
  destruct (processMarkdownWithAI_effect env
              (CreateModuleInput.markdownContent input) s)
    as (Hdb & evs & Htrace & Hevs).
  rewrite Hrun in Hdb, Htrace. cbn [fst] in Hdb, Htrace.
  repeat split.
  - unfold createModule. unfold_bind. rewrite Hrun, Hlow.
    eexists. reflexivity.
  - exact Hdb.
  - intros t r Hin. rewrite Htrace in Hin.
    apply in_app_or in Hin as [Hin | Hin]; [exact Hin |].
    rewrite Forall_forall in Hevs. destruct (Hevs _ Hin) as (k & p & Heq).
    discriminate.
Qed.

(** With the validator scoring 50, nothing is written. *)
Lemma createModule_aborts_below_threshold_witness :
  db (fst (createModule Sample.lenient Sample.input initial)) = empty_db
  /\ exists message,
       snd (createModule Sample.lenient Sample.input initial)
       = inl (Error message).
Proof.
  assert (Hrun : exists s1 aiResult,
             processMarkdownWithAI Sample.lenient
               (CreateModuleInput.markdownContent Sample.input) initial
             = (s1, inr aiResult)
             /\ num_lt (AIPipelineResult.quality_score aiResult) (Fin 70)
                = true).
  { eexists. eexists. split; vm_compute; reflexivity. }
  destruct Hrun as (s1 & aiResult & Hrun & Hlow).
  destruct (proj1 (createModule_aborts_below_threshold
                     Sample.lenient Sample.input initial)
              s1 aiResult Hrun Hlow) as ((message & Hthrow) & Hdb & _).
  rewrite Hthrow. split; [exact Hdb | now exists message].
Defined.

(** ** C10: the defaults of [semanticSearch] *)

(** C10.  Once the query is embedded, [semanticSearch] calls the search
    function with threshold 0.5 whenever the caller's threshold is
    absent or zero, and with count 10 whenever the caller's limit is
    absent or zero; any other value is passed as given.  So an explicit
    threshold 0 or limit 0 is replaced by the default. *)
Theorem semanticSearch_replaces_zero_by_default
  (env : Env) (input : SemanticSearchInput.t) (s s1 : State)
  (queryEmbedding : list json) :
  generateEmbeddings env (SemanticSearchInput.query input) s
  = (s1, inr queryEmbedding) ->
  exists threshold limit,
    trace (fst (semanticSearch env input s))
    = trace s1 ++ [Rpc queryEmbedding threshold limit]
    /\ (SemanticSearchInput.threshold input = None -> threshold = 0.5%Q)
    /\ (forall t, SemanticSearchInput.threshold input = Some t ->
                  (t == 0)%Q -> threshold = 0.5%Q)
    /\ (forall t, SemanticSearchInput.threshold input = Some t ->
                  ~ (t == 0)%Q -> threshold = t)
    /\ (SemanticSearchInput.limit input = None -> limit = 10%Z)
    /\ (SemanticSearchInput.limit input = Some 0%Z -> limit = 10%Z)
    /\ (forall l, SemanticSearchInput.limit input = Some l ->
                  l <> 0%Z -> limit = l).
Proof.
  intros Hembed. unfold semanticSearch, get_db. unfold_bind. rewrite Hembed.
  eexists. eexists. split.
  - destruct (rpc_error env); [reflexivity |].
    destruct (search_modules_by_embedding _ _ _ _ _); reflexivity.
  - repeat split.
    + now intros ->.
    + intros t -> Hzero. apply Qeq_bool_iff in Hzero. now rewrite Hzero.
    + intros t -> Hnonzero.
      destruct (Qeq_bool t 0) eqn:Hzero; [| reflexivity].
      apply Qeq_bool_iff in Hzero. contradiction.
    + now intros ->.
    + now intros ->.
    + intros l -> Hnonzero. apply Z.eqb_neq in Hnonzero. now rewrite Hnonzero.
Qed.

(** A search with threshold 0 and limit 0 reaches the database as a
    search with threshold 0.5 and count 10. *)
Lemma semanticSearch_replaces_zero_by_default_witness :
  exists s1 queryEmbedding,
    trace (fst (semanticSearch Sample.happy Sample.zero_search initial))
    = trace s1 ++ [Rpc queryEmbedding 0.5%Q 10%Z].
Proof.
  assert (Hembed : exists s1 queryEmbedding,
             generateEmbeddings Sample.happy
               (SemanticSearchInput.query Sample.zero_search) initial
             = (s1, inr queryEmbedding)).
  { eexists. eexists. vm_compute. reflexivity. }
  destruct Hembed as (s1 & queryEmbedding & Hembed).
  destruct (semanticSearch_replaces_zero_by_default
              Sample.happy Sample.zero_search initial Hembed)
    as (threshold & limit & Htrace & _ & Hzero & _ & _ & Hlimit & _).
  exists s1, queryEmbedding.
  rewrite Htrace, (Hzero 0%Q eq_refl (Qeq_refl 0)), (Hlimit eq_refl).
  reflexivity.
Defined.

(** ** C6: the search function *)

Lemma Qle_bool_false x y : Qle_bool x y = false -> (y <= x)%Q.
Proof.
  intros Hle. apply Qlt_le_weak, Qnot_le_lt. intros H.
  apply Qle_bool_iff in H. congruence.
Qed.

Lemma float8_le_trans x y z : float8_le x y -> float8_le y z -> float8_le x z.
Proof.
  destruct x as [a |], y as [b |], z as [c |]; cbn; try tauto.
  apply Qle_trans.
Qed.

(** The row that is produced first is not farther than the other. *)
Lemma ordered_before_closer first r r' :
  if ordered_before first r r' then closer r r' else closer r' r.
Proof.
  unfold ordered_before, closer.
  destruct (fst r) as [x |], (fst r') as [y |]; cbn; trivial.
  - destruct (Qeq_bool x y) eqn:Heq.
    + apply Qeq_bool_iff in Heq.
      destruct (first (snd r) (snd r')); rewrite Heq; apply Qle_refl.
    + destruct (Qle_bool x y) eqn:Hle;
        [now apply Qle_bool_iff | now apply Qle_bool_false].
  - now destruct (first (snd r) (snd r')).
Qed.

Lemma insert_by_distance_In first r l x :
  In x (insert_by_distance first r l) <-> x = r \/ In x l.
Proof.
  induction l as [| r' l IH]; simpl.
  - intuition.
  - destruct (ordered_before first r r'); simpl; [intuition |].
    rewrite IH. intuition.
Qed.

Lemma order_by_distance_In first l x :
  In x (order_by_distance first l) <-> In x l.
Proof.
  induction l as [| r l IH]; simpl; [tauto |].
  rewrite insert_by_distance_In, IH. intuition.
Qed.

Lemma insert_by_distance_sorted first r l :
  StronglySorted closer l ->
  StronglySorted closer (insert_by_distance first r l).
Proof.
  induction l as [| r' l IH]; intros Hsorted; simpl.
  - repeat constructor.
  - inversion Hsorted as [| ? ? Hl Hr']; subst.
    pose proof (ordered_before_closer first r r') as Hfirst.
    destruct (ordered_before first r r').
    + constructor; [exact Hsorted |].
      constructor; [exact Hfirst |].
      eapply Forall_impl; [| exact Hr']. intros x Hx.
      unfold closer in *. now apply float8_le_trans with (fst r').
    + constructor; [now apply IH |].
      apply Forall_forall. intros x Hin.
      apply insert_by_distance_In in Hin as [-> | Hin]; [exact Hfirst |].
      rewrite Forall_forall in Hr'. now apply Hr'.
Qed.

Lemma order_by_distance_sorted first l :
  StronglySorted closer (order_by_distance first l).
Proof.
  induction l as [| r l IH]; simpl; [constructor |].
  now apply insert_by_distance_sorted.
Qed.

Lemma firstn_sorted {A} (R : A -> A -> Prop) n l :
  StronglySorted R l -> StronglySorted R (firstn n l).
Proof.
  revert l. induction n as [| n IH]; intros [| x l] Hsorted; simpl;
    try constructor.
  - inversion Hsorted; subst. now apply IH.
  - inversion Hsorted as [| ? ? _ Hx]; subst.
    apply Forall_forall. intros y Hin. apply In_firstn in Hin.
    rewrite Forall_forall in Hx. now apply Hx.
Qed.

(** Every joined row is a stored module paired with the distance of one
    of its stored embeddings. *)
Lemma joined_In env d query dist m :
  In (dist, m) (joined env d query) ->
  In m (stored_modules d)
  /\ exists e, In (fst m, e) (stored_embeddings d)
               /\ dist = cosine_distance env e query.
Proof.
  unfold joined. intros Hin. apply in_flat_map in Hin as (m' & Hm' & Hin).
  apply in_map_iff in Hin as ([id e] & Heq & Hin).
  apply filter_In in Hin as [Hin Hid]. apply String.eqb_eq in Hid.
  simpl in Heq, Hid. injection Heq as <- <-. subst id.
  split; [exact Hm' |]. exists e. auto.
Qed.

(** The rows of a result, and what the count was. *)
Lemma search_modules_by_embedding_rows env d query threshold count rows :
  search_modules_by_embedding env d query (Some threshold) (Some count)
  = inr rows ->
  is_int count = true
  /\ (0 <= count)%Z
  /\ rows
     = map (fun r => SearchRow.mk (snd r) (one_minus (fst r)))
         (firstn (Z.to_nat count)
            (order_by_distance (tie_order env query threshold count)
               (filter (fun r => float8_gt (one_minus (fst r)) threshold)
                  (joined env d query)))).
Proof.
  unfold search_modules_by_embedding.
  destruct (is_int count); cbn [negb]; [| discriminate].
  destruct (count <? 0)%Z eqn:Hcount; [discriminate |].
  apply Z.ltb_ge in Hcount. intros [= <-]. auto.
Qed.

(** A count of type [int] that is not negative gives rows. *)
Lemma search_modules_by_embedding_total env d query threshold count :
  (0 <= count <= 2147483647)%Z ->
  exists rows,
    search_modules_by_embedding env d query (Some threshold) (Some count)
    = inr rows.
Proof.
  intros Hcount. unfold search_modules_by_embedding, is_int.
  replace (- 2147483648 <=? count)%Z with true
    by (symmetry; apply Z.leb_le; lia).
  replace (count <=? 2147483647)%Z with true
    by (symmetry; apply Z.leb_le; lia).
  replace (count <? 0)%Z with false by (symmetry; apply Z.ltb_ge; lia).
  eexists. reflexivity.
Qed.

(** What [semanticSearch] returns is what the search function returns
    on the database as it was, for the embedded query and the values
    passed, which are 0.5 and 10 when the caller gives none. *)
Lemma semanticSearch_returns_search_rows env input s s' rows :
  semanticSearch env input s = (s', inr rows) ->
  exists queryEmbedding threshold limit,
    search_modules_by_embedding env (db s) queryEmbedding
      (Some threshold) (Some limit) = inr rows
    /\ (SemanticSearchInput.threshold input = None -> threshold = 0.5%Q)
    /\ (SemanticSearchInput.limit input = None -> limit = 10%Z).
Proof.
  unfold semanticSearch, get_db. unfold_bind.
  destruct (generateEmbeddings_effect env (SemanticSearchInput.query input) s)
    as [Hdb _].
  destruct (generateEmbeddings env (SemanticSearchInput.query input) s)
    as [s1 [e | queryEmbedding]]; [discriminate |].
  cbn [fst] in Hdb. unfold record. cbn [db]. rewrite Hdb.
  destruct (rpc_error env); [discriminate |].
  destruct (search_modules_by_embedding _ _ _ _ _) as [message | data] eqn:Hrows;
    [discriminate |].
  intros [= _ <-]. eexists. eexists. eexists.
  split; [exact Hrows |]. split; now intros ->.
Qed.

(** Every row of a result is an indexed module with the similarity of
    its embedding, which PostgreSQL found greater than the threshold. *)
Lemma search_row_passed_filter env d query threshold count rows r :
  search_modules_by_embedding env d query (Some threshold) (Some count)
  = inr rows ->
  In r rows ->
  indexed_row env d query r
  /\ float8_gt (SearchRow.similarity r) threshold = true.
Proof.
  intros Hrows Hin.
  apply search_modules_by_embedding_rows in Hrows as (_ & _ & ->).
  apply in_map_iff in Hin as ([dist m] & <- & Hin).
  apply In_firstn in Hin.
  apply (proj1 (order_by_distance_In _ _ _)) in Hin.
  apply filter_In in Hin as [Hin Hthreshold].
  apply joined_In in Hin as (Hm & e & He & ->). cbn in *.
  split; [| exact Hthreshold]. split; [exact Hm |]. exists e. auto.
Qed.

(** Rows by ascending distance are result rows by descending
    similarity. *)
Lemma rows_by_similarity (l : list (float8 * Module_)) :
  StronglySorted closer l ->
  StronglySorted more_similar
    (map (fun r => SearchRow.mk (snd r) (one_minus (fst r))) l).
Proof.
  induction 1 as [| r l _ IH Hr]; simpl; constructor; [exact IH |].
  apply Forall_forall. intros r' Hin.
  apply in_map_iff in Hin as (x & <- & Hin).
  rewrite Forall_forall in Hr. specialize (Hr _ Hin).
  unfold more_similar, closer in *. simpl.
  destruct (fst r) as [a |], (fst x) as [b |]; cbn in *; trivial.
  apply Qplus_le_r, Qopp_le_compat. exact Hr.
Qed.

Lemma float8_gt_cases x threshold :
  float8_gt x threshold = true ->
  (exists q, x = Float8 q /\ (threshold < q)%Q) \/ x = NaN.
Proof.
  destruct x as [q |]; cbn; [| now right]. intros Hgt. left. exists q.
  split; [reflexivity |]. apply Qnot_le_lt. intros Hle.
  apply Qle_bool_iff in Hle. rewrite Hle in Hgt. discriminate.
Qed.

(** The claim fails as stated: a stored embedding of norm zero has no
    distance to the query; its similarity is NaN, which the filter
    takes for greater than the threshold, and the module is returned,
    after the modules that have a similarity. *)
Lemma search_returns_row_without_similarity :
  exists rows,
    search_modules_by_embedding Sample.happy Sample.degenerate []
      (Some 0.5%Q) (Some 10%Z) = inr rows
    /\ map (fun r => fst (SearchRow.module r)) rows = ["m1"; "m4"]
    /\ ~ Forall (matches Sample.happy Sample.degenerate [] 0.5%Q) rows.
Proof.
  eexists. split; [vm_compute; reflexivity |]. split; [reflexivity |].
  intros Hall. apply Forall_inv_tail, Forall_inv in Hall.
  destruct Hall as (_ & x & Hx & _). discriminate Hx.
Qed.

(** C6, amended.  For every query vector, threshold and count: the
    rows the search function returns are at most [count]; every row is
    an indexed module whose similarity, [1 - distance] to the query,
    is strictly greater than the threshold, or is NaN; the rows that
    have a number as similarity come by descending similarity, the
    rows whose similarity is NaN after them.  When no stored embedding
    is at a distance NaN from the query, every row has a similarity
    strictly greater than the threshold.  The function returns rows
    for every count from 0 to 2147483647, and an error for every other
    count.  Arguments left out default to threshold 0.5 and count 10,
    in the function and in [semanticSearch], whose result is the
    function's. *)
Theorem search_modules_by_embedding_contract
  (env : Env) (d : Database) (query_embedding : list json)
  (match_threshold : Q) (match_count : Z) :
  (forall rows,
      search_modules_by_embedding env d query_embedding
        (Some match_threshold) (Some match_count) = inr rows ->
      (Z.of_nat (List.length rows) <= match_count)%Z
      /\ Forall (matches_or_undefined env d query_embedding match_threshold)
           rows
      /\ StronglySorted more_similar rows
      /\ ((forall id e,
              In (id, e) (stored_embeddings d) ->
              cosine_distance env e query_embedding <> NaN) ->
          Forall (matches env d query_embedding match_threshold) rows))
  /\ ((0 <= match_count <= 2147483647)%Z ->
      exists rows,
        search_modules_by_embedding env d query_embedding
          (Some match_threshold) (Some match_count) = inr rows)
  /\ ((match_count < 0)%Z \/ (2147483647 < match_count)%Z ->
      exists message,
        search_modules_by_embedding env d query_embedding
          (Some match_threshold) (Some match_count) = inl message)
  /\ search_modules_by_embedding env d query_embedding None None
     = search_modules_by_embedding env d query_embedding
         (Some 0.5%Q) (Some 10%Z)
  /\ (forall input s s' rows,
         semanticSearch env input s = (s', inr rows) ->
         exists queryEmbedding threshold limit,
           search_modules_by_embedding env (db s) queryEmbedding
             (Some threshold) (Some limit) = inr rows
           /\ (SemanticSearchInput.threshold input = None ->
               threshold = 0.5%Q)
           /\ (SemanticSearchInput.limit input = None -> limit = 10%Z)).
Proof.
  split; [| split; [apply search_modules_by_embedding_total |
                    split; [| split;
                      [reflexivity
                      | apply semanticSearch_returns_search_rows]]]].
  - intros rows Hrows.
    assert (Hrow : forall r, In r rows ->
              indexed_row env d query_embedding r
              /\ float8_gt (SearchRow.similarity r) match_threshold = true).
    { intros r. now apply search_row_passed_filter with (count := match_count). }
    apply search_modules_by_embedding_rows in Hrows as (_ & Hcount & Hrows).
    split; [| split; [| split]].
    + rewrite Hrows, length_map, firstn_length_bounds. lia.
    + apply Forall_forall. intros r Hin.
      destruct (Hrow r Hin) as [Hindexed Hgt]. split; [exact Hindexed |].
      apply float8_gt_cases in Hgt as [Hnumber | Hnan]; [now left | now right].
    + rewrite Hrows. apply rows_by_similarity, firstn_sorted,
        order_by_distance_sorted.
    + intros Hnumbers. apply Forall_forall. intros r Hin.
      destruct (Hrow r Hin) as [Hindexed Hgt]. split; [exact Hindexed |].
      apply float8_gt_cases in Hgt as [Hnumber | Hnan]; [exact Hnumber |].
      destruct Hindexed as (_ & e & He & Hsimilarity).
      rewrite Hnan in Hsimilarity. exfalso.
      apply (Hnumbers _ _ He).
      destruct (cosine_distance env e query_embedding);
        [discriminate | reflexivity].
  - intros Hcount. unfold search_modules_by_embedding, is_int.
    destruct ((- 2147483648 <=? match_count)%Z
              && (match_count <=? 2147483647)%Z) eqn:Hint; cbn [negb];
      [| eexists; reflexivity].
    destruct (match_count <? 0)%Z eqn:Hneg; [eexists; reflexivity |].
    apply andb_prop in Hint as [_ Hmax]. apply Z.leb_le in Hmax.
    apply Z.ltb_ge in Hneg. lia.
Qed.

(** Over three indexed modules at distances 0.1, 0.7 and 0.3, a search
    with threshold 0.5 and count 10 returns the first and the third,
    in that order. *)
Lemma search_modules_by_embedding_contract_witness :
  exists rows,
    search_modules_by_embedding Sample.happy Sample.indexed [] (Some 0.5%Q)
      (Some 10%Z) = inr rows
    /\ map (fun r => fst (SearchRow.module r)) rows = ["m1"; "m3"]
    /\ StronglySorted more_similar rows.
Proof.
  destruct (search_modules_by_embedding_contract
              Sample.happy Sample.indexed [] 0.5%Q 10%Z)
    as (Hsafe & Hlive & _).
  destruct (Hlive ltac:(lia)) as (rows & Hrows).
  destruct (Hsafe rows Hrows) as (_ & _ & Hsorted & _).
  exists rows. repeat split; [exact Hrows | | exact Hsorted].
  vm_compute in Hrows. injection Hrows as <-. reflexivity.
Defined.

(** ** C7: cosine similarity *)

(** Binary64 multiplication commutes. *)
Lemma float_mul_comm (x y : float) : (x * y = y * x)%float.
Proof.
  apply Prim2SF_inj. rewrite !mul_spec. unfold SF64mul, SpecFloat.SFmul.
  destruct (Prim2SF x) as [sx | sx | | sx mx ex],
           (Prim2SF y) as [sy | sy | | sy my ey];
    try reflexivity; try (now rewrite xorb_comm).
  now rewrite xorb_comm, Pos.mul_comm, Z.add_comm.
Qed.

(** Swapping the vectors swaps the two norms and keeps the dot
    product. *)
Lemma accumulate_swap (a b : list float) (dotProduct normA normB : float) :
  accumulate b a (dotProduct, normB, normA)
  = let '(d, na, nb) := accumulate a b (dotProduct, normA, normB) in
    (d, nb, na).
Proof.
  revert b dotProduct normA normB.
  induction a as [| x a IH]; intros [| y b] d na nb; simpl; trivial.
  rewrite (float_mul_comm y x). apply IH.
Qed.

Lemma cosineSimilarity_sym (a b : list float) :
  cosineSimilarity a b = cosineSimilarity b a.
Proof.
  unfold cosineSimilarity. rewrite (Nat.eqb_sym (List.length b)).
  destruct (List.length a =? List.length b); simpl; [| reflexivity].
  rewrite (accumulate_swap a b).
  destruct (accumulate a b (0, 0, 0)%float) as [[d na] nb].
  now rewrite (float_mul_comm (PrimFloat.sqrt nb)).
Qed.




(** The square of a zero, of either sign, is the positive zero. *)
Lemma square_of_zero (x : float) : is_zero x -> (x * x)%float = 0%float.
Proof.
  unfold is_zero. rewrite eqb_spec. intros Hzero.
  apply Prim2SF_inj. rewrite mul_spec.
  change (Prim2SF 0) with (S754_zero false) in *.
  destruct (Prim2SF x) as [sx | sx | | sx mx ex];
    try (destruct sx; discriminate Hzero).
  - now destruct sx.
  - discriminate Hzero.
Qed.



(** The repository's own test vectors. *)
Example cosineSimilarity_test_vectors :
  self_similarity_is_one [1; 2; 3; 4; 5]%float
  /\ cosineSimilarity [1; 0; 0]%float [0; 1; 0]%float = inr 0%float
  /\ cosineSimilarity [1; 2; 3]%float [1; 2]%float
     = inl (Error "Embeddings must have the same dimensions").
Proof.
  repeat split. eexists. split; vm_compute; reflexivity.
Qed.



(* ================================================================== *)
(** * Further properties of the pipeline *)
(* ================================================================== *)

Lemma added_app (s : State) (s' : State) (evs : list Event) :
  trace s' = trace s ++ evs -> added (List.length (trace s)) s' = evs.
Proof.
  intros Htrace. unfold added.
  now rewrite Htrace, skipn_app, skipn_all, Nat.sub_diag.
Qed.

(** A result of the gate is within range. *)
Lemma validateMetadata_in_range env md metadata s s' validation :
  validateMetadata env md metadata s = (s', inr validation) ->
  exists q,
    ValidationResult.quality_score validation = Fin q
    /\ (0 <= q)%Q /\ (q <= 100)%Q.
Proof.
  unfold validateMetadata. unfold_bind.
  destruct (extract_json env Validator _ s) as [s1 [e | parsed]];
    [discriminate |].
  destruct (get parsed "quality_score") as [[| | score | | |] |];
    try discriminate.
  destruct (get parsed "passed") as [[| flag | | | |] |]; try discriminate.
  destruct (required (get parsed "validation_report")) as [report |];
    try discriminate.
  intros [= _ <-]. cbn [ValidationResult.quality_score].
  destruct (clamp_in_range score) as (q & Hq & H0 & H100). eauto.
Qed.

(** When Phase 1 fulfils, each of its adapters has fulfilled with the
    corresponding component. *)
Lemma phase1_ok_inv env md summaries seo categoryResult tags :
  snd (phase1 env md initial) = inr (summaries, seo, categoryResult, tags) ->
  snd (generateSummaries env md initial) = inr summaries
  /\ snd (generateSEOMetadata env md initial) = inr seo
  /\ snd (categorizeContent env md initial) = inr categoryResult
  /\ snd (generateTags env md initial) = inr tags.
Proof.
  pose proof (generateSummaries_run env md) as H1.
  pose proof (generateSEOMetadata_run env md) as H2.
  pose proof (categorizeContent_run env md) as H3.
  pose proof (generateTags_run env md) as H4.
  set (o1 := snd (generateSummaries env md initial)) in *.
  set (o2 := snd (generateSEOMetadata env md initial)) in *.
  set (o3 := snd (categorizeContent env md initial)) in *.
  set (o4 := snd (generateTags env md initial)) in *.
  unfold phase1, Promise_all4. unfold_run.
  rewrite H1. unfold_run. rewrite H2. unfold_run.
  rewrite H3. unfold_run. rewrite H4. unfold_run.
  destruct o1, o2, o3, o4; unfold_run;
    repeat (split_match; unfold_run); try discriminate.
  intros [= <- <- <- <-]. auto.
Qed.

(** When Phase 2 fulfils, its three adapters have fulfilled and the
    provider has been asked, after the two agents. *)
Lemma phase2_ok_inv env md s s2 schema imagePrompt embedding :
  phase2 env md s = (s2, inr (schema, imagePrompt, embedding)) ->
  snd (generateSchemaOrgData env md initial) = inr schema
  /\ snd (generateImagePrompt env md initial) = inr imagePrompt
  /\ List.length embedding = 3072
  /\ embeddings_create env (cleanedContent md) = inr (Some (JArr embedding))
  /\ trace s2
     = trace s ++ phase2_requests md ++ [Invoke Embeddings (cleanedContent md)]
  /\ db s2 = db s.
Proof.
  pose proof (generateSchemaOrgData_run env md) as H1.
  pose proof (generateImagePrompt_run env md) as H2.
  set (o1 := snd (generateSchemaOrgData env md initial)) in *.
  set (o2 := snd (generateImagePrompt env md initial)) in *.
  unfold phase2, Promise_all3. unfold_run.
  rewrite H1. unfold_run. rewrite H2. unfold_run.
  rewrite !record_as_record_all, !record_all_app. simpl app.
  fold (phase2_requests md).
  destruct (generateEmbeddings env md (record_all s (phase2_requests md)))
    as [s3 o3] eqn:Hemb.
  destruct o1, o2, o3; unfold_run;
    repeat (split_match; unfold_run); try discriminate.
  intros [= <- <- <- <-].
  destruct (generateEmbeddings_ok_inv _ _ _ Hemb)
    as (Hlen & Hprov & Htrace & Hdb).
  unfold record_all in Htrace, Hdb. cbn [trace db] in Htrace, Hdb.
  rewrite <- app_assoc in Htrace. auto 7.
Qed.

(** A returned result, with everything it was assembled from. *)
Lemma processMarkdownWithAI_ok_inv env md s s' result :
  processMarkdownWithAI env md s = (s', inr result) ->
  exists metadata embedding validation,
    result = assemble env metadata embedding validation
    /\ snd (generateTags env md initial) = inr (Metadata.tags metadata)
    /\ List.length embedding = 3072
    /\ snd (validateMetadata env md metadata initial) = inr validation
    /\ trace s' = trace s ++ all_requests md (validationInput env md metadata)
    /\ db s' = db s.
Proof.
  intros Hrun.
  pose proof (processMarkdownWithAI_cases env md s) as Hcases.
  cbv zeta in Hcases.
  destruct (snd (phase1 env md initial))
    as [e | [[[summaries seo] categoryResult] tags]] eqn:Hphase1;
    [rewrite Hcases in Hrun; discriminate |].
  apply phase1_ok_inv in Hphase1 as (_ & _ & _ & Htags).
  destruct (converts (CategoryResult.category categoryResult));
    [| rewrite Hcases in Hrun; discriminate].
  destruct (phase2 env md (record_all s (phase1_requests md)))
    as [s2 [e | [[schema imagePrompt] embedding]]] eqn:Hphase2;
    [rewrite Hcases in Hrun; discriminate |].
  apply phase2_ok_inv in Hphase2 as (_ & _ & Hlen & _ & Htrace & Hdb).
  destruct (snd (validateMetadata env md _ initial)) as [e | validation]
    eqn:Hvalid; rewrite Hcases in Hrun; [discriminate |].
  destruct (warning_converts validation); [| discriminate].
  injection Hrun as <- <-.
  eexists. exists embedding, validation.
  split; [reflexivity |]. split; [exact Htags |]. split; [exact Hlen |].
  split; [exact Hvalid |].
  unfold record, record_all, all_requests in *. cbn [trace db] in *.
  rewrite Htrace, Hdb, <- !app_assoc. auto.
Qed.

(** X1.  A run that returns a result has sent exactly eight requests,
    in phase order: the four of Phase 1, then the two agents of Phase 2
    and the embedding provider, then the validator; it has written
    nothing to the database. *)
Theorem successful_run_sends_eight_requests_in_phase_order
  (env : Env) (md : string) (s s' : State) (result : AIPipelineResult.t) :
  processMarkdownWithAI env md s = (s', inr result) ->
  (exists validation,
      added (List.length (trace s)) s' = all_requests md validation)
  /\ map (fun ev => match ev with
                    | Invoke k _ => phase k
                    | _ => 0
                    end)
         (added (List.length (trace s)) s')
     = [1; 1; 1; 1; 2; 2; 2; 3]
  /\ db s' = db s.
Proof.
  intros Hrun.
  destruct (processMarkdownWithAI_ok_inv _ _ _ Hrun)
    as (metadata & embedding & validation & _ & _ & _ & _ & Htrace & Hdb).
  apply added_app in Htrace. rewrite Htrace.
  split; [eauto |]. split; [reflexivity | exact Hdb].
Qed.

Lemma successful_run_sends_eight_requests_in_phase_order_witness :
  exists s' result,
    processMarkdownWithAI Sample.happy Sample.document initial
    = (s', inr result)
    /\ List.length (added 0 s') = 8.
Proof.
  assert (Hrun : exists s' result,
             processMarkdownWithAI Sample.happy Sample.document initial
             = (s', inr result)).
  { eexists. eexists. vm_compute. reflexivity. }
  destruct Hrun as (s' & result & Hrun).
  destruct (successful_run_sends_eight_requests_in_phase_order
              Sample.happy Sample.document initial Hrun)
    as (_ & Hphases & _).
  exists s', result. split; [exact Hrun |].
  change 0 with (List.length (trace initial)).
  rewrite <- (length_map
                (fun ev => match ev with Invoke k _ => phase k | _ => 0 end)),
    Hphases.
  reflexivity.
Defined.

(** X2.  A returned result carries a finite quality score within
    [[0,100]], three to five tags that match the tag pattern, an
    embedding of 3072 components, the elapsed time, and an estimated
    cost equal to the sum of the eight constants, which is what
    [estimateProcessingCost] reports per module. *)
Theorem returned_result_is_well_formed
  (env : Env) (md : string) (s s' : State) (result : AIPipelineResult.t) :
  processMarkdownWithAI env md s = (s', inr result) ->
  (exists q,
      AIPipelineResult.quality_score result = Fin q
      /\ (0 <= q)%Q /\ (q <= 100)%Q)
  /\ 3 <= List.length (AIPipelineResult.tags result) <= 5
  /\ Forall (fun tag => test_tag tag = true) (AIPipelineResult.tags result)
  /\ List.length (AIPipelineResult.embedding result) = 3072
  /\ AIPipelineResult.processing_time_ms result = elapsed_ms env
  /\ (AIPipelineResult.estimated_cost_usd result == 0.072)%Q
  /\ (forall n,
         AIPipelineResult.estimated_cost_usd result
         == CostEstimate.perModule (estimateProcessingCost n))%Q.
Proof.
  intros Hrun.
  destruct (processMarkdownWithAI_ok_inv _ _ _ Hrun)
    as (metadata & embedding & validation
        & -> & Htags & Hlen & Hvalid & _ & _).
  assert (Hshape : 3 <= List.length (Metadata.tags metadata) <= 5
                   /\ Forall (fun tag => test_tag tag = true)
                        (Metadata.tags metadata)).
  { apply (generateTags_count_and_shape env md initial
             (s' := fst (generateTags env md initial))).
    rewrite <- Htags. apply surjective_pairing. }
  assert (Hrange : exists q,
             ValidationResult.quality_score validation = Fin q
             /\ (0 <= q)%Q /\ (q <= 100)%Q).
  { apply (validateMetadata_in_range env md metadata initial
             (s' := fst (validateMetadata env md metadata initial))).
    rewrite <- Hvalid. apply surjective_pairing. }
  unfold assemble. cbn [AIPipelineResult.quality_score AIPipelineResult.tags
    AIPipelineResult.embedding AIPipelineResult.processing_time_ms
    AIPipelineResult.estimated_cost_usd].
  repeat split; try tauto; try exact Hlen.
Qed.

Lemma returned_result_is_well_formed_witness :
  exists s' result,
    processMarkdownWithAI Sample.happy Sample.document initial
    = (s', inr result)
    /\ List.length (AIPipelineResult.embedding result) = 3072
    /\ (AIPipelineResult.estimated_cost_usd result == 0.072)%Q.
Proof.
  assert (Hrun : exists s' result,
             processMarkdownWithAI Sample.happy Sample.document initial
             = (s', inr result)).
  { eexists. eexists. vm_compute. reflexivity. }
  destruct Hrun as (s' & result & Hrun).
  destruct (returned_result_is_well_formed
              Sample.happy Sample.document initial Hrun)
    as (_ & _ & _ & Hlen & _ & Hcost & _).
  exists s', result. auto.
Defined.

Lemma phase1_requests_phase md k input :
  In (Invoke k input) (phase1_requests md) -> phase k = 1.
Proof.
  intros Hin. unfold phase1_requests in Hin.
  repeat (destruct Hin as [Hin | Hin]; [now injection Hin as <- _ |]).
  destruct Hin.
Qed.

Lemma phase2_requests_phase md k input :
  In (Invoke k input) (phase2_requests md) -> phase k = 2.
Proof.
  intros Hin. unfold phase2_requests in Hin.
  repeat (destruct Hin as [Hin | Hin]; [now injection Hin as <- _ |]).
  destruct Hin.
Qed.

Lemma phase1_ok_no_rejection env md r :
  snd (phase1 env md initial) = inr r ->
  forall k, phase1_rejection env md k = None.
Proof.
  destruct r as [[[summaries seo] categoryResult] tags]. intros Hok k.
  apply phase1_ok_inv in Hok as (H1 & H2 & H3 & H4).
  destruct k; simpl; rewrite ?H1, ?H2, ?H3, ?H4; reflexivity.
Qed.

(** X3.  The phases are barriers.  A Phase 2 request is sent only when
    no Phase 1 adapter has rejected.  The validator is asked only when,
    besides, the schema and image-prompt adapters have fulfilled and the
    provider has returned 3072 components; the run has then sent the
    other seven requests before it. *)
Theorem later_phase_starts_only_after_earlier_fulfils
  (env : Env) (md : string) (s : State) :
  let sent :=
    added (List.length (trace s)) (fst (processMarkdownWithAI env md s)) in
  (forall k input,
      In (Invoke k input) sent -> 2 <= phase k ->
      forall k1, phase1_rejection env md k1 = None)
  /\
  (forall validation,
      In (Invoke Validator validation) sent ->
      (exists schema, snd (generateSchemaOrgData env md initial) = inr schema)
      /\ (exists imagePrompt,
             snd (generateImagePrompt env md initial) = inr imagePrompt)
      /\ (exists embedding,
             embeddings_create env (cleanedContent md)
             = inr (Some (JArr embedding))
             /\ List.length embedding = 3072)
      /\ sent = all_requests md validation).
Proof.
  cbv zeta.
  pose proof (processMarkdownWithAI_cases env md s) as Hcases.
  cbv zeta in Hcases.
  destruct (snd (phase1 env md initial))
    as [e | [[[summaries seo] categoryResult] tags]] eqn:Hphase1.
  - rewrite Hcases. cbn [fst].
    rewrite (@added_app s (record_all s (phase1_requests md))
               (phase1_requests md) eq_refl).
    split.
    + intros k input Hin Hphase.
      apply phase1_requests_phase in Hin. lia.
    + intros validation Hin. apply phase1_requests_phase in Hin. discriminate.
  - pose proof (phase1_ok_no_rejection env md Hphase1) as Hnone.
    split; [intros; apply Hnone |].
    destruct (converts (CategoryResult.category categoryResult)).
    2: { rewrite Hcases. cbn [fst].
         rewrite (@added_app s (record_all s (phase1_requests md))
                    (phase1_requests md) eq_refl).
         intros validation Hin. apply phase1_requests_phase in Hin.
         discriminate. }
    destruct (phase2_effect env md (record_all s (phase1_requests md)))
      as [_ Htrace2].
    destruct (phase2 env md (record_all s (phase1_requests md)))
      as [s2 [e | [[schema imagePrompt] embedding]]] eqn:Hphase2.
    + rewrite Hcases. cbn [fst snd] in *.
      unfold record_all in Htrace2. cbn [trace] in Htrace2.
      intros validation Hin. exfalso.
      destruct Htrace2 as [Htrace2 | Htrace2];
        rewrite <- app_assoc in Htrace2;
        rewrite (@added_app s s2 _ Htrace2) in Hin;
        repeat (apply in_app_or in Hin as [Hin | Hin]);
        try (apply phase1_requests_phase in Hin; discriminate);
        try (apply phase2_requests_phase in Hin; discriminate);
        destruct Hin as [Hin | []]; discriminate.
    + apply phase2_ok_inv in Hphase2
        as (Hschema & Himage & Hlen & Hprov & Htrace & _).
      unfold record_all in Htrace. cbn [trace] in Htrace.
      set (request_sent := validationInput env md _) in *.
      assert (Hadded :
                added (List.length (trace s))
                  (fst (processMarkdownWithAI env md s))
                = all_requests md request_sent).
      { apply added_app.
        destruct (snd (validateMetadata env md _ initial));
          rewrite Hcases; unfold record, all_requests; cbn [fst trace];
          rewrite Htrace, <- !app_assoc; reflexivity. }
      rewrite Hadded. intros validation Hin.
      assert (validation = request_sent) as ->.
      { unfold all_requests in Hin.
        repeat (apply in_app_or in Hin as [Hin | Hin]);
          try (apply phase1_requests_phase in Hin; discriminate);
          try (apply phase2_requests_phase in Hin; discriminate).
        destruct Hin as [Hin | [Hin | []]]; [discriminate |].
        now injection Hin. }
      eauto 8.
Qed.

Lemma later_phase_starts_only_after_earlier_fulfils_witness :
  exists embedding,
    embeddings_create Sample.happy (cleanedContent Sample.document)
    = inr (Some (JArr embedding))
    /\ List.length embedding = 3072.
Proof.
  assert (Hasked : exists validation,
             In (Invoke Validator validation)
               (added (List.length (trace initial))
                  (fst (processMarkdownWithAI Sample.happy Sample.document
                          initial)))).
  { eexists. vm_compute. do 7 right. left. reflexivity. }
  destruct Hasked as (validation & Hasked).
  destruct (proj2 (later_phase_starts_only_after_earlier_fulfils
                     Sample.happy Sample.document initial)
              validation Hasked) as (_ & _ & Hprovider & _).
  exact Hprovider.
Defined.

(** ** Malformed output *)

(** What the shared opening lines yield, case by case. *)
Lemma extract_json_cases env k prompt s :
  extract_json env k prompt s
  = (record s (Invoke k prompt),
     match agent_generate env k prompt with
     | inl e => inl e
     | inr response =>
         match match_braces (text_of response) with
         | None => inl (Error "No valid JSON found in response")
         | Some jsonMatch =>
             match JSON_parse env jsonMatch with
             | inl syntax_error => inl (Error syntax_error)
             | inr parsed => inr parsed
             end
         end
     end).
Proof.
  unfold extract_json, text_of. unfold_bind.
  destruct (agent_generate env k prompt) as [e | [text |]]; trivial;
    destruct (match_braces _); trivial; destruct (JSON_parse env _); trivial.
Qed.

(** An adapter whose extraction fails rethrows with its prefix. *)
Lemma adapter_rethrows {A} env k prompt (decode : object -> M A) prefix s e :
  snd (extract_json env k prompt s) = inl e ->
  try_catch (bind (extract_json env k prompt) decode) (rethrow prefix) s
  = (record s (Invoke k prompt), inl (Error (prefix ++ ": " ++ message_of e))).
Proof.
  rewrite extract_json_cases. cbn [snd]. intros Hfail. unfold_bind.
  rewrite extract_json_cases, Hfail. reflexivity.
Qed.

Lemma agent_adapter_run_rethrows env md metadata k s e :
  k <> Embeddings ->
  snd (extract_json env k (agent_request env md metadata k) s) = inl e ->
  agent_adapter_run env md metadata k s
  = (record s (Invoke k (agent_request env md metadata k)),
     Some (Error (failure_prefix k ++ ": " ++ message_of e))).
Proof.
  intros Hk Hfail.
  destruct k; try contradiction; cbv zeta beta iota delta [agent_adapter_run];
    [ unfold generateSummaries | unfold generateSEOMetadata
    | unfold categorizeContent | unfold generateTags
    | unfold generateSchemaOrgData | unfold generateImagePrompt
    | unfold validateMetadata ];
    unfold agent_request, request in Hfail;
    rewrite (adapter_rethrows _ _ _ _ _ _ Hfail); reflexivity.
Qed.

(** X4.  Each of the six adapters that send the document to an agent
    sends one request and, when it cannot get an object out of the
    answer, rejects with its own prefix: before the message of a
    rejected call, before "No valid JSON found in response" when the
    text has no brace-delimited part (or there is no text), before the
    parser's message when that part does not parse.  Nothing is
    retried. *)
Theorem malformed_output_is_rejected_with_adapter_prefix
  (env : Env) (md : string) (metadata : Metadata.t) (k : Capability)
  (s : State) :
  k <> Embeddings ->
  k <> Validator ->
  let sent := record s (Invoke k (request k md)) in
  let answer := agent_generate env k (request k md) in
  fst (agent_adapter_run env md metadata k s) = sent
  /\ (forall e,
         answer = inl e ->
         snd (agent_adapter_run env md metadata k s)
         = Some (Error (failure_prefix k ++ ": " ++ message_of e)))
  /\ (forall response,
         answer = inr response ->
         match_braces (text_of response) = None ->
         snd (agent_adapter_run env md metadata k s)
         = Some (Error (failure_prefix k
                          ++ ": No valid JSON found in response")))
  /\ (forall response jsonMatch syntax_error,
         answer = inr response ->
         match_braces (text_of response) = Some jsonMatch ->
         JSON_parse env jsonMatch = inl syntax_error ->
         snd (agent_adapter_run env md metadata k s)
         = Some (Error (failure_prefix k ++ ": " ++ syntax_error))).
Proof.
  intros Hk Hdocument. cbv zeta.
  assert (Hrequest : agent_request env md metadata k = request k md)
    by (destruct k; try reflexivity; contradiction).
  split; [| split; [| split]].
  - destruct k; try contradiction; cbv zeta beta iota delta [agent_adapter_run];
      cbn [fst];
      [ rewrite generateSummaries_run | rewrite generateSEOMetadata_run
      | rewrite categorizeContent_run | rewrite generateTags_run
      | rewrite generateSchemaOrgData_run | rewrite generateImagePrompt_run ];
      reflexivity.
  - intros e Hanswer.
    rewrite (@agent_adapter_run_rethrows env md metadata k s e Hk);
      [now rewrite Hrequest |].
    rewrite extract_json_cases, Hrequest. cbn [snd]. now rewrite Hanswer.
  - intros response Hanswer Hmatch.
    rewrite (@agent_adapter_run_rethrows env md metadata k s
               (Error "No valid JSON found in response") Hk);
      [now rewrite Hrequest |].
    rewrite extract_json_cases, Hrequest. cbn [snd].
    now rewrite Hanswer, Hmatch.
  - intros response jsonMatch syntax_error Hanswer Hmatch Hparse.
    rewrite (@agent_adapter_run_rethrows env md metadata k s
               (Error syntax_error) Hk);
      [now rewrite Hrequest |].
    rewrite extract_json_cases, Hrequest. cbn [snd].
    now rewrite Hanswer, Hmatch, Hparse.
Qed.

Lemma malformed_output_is_rejected_with_adapter_prefix_witness :
  snd (agent_adapter_run Sample.tagless Sample.document Sample.metadata Tags
         initial)
  = Some (Error "Failed to generate tags: No valid JSON found in response").
Proof.
  assert (Hk : Tags <> Embeddings) by discriminate.
  assert (Hdocument : Tags <> Validator) by discriminate.
  destruct (@malformed_output_is_rejected_with_adapter_prefix
              Sample.tagless Sample.document Sample.metadata Tags initial
              Hk Hdocument)
    as (_ & _ & Hnone & _).
  apply (Hnone (Some "I could not find any tags.")); reflexivity.
Defined.

(** ** Normalisation of the agents' answers *)

Lemma substring0_length (n : nat) (s : string) :
  String.length (substring0 n s) = Nat.min n (String.length s).
Proof.
  unfold substring0. revert n.
  induction s as [| c s IH]; intros [| n]; cbn; auto.
Qed.

Lemma substring0_all (n : nat) (s : string) :
  String.length s <= n -> substring0 n s = s.
Proof.
  unfold substring0. revert n.
  induction s as [| c s IH]; intros [| n]; cbn; intros Hlen;
    try reflexivity; try lia.
  f_equal. apply IH. lia.
Qed.

(** On a string [truncate] is [substring(0, n)], whatever its length. *)
Lemma truncate_string env name t n s :
  truncate env name (JStr t) n s = (s, inr (JStr (substring0 n t))).
Proof.
  unfold truncate, length_exceeds, ret.
  destruct (n <? String.length t) eqn:Hlong; [reflexivity |].
  apply Nat.ltb_ge in Hlong. now rewrite substring0_all.
Qed.

Lemma truncate_inv env name v n s s' v' :
  truncate env name v n s = (s', inr v') ->
  s' = s /\ forall t, v' = JStr t -> String.length t <= n.
Proof.
  unfold truncate, ret, throw.
  destruct (length_exceeds env v n) eqn:Hlong.
  - destruct v; try discriminate. intros [= <- <-]. split; [reflexivity |].
    intros t [= <-]. rewrite substring0_length. lia.
  - intros [= <- <-]. split; [reflexivity |].
    intros t ->. cbn in Hlong. now apply Nat.ltb_ge in Hlong.
Qed.

Lemma truthy_string (t : string) : t <> "" -> truthy (Some (JStr t)) = true.
Proof.
  intros Ht. cbn. apply Bool.negb_true_iff. now apply String.eqb_neq.
Qed.

Lemma required_truthy (v : json) :
  truthy (Some v) = true -> required (Some v) = Some v.
Proof. unfold required. now intros ->. Qed.

Lemma required_inv (v : value) (x : json) :
  required v = Some x -> v = Some x /\ truthy (Some x) = true.
Proof.
  unfold required. destruct (truthy v) eqn:Htruthy; [| discriminate].
  intros ->. auto.
Qed.

(** X5.  The SEO adapter never returns a title string longer than 60
    characters or a description string longer than 160: an overlong one
    is not rejected but cut to its first 60 (160) characters, and the
    keywords are passed on as they are. *)
Theorem generateSEOMetadata_cuts_overlong_fields
  (env : Env) (md : string) (s : State) :
  (forall s' seo,
      generateSEOMetadata env md s = (s', inr seo) ->
      (forall t, SeoResult.meta_title seo = JStr t -> String.length t <= 60)
      /\ (forall d, SeoResult.meta_description seo = JStr d ->
                    String.length d <= 160))
  /\ (forall parsed title description keywords,
         snd (extract_json env SEO (request SEO md) s) = inr parsed ->
         get parsed "meta_title" = Some (JStr title) -> title <> "" ->
         get parsed "meta_description" = Some (JStr description) ->
         description <> "" ->
         get parsed "seo_keywords" = Some keywords ->
         truthy (Some keywords) = true ->
         snd (generateSEOMetadata env md s)
         = inr (SeoResult.mk (JStr (substring0 60 title))
                  (JStr (substring0 160 description)) keywords)).
Proof.
  split.
  - intros s' seo. unfold generateSEOMetadata. unfold_bind.
    destruct (extract_json env SEO _ s) as [s1 [e | parsed]];
      [discriminate |].
    destruct (required (get parsed "meta_title")) as [title |];
      [| discriminate].
    destruct (required (get parsed "meta_description")) as [description |];
      [| discriminate].
    destruct (required (get parsed "seo_keywords")) as [keywords |];
      [| discriminate].
    destruct (truncate env _ title 60 s1) as [s2 [e | title']] eqn:Htitle;
      [discriminate |].
    destruct (truncate env _ description 160 s2)
      as [s3 [e | description']] eqn:Hdescription; [discriminate |].
    intros [= _ <-]. cbn [SeoResult.meta_title SeoResult.meta_description].
    apply truncate_inv in Htitle as [_ Htitle].
    apply truncate_inv in Hdescription as [_ Hdescription]. auto.
  - intros parsed title description keywords Hparsed Htitle Htitle'
      Hdescription Hdescription' Hkeywords Hkeywords'.
    cbv beta iota delta [request] in Hparsed.
    unfold generateSEOMetadata. unfold_bind.
    destruct (extract_json env SEO _ s) as [s1 o]. cbn [snd] in Hparsed.
    subst o. rewrite Htitle, Hdescription, Hkeywords.
    rewrite !required_truthy by auto using truthy_string.
    rewrite !truncate_string. reflexivity.
Qed.

Lemma generateSEOMetadata_cuts_overlong_fields_witness :
  exists seo,
    snd (generateSEOMetadata Scenario.wordy_seo Sample.document initial)
    = inr seo
    /\ SeoResult.meta_title seo
       = JStr "Understanding React Hooks: a complete and thorough guide to ".
Proof.
  eexists. split.
  - apply (proj2 (generateSEOMetadata_cuts_overlong_fields
                    Scenario.wordy_seo Sample.document initial)
             [ ("meta_title", JStr Scenario.long_title);
               ("meta_description", JStr "Learn React hooks step by step.");
               ("seo_keywords", JStr "react, hooks, state") ]
             Scenario.long_title "Learn React hooks step by step."
             (JStr "react, hooks, state"));
      try reflexivity; discriminate.
  - reflexivity.
Defined.

(** X6.  The image prompt adapter never returns a prompt string longer
    than 200 characters, and always returns style notes: an overlong
    prompt is cut to its first 200 characters, and missing (or empty)
    style notes are replaced by "No style notes provided". *)
Theorem generateImagePrompt_cuts_prompt_and_defaults_notes
  (env : Env) (md : string) (s : State) :
  (forall s' result,
      generateImagePrompt env md s = (s', inr result) ->
      (forall t, ImagePromptResult.image_prompt result = JStr t ->
                 String.length t <= 200)
      /\ truthy (Some (ImagePromptResult.style_notes result)) = true)
  /\ (forall parsed prompt,
         snd (extract_json env ImagePrompt (request ImagePrompt md) s)
         = inr parsed ->
         get parsed "image_prompt" = Some (JStr prompt) -> prompt <> "" ->
         exists result,
           snd (generateImagePrompt env md s) = inr result
           /\ ImagePromptResult.image_prompt result
              = JStr (substring0 200 prompt)
           /\ (truthy (get parsed "style_notes") = false ->
               ImagePromptResult.style_notes result
               = JStr "No style notes provided")
           /\ (truthy (get parsed "style_notes") = true ->
               Some (ImagePromptResult.style_notes result)
               = get parsed "style_notes")).
Proof.
  split.
  - intros s' result. unfold generateImagePrompt. unfold_bind.
    destruct (extract_json env ImagePrompt _ s) as [s1 [e | parsed]];
      [discriminate |].
    destruct (required (get parsed "image_prompt")) as [prompt |];
      [| discriminate].
    destruct (truncate env _ prompt 200 s1) as [s2 [e | prompt']] eqn:Hprompt;
      [discriminate |].
    intros [= _ <-].
    cbn [ImagePromptResult.image_prompt ImagePromptResult.style_notes].
    apply truncate_inv in Hprompt as [_ Hprompt]. split; [exact Hprompt |].
    destruct (required (get parsed "style_notes")) as [notes |] eqn:Hnotes;
      [| reflexivity].
    now apply required_inv in Hnotes.
  - intros parsed prompt Hparsed Hprompt Hprompt'.
    cbv beta iota delta [request] in Hparsed.
    unfold generateImagePrompt. unfold_bind.
    destruct (extract_json env ImagePrompt _ s) as [s1 o].
    cbn [snd] in Hparsed. subst o. rewrite Hprompt.
    rewrite required_truthy by auto using truthy_string.
    rewrite truncate_string. eexists. split; [reflexivity |].
    cbn [ImagePromptResult.image_prompt ImagePromptResult.style_notes].
    split; [reflexivity |]. unfold required.
    split; intros Hnotes; rewrite Hnotes; [reflexivity |].
    destruct (get parsed "style_notes"); [reflexivity | discriminate Hnotes].
Qed.

Lemma generateImagePrompt_cuts_prompt_and_defaults_notes_witness :
  exists result,
    snd (generateImagePrompt Scenario.plain_image Sample.document initial)
    = inr result
    /\ ImagePromptResult.style_notes result = JStr "No style notes provided".
Proof.
  destruct (proj2 (generateImagePrompt_cuts_prompt_and_defaults_notes
                     Scenario.plain_image Sample.document initial)
              [ ("image_prompt", JStr "Isometric illustration of hooks") ]
              "Isometric illustration of hooks")
    as (result & Hresult & _ & Hnotes & _);
    [reflexivity | reflexivity | discriminate |].
  exists result. split; [exact Hresult | apply Hnotes; reflexivity].
Defined.

(** The confidence the category adapter reports for a judged one. *)
Lemma confidence_in_range (c : number) :
  exists q,
    Math_min
      (Math_max (if num_lt (Fin 1) c then num_div c 100 else c) (Fin 0))
      (Fin 1) = Fin q
    /\ (0 <= q)%Q /\ (q <= 1)%Q.
Proof.
  unfold Math_min, Math_max, num_lt, num_le, num_div.
  destruct c as [c | [|]]; cbn;
    repeat match goal with
           | |- context [Qle_bool ?a ?b] =>
               let H := fresh "H" in
               destruct (Qle_bool a b) eqn:H; cbn;
               [apply Qle_bool_iff in H | apply Qle_bool_false in H]
           end;
    eexists; (split; [reflexivity |]); split;
    try apply Qle_refl; try (apply Qlt_le_weak; assumption);
    try assumption; try discriminate; try (now compute).
Qed.

Lemma Qle_bool_false_lt x y : Qle_bool x y = false -> (y < x)%Q.
Proof.
  intros Hle. apply Qnot_le_lt. intros H. apply Qle_bool_iff in H. congruence.
Qed.

Lemma confidence_value (c : Q) :
  let confidence :=
    Math_min
      (Math_max (if num_lt (Fin 1) (Fin c) then num_div (Fin c) 100 else Fin c)
         (Fin 0))
      (Fin 1) in
  ((0 <= c)%Q -> (c <= 1)%Q -> num_eq confidence (Fin c))
  /\ ((1 < c)%Q -> (c <= 100)%Q -> num_eq confidence (Fin (c / 100)))
  /\ ((100 < c)%Q -> confidence = Fin 1)
  /\ ((c < 0)%Q -> confidence = Fin 0).
Proof.
  destruct c as [n d].
  unfold Math_min, Math_max, num_lt, num_le, num_div. cbv zeta.
  repeat match goal with
         | |- context [Qle_bool ?a ?b] =>
             let H := fresh "H" in
             destruct (Qle_bool a b) eqn:H; cbn [negb];
             [apply Qle_bool_iff in H | apply Qle_bool_false_lt in H]
         end;
    cbn [num_eq]; (split; [| split; [| split]]); intros;
    try reflexivity;
    unfold Qle, Qlt, Qeq, Qdiv, Qmult, Qinv in *; cbn in *; lia.
Qed.

(** X7.  The category adapter always reports a confidence between 0
    and 1: a judged confidence within that range is kept, one above 1
    is read as a percentage and divided by 100, and what is still out
    of range is clamped. *)
Theorem categorizeContent_confidence_is_a_fraction
  (env : Env) (md : string) (s : State) :
  (forall s' result,
      categorizeContent env md s = (s', inr result) ->
      exists q,
        CategoryResult.confidence result = Fin q
        /\ (0 <= q)%Q /\ (q <= 1)%Q)
  /\ (forall parsed category c,
         snd (extract_json env Category (request Category md) s)
         = inr parsed ->
         get parsed "category" = Some category ->
         truthy (Some category) = true ->
         get parsed "confidence" = Some (JNum (Fin c)) ->
         exists result,
           snd (categorizeContent env md s) = inr result
           /\ CategoryResult.category result = category
           /\ ((0 <= c)%Q -> (c <= 1)%Q ->
               num_eq (CategoryResult.confidence result) (Fin c))
           /\ ((1 < c)%Q -> (c <= 100)%Q ->
               num_eq (CategoryResult.confidence result) (Fin (c / 100)))
           /\ ((100 < c)%Q -> CategoryResult.confidence result = Fin 1)
           /\ ((c < 0)%Q -> CategoryResult.confidence result = Fin 0)).
Proof.
  split.
  - intros s' result. unfold categorizeContent. unfold_bind.
    destruct (extract_json env Category _ s) as [s1 [e | parsed]];
      [discriminate |].
    destruct (required (get parsed "category")) as [category |];
      [| discriminate].
    destruct (get parsed "confidence") as [[| | c | | |] |];
      try discriminate.
    intros [= _ <-]. cbn [CategoryResult.confidence].
    apply confidence_in_range.
  - intros parsed category c Hparsed Hcategory Hcategory' Hconfidence.
    cbv beta iota delta [request] in Hparsed.
    unfold categorizeContent. unfold_bind.
    destruct (extract_json env Category _ s) as [s1 o].
    cbn [snd] in Hparsed. subst o. rewrite Hcategory, Hconfidence.
    rewrite required_truthy by assumption.
    eexists. split; [reflexivity |].
    cbn [CategoryResult.category CategoryResult.confidence].
    split; [reflexivity |].
    apply confidence_value.
Qed.

Lemma categorizeContent_confidence_is_a_fraction_witness :
  exists result,
    snd (categorizeContent Scenario.percent_confidence Sample.document initial)
    = inr result
    /\ num_eq (CategoryResult.confidence result) (Fin 0.95).
Proof.
  destruct (proj2 (categorizeContent_confidence_is_a_fraction
                     Scenario.percent_confidence Sample.document initial)
              [ ("category", JStr "Technology"); ("confidence", JNum (Fin 95)) ]
              (JStr "Technology") 95%Q)
    as (result & Hresult & _ & _ & Hpercent & _);
    try reflexivity.
  exists result. split; [exact Hresult |].
  assert (Hvalue : num_eq (CategoryResult.confidence result) (Fin (95 / 100))).
  { apply Hpercent; [reflexivity | discriminate]. }
  destruct (CategoryResult.confidence result); [| contradiction].
  cbn in *. rewrite Hvalue. reflexivity.
Defined.

(** ** Property update *)

Lemma get_set_same (o : object) (k : string) (v : json) :
  get (set o k v) k = Some v.
Proof.
  induction o as [| [k' v'] o IH]; cbn.
  - now rewrite String.eqb_refl.
  - destruct (String.eqb k k') eqn:Hk; cbn.
    + now rewrite String.eqb_refl.
    + now rewrite Hk.
Qed.

Lemma get_set_other (o : object) (k k' : string) (v : json) :
  k' <> k -> get (set o k v) k' = get o k'.
Proof.
  intros Hk'. apply String.eqb_neq in Hk'.
  induction o as [| [k0 v0] o IH]; cbn.
  - now rewrite Hk'.
  - destruct (String.eqb k k0) eqn:Hk; cbn.
    + apply String.eqb_eq in Hk. subst k0. now rewrite Hk'.
    + now rewrite IH.
Qed.

(** X8.  Structured data the schema adapter returns has the context
    "https://schema.org", whatever context the agent gave, a type, and
    a publication date: the agent's when it gave one, else today's.
    Every other property is the agent's. *)
Theorem generateSchemaOrgData_normalises_context_and_date
  (env : Env) (md : string) (s s' : State) (schema : object) :
  generateSchemaOrgData env md s = (s', inr schema) ->
  get schema "@context" = Some (JStr "https://schema.org")
  /\ truthy (get schema "@type") = true
  /\ exists parsed,
       snd (extract_json env Schema (request Schema md) s) = inr parsed
       /\ (forall k, k <> "@context" -> k <> "datePublished" ->
                     get schema k = get parsed k)
       /\ (truthy (get parsed "datePublished") = true ->
           get schema "datePublished" = get parsed "datePublished")
       /\ (truthy (get parsed "datePublished") = false ->
           get schema "datePublished" = Some (JStr (today env))).
Proof.
  unfold generateSchemaOrgData. unfold_bind.
  cbv beta iota delta [request].
  destruct (extract_json env Schema _ s) as [s1 [e | parsed]];
    [discriminate |].
  destruct (required (get parsed "@context")) as [context |] eqn:Hcontext;
    [| discriminate].
  destruct (required (get parsed "@type")) as [type |] eqn:Htype;
    [| discriminate].
  apply required_inv in Hcontext as [Hcontext _].
  apply required_inv in Htype as [Htype Htype'].
  set (fixed := if is_schema_org context then parsed
                else set parsed "@context" (JStr "https://schema.org")).
  assert (Hfixed_context : get fixed "@context"
                           = Some (JStr "https://schema.org")).
  { subst fixed. destruct (is_schema_org context) eqn:Hok.
    - rewrite Hcontext. destruct context; try discriminate.
      cbn in Hok. apply String.eqb_eq in Hok. now subst.
    - apply get_set_same. }
  assert (Hfixed_other : forall k, k <> "@context" ->
                                   get fixed k = get parsed k).
  { intros k Hk. subst fixed. destruct (is_schema_org context);
      [reflexivity | now apply get_set_other]. }
  intros [= _ <-].
  rewrite (Hfixed_other "datePublished") by discriminate.
  destruct (truthy (get parsed "datePublished")) eqn:Hdate.
  - split; [exact Hfixed_context |].
    split; [rewrite Hfixed_other by discriminate; now rewrite Htype |].
    exists parsed. split; [reflexivity |].
    split; [intros k Hk _; now apply Hfixed_other |].
    split; [intros _; now apply Hfixed_other | congruence].
  - split; [rewrite get_set_other by discriminate; exact Hfixed_context |].
    split.
    { rewrite get_set_other, Hfixed_other by discriminate. now rewrite Htype. }
    exists parsed. split; [reflexivity |].
    split.
    { intros k Hk Hk'. rewrite get_set_other by assumption.
      now apply Hfixed_other. }
    split; [congruence | intros _; apply get_set_same].
Qed.

Lemma generateSchemaOrgData_normalises_context_and_date_witness :
  exists schema,
    snd (generateSchemaOrgData Scenario.foreign_context Sample.document initial)
    = inr schema
    /\ get schema "@context" = Some (JStr "https://schema.org").
Proof.
  assert (Hrun : exists s' schema,
             generateSchemaOrgData Scenario.foreign_context Sample.document
               initial = (s', inr schema)).
  { eexists. eexists. vm_compute. reflexivity. }
  destruct Hrun as (s' & schema & Hrun).
  exists schema. split; [now rewrite Hrun |].
  exact (proj1 (generateSchemaOrgData_normalises_context_and_date
                  Scenario.foreign_context Sample.document initial Hrun)).
Defined.

(** ** The embeddings adapter without a key, and what it sends *)

Lemma generateEmbeddings_no_key env md s :
  openaiClient s = false ->
  OPENAI_API_KEY env = None \/ OPENAI_API_KEY env = Some "" ->
  generateEmbeddings env md s
  = (s, inl (Error ("Failed to generate embeddings: " ++ missing_key_message))).
Proof.
  intros Hclient Hkey.
  unfold generateEmbeddings, request_embedding, getOpenAIClient. unfold_bind.
  rewrite Hclient. destruct Hkey as [-> | ->]; reflexivity.
Qed.

(** X9.  Without [OPENAI_API_KEY] (unset or empty) and without a cached
    client, the embeddings adapter rejects without sending anything,
    with the generic prefix before the client's message: the message
    spells the variable's name, so the catch block's test for "API key"
    does not match.  In the pipeline the key is only looked up in
    Phase 2: a run whose six agents answer well, with a category that
    can be logged, has sent six requests when it fails, and never asks
    the validator. *)
Theorem missing_key_is_found_only_in_phase_2
  (env : Env) (md : string) (s : State) :
  openaiClient s = false ->
  OPENAI_API_KEY env = None \/ OPENAI_API_KEY env = Some "" ->
  generateEmbeddings env md s
  = (s, inl (Error ("Failed to generate embeddings: " ++ missing_key_message)))
  /\ (forall schema imagePrompt,
         phase2_started env md = true ->
         snd (generateSchemaOrgData env md initial) = inr schema ->
         snd (generateImagePrompt env md initial) = inr imagePrompt ->
         processMarkdownWithAI env md s
         = (record_all s (phase1_requests md ++ phase2_requests md),
            inl (Error ("AI Pipeline failed: Failed to generate embeddings: "
                          ++ missing_key_message)))).
Proof.
  intros Hclient Hkey. split; [now apply generateEmbeddings_no_key |].
  intros schema imagePrompt Hstarted Hschema Himage.
  pose proof (processMarkdownWithAI_cases env md s) as Hcases.
  cbv zeta in Hcases. unfold phase2_started in Hstarted.
  destruct (snd (phase1 env md initial))
    as [e | [[[summaries seo] categoryResult] tags]]; [discriminate |].
  rewrite Hstarted in Hcases.
  assert (Hphase2 :
            phase2 env md (record_all s (phase1_requests md))
            = (record_all s (phase1_requests md ++ phase2_requests md),
               inl (Error ("Failed to generate embeddings: "
                             ++ missing_key_message)))).
  { pose proof (generateSchemaOrgData_run env md) as H1.
    pose proof (generateImagePrompt_run env md) as H2.
    set (o1 := snd (generateSchemaOrgData env md initial)) in *.
    set (o2 := snd (generateImagePrompt env md initial)) in *.
    unfold phase2, Promise_all3. unfold_run.
    rewrite H1. unfold_run. rewrite H2. unfold_run.
    rewrite !record_as_record_all, !record_all_app. simpl app.
    fold (phase2_requests md).
    rewrite generateEmbeddings_no_key by assumption.
    rewrite Hschema, Himage. reflexivity. }
  rewrite Hphase2 in Hcases. exact Hcases.
Qed.

Lemma missing_key_is_found_only_in_phase_2_witness :
  List.length
    (trace (fst (processMarkdownWithAI Scenario.keyless Sample.document
                   initial))) = 6.
Proof.
  assert (Hclient : openaiClient initial = false) by reflexivity.
  assert (Hkey : OPENAI_API_KEY Scenario.keyless = None
                 \/ OPENAI_API_KEY Scenario.keyless = Some "")
    by (left; reflexivity).
  destruct (@missing_key_is_found_only_in_phase_2
              Scenario.keyless Sample.document initial Hclient Hkey)
    as [_ Hrun].
  assert (Hstarted : phase2_started Scenario.keyless Sample.document = true)
    by (vm_compute; reflexivity).
  assert (Hschema : exists schema,
             snd (generateSchemaOrgData Scenario.keyless Sample.document
                    initial) = inr schema)
    by (eexists; vm_compute; reflexivity).
  assert (Himage : exists imagePrompt,
             snd (generateImagePrompt Scenario.keyless Sample.document
                    initial) = inr imagePrompt)
    by (eexists; vm_compute; reflexivity).
  destruct Hschema as (schema & Hschema).
  destruct Himage as (imagePrompt & Himage).
  rewrite (Hrun schema imagePrompt Hstarted Hschema Himage).
  reflexivity.
Defined.

Lemma all_chars_trimStart p s :
  all_chars p s = true -> all_chars p (trimStart s) = true.
Proof.
  induction s as [| c s IH]; cbn; [trivial |].
  intros Hall. apply andb_prop in Hall as [Hc Hs].
  destruct (is_space c); [auto |]. cbn. now rewrite Hc, Hs.
Qed.

Lemma all_chars_trimEnd p s :
  all_chars p s = true -> all_chars p (trimEnd s) = true.
Proof.
  induction s as [| c s IH]; cbn; [trivial |].
  intros Hall. apply andb_prop in Hall as [Hc Hs]. specialize (IH Hs).
  destruct (trimEnd s) as [| c' t].
  - destruct (is_space c); cbn; [reflexivity | now rewrite Hc].
  - cbn in *. now rewrite Hc, IH.
Qed.

Lemma all_chars_substring0 p n s :
  all_chars p s = true -> all_chars p (substring0 n s) = true.
Proof.
  unfold substring0. revert n.
  induction s as [| c s IH]; intros [| n]; cbn; trivial.
  intros Hall. apply andb_prop in Hall as [Hc Hs]. now rewrite Hc, IH.
Qed.

Lemma collapse_from_plain in_run s :
  all_chars plain_char (collapse_from in_run s) = true.
Proof.
  revert in_run. induction s as [| c s IH]; intros in_run; cbn; [trivial |].
  destruct (is_space c) eqn:Hc.
  - destruct in_run; cbn [all_chars]; [apply IH |].
    rewrite IH. reflexivity.
  - cbn. unfold plain_char at 1. now rewrite Hc, IH.
Qed.

Lemma starts_with_space_trimStart s : starts_with_space (trimStart s) = false.
Proof.
  induction s as [| c s IH]; cbn; [trivial |].
  destruct (is_space c) eqn:Hc; [exact IH | cbn; exact Hc].
Qed.

Lemma starts_with_space_trimEnd s :
  starts_with_space s = false -> starts_with_space (trimEnd s) = false.
Proof.
  destruct s as [| c s]; cbn; [trivial |]. intros Hc.
  destruct (trimEnd s); [rewrite Hc |]; cbn; trivial.
Qed.

Lemma starts_with_space_substring0 n s :
  starts_with_space s = false -> starts_with_space (substring0 n s) = false.
Proof. destruct s as [| c s], n as [| n]; cbn; trivial. Qed.

(** X10.  Whatever the document, what the embeddings adapter sends to
    the provider is the cleaned content: it is not empty, has at most
    30000 characters, does not start with white space, and its only
    white space characters are single-code-unit spaces (tabs and line
    breaks are gone).  Nothing else is sent, and at most once. *)
Theorem provider_input_is_cleaned
  (env : Env) (md : string) (s : State) :
  let sent := added (List.length (trace s)) (fst (generateEmbeddings env md s)) in
  (sent = [] \/ sent = [Invoke Embeddings (cleanedContent md)])
  /\ (sent <> [] ->
      cleanedContent md <> ""
      /\ String.length (cleanedContent md) <= 30000
      /\ starts_with_space (cleanedContent md) = false
      /\ all_chars plain_char (cleanedContent md) = true).
Proof.
  cbv zeta.
  destruct (generateEmbeddings_effect env md s) as [_ [Htrace | Htrace]].
  - rewrite <- (app_nil_r (trace s)) in Htrace.
    rewrite (@added_app s _ _ Htrace). split; [now left | congruence].
  - rewrite (@added_app s _ _ Htrace). split; [now right |]. intros _.
    split.
    { intros Hblank.
      destruct (generateEmbeddings_blank env md s Hblank)
        as (message & _ & Hsame & _).
      rewrite Hsame in Htrace. apply (f_equal (@List.length Event)) in Htrace.
      rewrite length_app in Htrace. cbn in Htrace. lia. }
    unfold cleanedContent, trim, collapse_spaces.
    split; [rewrite substring0_length; lia |].
    split.
    + apply starts_with_space_substring0, starts_with_space_trimEnd,
        starts_with_space_trimStart.
    + apply all_chars_substring0, all_chars_trimEnd, all_chars_trimStart,
        collapse_from_plain.
Qed.

Lemma provider_input_is_cleaned_witness :
  String.length (cleanedContent Sample.document) <= 30000.
Proof.
  assert (Hsent : added (List.length (trace initial))
                    (fst (generateEmbeddings Sample.happy Sample.document
                            initial)) <> [])
    by (vm_compute; discriminate).
  exact (proj1 (proj2 (proj2 (provider_input_is_cleaned
                                Sample.happy Sample.document initial)
                         Hsent))).
Defined.

(** ** Semantic search *)

Lemma semanticSearch_run env input s :
  semanticSearch env input s
  = match generateEmbeddings env (SemanticSearchInput.query input) s with
    | (s1, inl e) => (s1, inl e)
    | (s1, inr queryEmbedding) =>
        (record s1 (Rpc queryEmbedding (threshold_or_default input)
                      (limit_or_default input)),
         match rpc_error env with
         | Some message => inl (Error ("Semantic search failed: " ++ message))
         | None =>
             match search_modules_by_embedding env (db s1) queryEmbedding
                     (Some (threshold_or_default input))
                     (Some (limit_or_default input)) with
             | inl message =>
                 inl (Error ("Semantic search failed: " ++ message))
             | inr data => inr data
             end
         end)
    end.
Proof.
  unfold semanticSearch, get_db, threshold_or_default, limit_or_default.
  unfold_bind.
  destruct (generateEmbeddings env _ s) as [s1 [e | queryEmbedding]];
    [reflexivity |].
  destruct (rpc_error env); [reflexivity |].
  cbn [db record].
  destruct (search_modules_by_embedding env _ _ _ _); reflexivity.
Qed.

(** X11.  [semanticSearch] only reads: it leaves the database as it is
    and sends no insert.  When the query cannot be embedded it rejects
    with the embeddings adapter's own error and the search function is
    not called; otherwise it calls it once, and an error of the call,
    such as the database's refusal of a negative limit (or, for a limit
    outside the range of [int], of the limit as such), comes back as
    "Semantic search failed: " followed by the database's message. *)
Theorem semanticSearch_reads_only_and_reports_failures
  (env : Env) (input : SemanticSearchInput.t) (s : State) :
  let run := semanticSearch env input s in
  let sent := added (List.length (trace s)) (fst run) in
  let embedded :=
    snd (generateEmbeddings env (SemanticSearchInput.query input) s) in
  db (fst run) = db s
  /\ filter is_insert sent = []
  /\ (forall e, embedded = inl e -> snd run = inl e /\ filter is_rpc sent = [])
  /\ (forall queryEmbedding,
         embedded = inr queryEmbedding ->
         filter is_rpc sent
         = [Rpc queryEmbedding (threshold_or_default input)
              (limit_or_default input)]
         /\ (forall message,
                rpc_error env = Some message ->
                snd run = inl (Error ("Semantic search failed: " ++ message)))
         /\ (rpc_error env = None ->
             (limit_or_default input < 0)%Z ->
             snd run
             = inl (Error
                 ("Semantic search failed: "
                    ++ if is_int (limit_or_default input)
                       then "LIMIT must not be negative"
                       else int_out_of_range env (limit_or_default input))))
         /\ (rpc_error env = None ->
             (2147483647 < limit_or_default input)%Z ->
             snd run
             = inl (Error
                 ("Semantic search failed: "
                    ++ int_out_of_range env (limit_or_default input))))).
Proof.
  cbv zeta. rewrite semanticSearch_run.
  destruct (generateEmbeddings_effect env (SemanticSearchInput.query input) s)
    as [Hdb Htrace].
  destruct (generateEmbeddings env (SemanticSearchInput.query input) s)
    as [s1 [e | queryEmbedding]]; cbn [fst snd] in *.
  - assert (Hsent : filter is_insert (added (List.length (trace s)) s1) = []
                    /\ filter is_rpc (added (List.length (trace s)) s1) = []).
    { destruct Htrace as [Htrace | Htrace].
      - rewrite <- (app_nil_r (trace s)) in Htrace.
        rewrite (@added_app s s1 _ Htrace). auto.
      - rewrite (@added_app s s1 _ Htrace). auto. }
    destruct Hsent as [Hinsert Hrpc].
    split; [exact Hdb |]. split; [exact Hinsert |].
    split; [intros e' [= <-]; auto | discriminate].
  - set (call := Rpc queryEmbedding _ _).
    assert (Hsent : filter is_insert
                      (added (List.length (trace s)) (record s1 call)) = []
                    /\ filter is_rpc
                         (added (List.length (trace s)) (record s1 call))
                       = [call]).
    { destruct Htrace as [Htrace | Htrace].
      - rewrite (@added_app s (record s1 call) [call]
                   ltac:(cbn [record trace]; now rewrite Htrace)). auto.
      - rewrite (@added_app s (record s1 call)
                   [Invoke Embeddings
                      (cleanedContent (SemanticSearchInput.query input)); call]
                   ltac:(cbn [record trace];
                         now rewrite Htrace, <- app_assoc)).
        auto. }
    destruct Hsent as [Hinsert Hrpc].
    split; [exact Hdb |]. split; [exact Hinsert |].
    split; [discriminate |].
    intros q [= <-]. split; [exact Hrpc |]. split; [| split].
    + intros message ->. reflexivity.
    + intros -> Hneg. unfold search_modules_by_embedding.
      destruct (is_int (limit_or_default input)); cbn [negb];
        [| reflexivity].
      apply Z.ltb_lt in Hneg. now rewrite Hneg.
    + intros -> Hlarge. unfold search_modules_by_embedding, is_int.
      replace (limit_or_default input <=? 2147483647)%Z with false
        by (symmetry; apply Z.leb_gt; lia).
      now rewrite andb_false_r.
Qed.

Lemma semanticSearch_reads_only_and_reports_failures_witness :
  snd (semanticSearch Scenario.keyless Sample.zero_search initial)
  = inl (Error ("Failed to generate embeddings: " ++ missing_key_message)).
Proof.
  apply (proj1 (proj2 (proj2 (semanticSearch_reads_only_and_reports_failures
                                Scenario.keyless Sample.zero_search initial)))).
  reflexivity.
Defined.

(** ** The search function: completeness and limits *)

Lemma sorted_app_inv {A} (R : A -> A -> Prop) (l1 l2 : list A) :
  StronglySorted R (l1 ++ l2) ->
  forall a b, In a l1 -> In b l2 -> R a b.
Proof.
  induction l1 as [| x l1 IH]; cbn; intros Hsorted a b Ha Hb; [contradiction |].
  apply StronglySorted_inv in Hsorted as [Hsorted Hall].
  destruct Ha as [<- | Ha].
  - rewrite Forall_forall in Hall. apply Hall, in_or_app. now right.
  - now apply (IH Hsorted).
Qed.

(** An element of a sorted list is among its first [n], or the first
    [n] are [n] elements that all come before it. *)
Lemma firstn_sorted_complete {A} (R : A -> A -> Prop) n (l : list A) x :
  StronglySorted R l -> In x l ->
  In x (firstn n l)
  \/ (List.length (firstn n l) = n /\ Forall (fun y => R y x) (firstn n l)).
Proof.
  intros Hsorted Hin. rewrite <- (firstn_skipn n l) in Hin, Hsorted.
  apply in_app_or in Hin as [Hin | Hin]; [now left | right].
  split.
  - rewrite firstn_length_bounds. apply Nat.min_l.
    destruct (Nat.le_gt_cases n (List.length l)) as [Hle | Hgt]; [exact Hle |].
    rewrite skipn_all2 in Hin by lia. contradiction.
  - apply Forall_forall. intros y Hy.
    now apply (@sorted_app_inv _ R _ _ Hsorted).
Qed.

Lemma joined_complete env d query m e :
  In m (stored_modules d) ->
  In (fst m, e) (stored_embeddings d) ->
  In (cosine_distance env e query, m) (joined env d query).
Proof.
  intros Hm He. unfold joined. apply in_flat_map. exists m.
  split; [exact Hm |].
  apply in_map_iff. exists (fst m, e). split; [reflexivity |].
  apply filter_In. split; [exact He |]. cbn. apply String.eqb_refl.
Qed.

(** X12.  The search function returns the best matches: an indexed
    module whose similarity to the query the database finds greater
    than the threshold is in the result with that similarity, unless
    the result is full ([count] rows) and every returned row is at
    least as similar. *)
Theorem search_modules_by_embedding_returns_best_matches
  (env : Env) (d : Database) (query_embedding : list json)
  (match_threshold : Q) (match_count : Z) (rows : list SearchRow.t)
  (m : Module_) (e : list json) :
  search_modules_by_embedding env d query_embedding
    (Some match_threshold) (Some match_count) = inr rows ->
  In m (stored_modules d) ->
  In (fst m, e) (stored_embeddings d) ->
  float8_gt (similarity_to env query_embedding e) match_threshold = true ->
  In (SearchRow.mk m (similarity_to env query_embedding e)) rows
  \/ (List.length rows = Z.to_nat match_count
      /\ Forall (fun r =>
                   more_similar r
                     (SearchRow.mk m (similarity_to env query_embedding e)))
           rows).
Proof.
  unfold similarity_to. intros Hrows Hm He Habove.
  apply search_modules_by_embedding_rows in Hrows as (_ & _ & ->).
  set (first := tie_order env query_embedding match_threshold match_count).
  set (kept := filter _ (joined env d query_embedding)).
  set (row := (cosine_distance env e query_embedding, m)).
  assert (Hkept : In row (order_by_distance first kept)).
  { apply order_by_distance_In. apply filter_In.
    split; [now apply joined_complete | exact Habove]. }
  destruct (@firstn_sorted_complete _ closer (Z.to_nat match_count) _ row
              (order_by_distance_sorted first kept) Hkept)
    as [Hin | [Hfull Hall]].
  - left. apply in_map_iff. exists row. split; [reflexivity | exact Hin].
  - right. rewrite length_map. split; [exact Hfull |].
    apply Forall_map. revert Hall. apply Forall_impl.
    intros r Hcloser. unfold closer, more_similar in *. cbn in *.
    destruct (fst r) as [a |], (cosine_distance env e query_embedding) as [b |];
      cbn in *; trivial.
    apply Qplus_le_r. now apply Qopp_le_compat.
Qed.

Lemma search_modules_by_embedding_returns_best_matches_witness :
  exists rows,
    search_modules_by_embedding Sample.happy Sample.indexed []
      (Some 0.5%Q) (Some 1%Z) = inr rows
    /\ List.length rows = 1.
Proof.
  assert (Hrows : exists rows,
             search_modules_by_embedding Sample.happy Sample.indexed []
               (Some 0.5%Q) (Some 1%Z) = inr rows)
    by (eexists; vm_compute; reflexivity).
  destruct Hrows as (rows & Hrows). exists rows. split; [exact Hrows |].
  destruct (@search_modules_by_embedding_returns_best_matches
              Sample.happy Sample.indexed [] 0.5%Q 1%Z rows
              ("m3", Sample.module_data "State Machines") [JNum (Fin 0.3)]
              Hrows)
    as [Hin | [Hfull _]].
  - cbn. auto.
  - cbn. auto.
  - reflexivity.
  - exfalso. injection Hrows as <-. cbv in Hin.
    destruct Hin as [Hin | []]. discriminate Hin.
  - exact Hfull.
Defined.

(** Where no row is tied with [r], the executor has no say in where
    [r] goes. *)
Lemma insert_by_distance_untied first first' r l :
  Forall (fun r' => tied r r' = false) l ->
  insert_by_distance first r l = insert_by_distance first' r l.
Proof.
  induction 1 as [| r' l Hr' _ IH]; cbn; [reflexivity |].
  assert (Hsame : ordered_before first r r' = ordered_before first' r r').
  { unfold ordered_before, tied in *.
    destruct (fst r) as [x |], (fst r') as [y |]; try reflexivity;
      [now rewrite Hr' | discriminate]. }
  rewrite Hsame, IH. reflexivity.
Qed.

Lemma order_by_distance_untied first first' l :
  no_ties l -> order_by_distance first l = order_by_distance first' l.
Proof.
  induction 1 as [| r l Hr _ IH]; cbn; [reflexivity |].
  rewrite IH. apply insert_by_distance_untied.
  apply Forall_forall. intros r' Hin.
  apply order_by_distance_In in Hin.
  rewrite Forall_forall in Hr. now apply Hr.
Qed.

Lemma no_ties_filter f l : no_ties l -> no_ties (filter f l).
Proof.
  induction 1 as [| r l Hr _ IH]; cbn; [constructor |].
  destruct (f r); [| exact IH]. constructor; [| exact IH].
  apply Forall_forall. intros r' Hin. apply filter_In in Hin as [Hin _].
  rewrite Forall_forall in Hr. now apply Hr.
Qed.

(** X13.  [ORDER BY] leaves the order of rows at the same distance to
    the executor.  When no two indexed rows are at the same distance
    from the query, nor two at none, limits nest: with the same query
    and threshold, the rows for a count are the first rows of the
    result for any larger count. *)
Theorem search_modules_by_embedding_limit_is_a_prefix
  (env : Env) (d : Database) (query_embedding : list json)
  (match_threshold : Q) (n m : Z) (rows : list SearchRow.t) :
  no_ties (joined env d query_embedding) ->
  (0 <= n <= m)%Z ->
  search_modules_by_embedding env d query_embedding
    (Some match_threshold) (Some m) = inr rows ->
  search_modules_by_embedding env d query_embedding
    (Some match_threshold) (Some n) = inr (firstn (Z.to_nat n) rows).
Proof.
  intros Hties Hnm Hrows.
  apply search_modules_by_embedding_rows in Hrows as (Hint & Hm & ->).
  unfold search_modules_by_embedding, is_int in *.
  apply andb_prop in Hint as [_ Hmax]. apply Z.leb_le in Hmax.
  replace (- 2147483648 <=? n)%Z with true by (symmetry; apply Z.leb_le; lia).
  replace (n <=? 2147483647)%Z with true by (symmetry; apply Z.leb_le; lia).
  replace (n <? 0)%Z with false by (symmetry; apply Z.ltb_ge; lia).
  cbn [andb negb]. f_equal.
  rewrite firstn_map, firstn_firstn.
  replace (Nat.min (Z.to_nat n) (Z.to_nat m)) with (Z.to_nat n) by lia.
  f_equal. f_equal.
  apply order_by_distance_untied, no_ties_filter, Hties.
Qed.

Lemma search_modules_by_embedding_limit_is_a_prefix_witness :
  search_modules_by_embedding Sample.happy Sample.indexed []
    (Some 0.5%Q) (Some 1%Z)
  = inr (firstn 1
           [ SearchRow.mk ("m1", Sample.module_data "React Hooks")
               (Float8 (1 - 0.1));
             SearchRow.mk ("m3", Sample.module_data "State Machines")
               (Float8 (1 - 0.3)) ]).
Proof.
  apply (@search_modules_by_embedding_limit_is_a_prefix
           Sample.happy Sample.indexed [] 0.5%Q 1%Z 2%Z).
  - repeat constructor.
  - lia.
  - reflexivity.
Defined.

(** ** Record creation *)

Lemma invokes_are_not_inserts evs :
  Forall is_invoke evs -> filter is_insert evs = [].
Proof.
  induction 1 as [| ev evs (k & input & ->) _ IH]; [reflexivity | exact IH].
Qed.

(** The rows of the three inserts of a creation, for a module row and
    the generated id. *)
Lemma createModule_after_pipeline env input s s1 aiResult :
  processMarkdownWithAI env (CreateModuleInput.markdownContent input) s
  = (s1, inr aiResult) ->
  db s1 = db s
  /\ exists evs, trace s1 = trace s ++ evs /\ filter is_insert evs = [].
Proof.
  intros Hrun.
  destruct (processMarkdownWithAI_effect env
              (CreateModuleInput.markdownContent input) s)
    as (Hdb & evs & Htrace & Hevs).
  rewrite Hrun in Hdb, Htrace. cbn [fst] in Hdb, Htrace.
  split; [exact Hdb |]. exists evs.
  split; [exact Htrace | now apply invokes_are_not_inserts].
Qed.

(** A creation after a pipeline run that passes the gate. *)
Lemma createModule_run_passing env input s s1 aiResult keywords :
  processMarkdownWithAI env (CreateModuleInput.markdownContent input) s
  = (s1, inr aiResult) ->
  num_lt (AIPipelineResult.quality_score aiResult) (Fin 70) = false ->
  AIPipelineResult.seo_keywords aiResult = JStr keywords ->
  let data := module_row input aiResult (map trim (split_comma keywords)) in
  let id := gen_random_uuid env (List.length (stored_modules (db s))) in
  let embedding := AIPipelineResult.embedding aiResult in
  let embeddingError :=
    insert_error env module_embeddings (EmbeddingRow id embedding) in
  let versionError :=
    insert_error env module_versions (VersionRow id 1%Z "Initial version") in
  createModule env input s
  = match insert_error env modules (ModuleRow data) with
    | Some message =>
        (record s1 (Insert modules (ModuleRow data)),
         inl (Error ("Failed to create module: " ++ message)))
    | None =>
        (mkState
           (trace s1
            ++ [ Insert modules (ModuleRow data);
                 Insert module_embeddings (EmbeddingRow id embedding);
                 Insert module_versions (VersionRow id 1%Z "Initial version") ])
           (openaiClient s1)
           (mkDatabase
              (stored_modules (db s) ++ [(id, data)])
              (stored_embeddings (db s)
               ++ stored_unless embeddingError (id, embedding))
              (stored_versions (db s)
               ++ stored_unless versionError (id, 1%Z, "Initial version"))),
         inr ((id, data), aiResult))
    end.
Proof.
  intros Hrun Hscore Hkeywords. cbv zeta.
  destruct (@createModule_after_pipeline env input s s1 aiResult Hrun)
    as (Hdb & _).
  unfold createModule, get_db. unfold_bind.
  rewrite Hrun, Hscore, Hkeywords. unfold_bind.
  fold (module_row input aiResult (map trim (split_comma keywords))).
  set (data := module_row input aiResult _).
  rewrite (supabase_insert_run env modules (ModuleRow data)).
  destruct (insert_error env modules (ModuleRow data)); [reflexivity |].
  unfold_bind. cbn [db]. rewrite Hdb.
  set (id := gen_random_uuid env _).
  rewrite (supabase_insert_run env module_embeddings).
  destruct (insert_error env module_embeddings _);
    unfold_bind; rewrite (supabase_insert_run env module_versions);
    destruct (insert_error env module_versions _);
    unfold record, stored_unless;
    cbn [db trace openaiClient stored_modules stored_embeddings
           stored_versions];
    rewrite ?app_nil_r, <- ?app_assoc; reflexivity.
Qed.



(** No insert among the events of the pipeline. *)
Ltac no_insert_sent Hnone :=
  split; [| split];
  [ intros ? Hin; exact (Hnone _ _ Hin)
  | intros ? Hin; exact (Hnone _ _ Hin)
  | intros ? ? Hin _; destruct (Hnone _ _ Hin) ].

(** X15.  A creation that fails leaves the database as it was: whatever
    makes [createModule] reject (a failed pipeline run, a score below
    70, keywords that are not a string, the database's refusal of the
    module row), nothing has been stored, and no row has been sent to
    [module_embeddings] or [module_versions].  A refused module row is
    reported as "Failed to create module: " with the database's
    message. *)
Theorem createModule_failure_stores_nothing
  (env : Env) (input : CreateModuleInput.t) (s : State) (e : exn) :
  let run := createModule env input s in
  snd run = inl e ->
  db (fst run) = db s
  /\ (forall r, ~ In (Insert module_embeddings r)
                  (added (List.length (trace s)) (fst run)))
  /\ (forall r, ~ In (Insert module_versions r)
                  (added (List.length (trace s)) (fst run)))
  /\ (forall data message,
         In (Insert modules (ModuleRow data))
            (added (List.length (trace s)) (fst run)) ->
         insert_error env modules (ModuleRow data) = Some message ->
         e = Error ("Failed to create module: " ++ message)).
Proof.
  cbv zeta.
  destruct (processMarkdownWithAI_effect env
              (CreateModuleInput.markdownContent input) s)
    as (Hdb & evs & Htrace & Hevs).
  assert (Hnone : forall t r, ~ In (Insert t r) evs).
  { intros t r Hin. rewrite Forall_forall in Hevs.
    destruct (Hevs _ Hin) as (k & i & Hev). discriminate. }
  unfold createModule, get_db. unfold_bind.
  destruct (processMarkdownWithAI env _ s) as [s1 [e1 | aiResult]];
    cbn [fst snd] in *.
  - intros _. rewrite (@added_app s s1 evs Htrace).
    split; [exact Hdb |]. no_insert_sent Hnone.
  - destruct (num_lt _ (Fin 70)).
    { cbn [fst snd]. intros _. rewrite (@added_app s s1 evs Htrace).
      split; [exact Hdb |]. no_insert_sent Hnone. }
    destruct (AIPipelineResult.seo_keywords aiResult);
      try (cbn [fst snd]; intros _; rewrite (@added_app s s1 evs Htrace);
           split; [exact Hdb |]; no_insert_sent Hnone).
    unfold_bind. rewrite supabase_insert_run.
    set (row := ModuleRow _).
    destruct (insert_error env modules row) as [message |] eqn:Herror.
    + cbn [fst snd db record]. intros [= <-].
      rewrite (@added_app s (record s1 (Insert modules row))
                 (evs ++ [Insert modules row])
                 ltac:(cbn [record trace]; now rewrite Htrace, app_assoc)).
      split; [exact Hdb |].
      split; [| split].
      * intros r Hin. apply in_app_or in Hin as [Hin | [Hin | []]];
          [now apply (Hnone _ _ Hin) | discriminate].
      * intros r Hin. apply in_app_or in Hin as [Hin | [Hin | []]];
          [now apply (Hnone _ _ Hin) | discriminate].
      * intros data message' Hin Herror'.
        apply in_app_or in Hin as [Hin | [Hin | []]];
          [now destruct (Hnone _ _ Hin) |].
        subst row. injection Hin as <-.
        assert (Hsame : message = message') by congruence.
        subst message'. reflexivity.
    + unfold_bind. rewrite (supabase_insert_run env module_embeddings).
      destruct (insert_error env module_embeddings _); unfold_bind;
        rewrite (supabase_insert_run env module_versions);
        destruct (insert_error env module_versions _); discriminate.
Qed.

Lemma createModule_failure_stores_nothing_witness :
  db (fst (createModule Sample.lenient Sample.input initial)) = empty_db.
Proof.
  assert (Hfails : exists e,
             snd (createModule Sample.lenient Sample.input initial) = inl e).
  { eexists. vm_compute. reflexivity. }
  destruct Hfails as (e & Hfails).
  exact (proj1 (@createModule_failure_stores_nothing
                  Sample.lenient Sample.input initial e Hfails)).
Defined.

(** ** Slugs *)

Lemma includes_double_dash c s :
  includes "--" (String c s)
  = (Ascii.eqb c "-" && starts_with_dash s) || includes "--" s.
Proof.
  change (includes "--" (String c s))
    with (String.prefix "--" (String c s) || includes "--" s).
  f_equal.
  change (String.prefix "--" (String c s))
    with (if ascii_dec "-" c then String.prefix "-" s else false).
  destruct (ascii_dec "-" c) as [<- | Hc].
  - rewrite Ascii.eqb_refl. cbn [andb].
    destruct s as [| c' s]; [reflexivity |].
    change (String.prefix "-" (String c' s))
      with (if ascii_dec "-" c' then String.prefix "" s else false).
    cbn [starts_with_dash].
    destruct (ascii_dec "-" c') as [<- | Hc'].
    + rewrite Ascii.eqb_refl. destruct s; reflexivity.
    + symmetry. apply Ascii.eqb_neq. congruence.
  - replace (Ascii.eqb c "-") with false; [reflexivity |].
    symmetry. apply Ascii.eqb_neq. congruence.
Qed.

Lemma slug_char_is_tag_char c : slug_char c = true -> tag_char c = true.
Proof. unfold slug_char, tag_char. intros ->. reflexivity. Qed.

Lemma slug_char_not_dash c : slug_char c = true -> Ascii.eqb c "-" = false.
Proof.
  intros Hc. apply Ascii.eqb_neq. intros ->. discriminate Hc.
Qed.

Lemma tag_char_cases c :
  tag_char c = true -> slug_char c = true \/ c = "-"%char.
Proof.
  unfold tag_char, slug_char.
  destruct (((97 <=? nat_of_ascii c) && (nat_of_ascii c <=? 122))
            || ((48 <=? nat_of_ascii c) && (nat_of_ascii c <=? 57)));
    [now left |].
  cbn. intros Hdash. right. apply Nat.eqb_eq in Hdash.
  rewrite <- (ascii_nat_embedding c), Hdash. reflexivity.
Qed.

Lemma dash_runs_shape in_run s :
  all_chars tag_char (dash_runs in_run s) = true
  /\ includes "--" (dash_runs in_run s) = false
  /\ (in_run = true -> starts_with_dash (dash_runs in_run s) = false).
Proof.
  revert in_run. induction s as [| c s IH]; intros in_run; cbn;
    [repeat split |].
  destruct (slug_char c) eqn:Hc.
  - destruct (IH false) as (Hall & Hdd & _).
    rewrite includes_double_dash, Hdd, (slug_char_not_dash _ Hc).
    cbn [all_chars starts_with_dash].
    rewrite (slug_char_is_tag_char _ Hc), Hall, (slug_char_not_dash _ Hc).
    repeat split.
  - destruct (IH true) as (Hall & Hdd & Hstart). specialize (Hstart eq_refl).
    destruct in_run.
    + repeat split; auto.
    + rewrite includes_double_dash, Hdd, Hstart. cbn [all_chars].
      rewrite Hall. repeat split. discriminate.
Qed.

Lemma includes_double_dash_tail c s :
  includes "--" (String c s) = false -> includes "--" s = false.
Proof.
  rewrite includes_double_dash. intros H.
  now apply Bool.orb_false_iff in H as [_ H].
Qed.

Lemma strip_leading_dashes_shape s :
  all_chars tag_char s = true -> includes "--" s = false ->
  all_chars tag_char (strip_leading_dashes s) = true
  /\ includes "--" (strip_leading_dashes s) = false
  /\ starts_with_dash (strip_leading_dashes s) = false.
Proof.
  induction s as [| c s IH]; cbn [strip_leading_dashes all_chars];
    [repeat split |].
  intros Hall Hdd. apply andb_prop in Hall as [Hc Hall].
  destruct (Ascii.eqb c "-") eqn:Hdash.
  - apply IH; [exact Hall | now apply includes_double_dash_tail in Hdd].
  - cbn [all_chars starts_with_dash]. rewrite Hc, Hall, Hdash. auto.
Qed.

Lemma strip_trailing_dashes_shape s :
  all_chars tag_char s = true -> includes "--" s = false ->
  starts_with_dash s = false ->
  all_chars tag_char (strip_trailing_dashes s) = true
  /\ includes "--" (strip_trailing_dashes s) = false
  /\ starts_with_dash (strip_trailing_dashes s) = false
  /\ ends_with_dash (strip_trailing_dashes s) = false
  /\ (starts_with_dash (strip_trailing_dashes s) = true ->
      starts_with_dash s = true).
Proof.
  assert (Hgen : all_chars tag_char s = true -> includes "--" s = false ->
                 all_chars tag_char (strip_trailing_dashes s) = true
                 /\ includes "--" (strip_trailing_dashes s) = false
                 /\ ends_with_dash (strip_trailing_dashes s) = false
                 /\ (starts_with_dash (strip_trailing_dashes s) = true ->
                     starts_with_dash s = true)).
  { induction s as [| c s IH]; cbn [strip_trailing_dashes all_chars];
      [repeat split; discriminate |].
    intros Hall Hdd. apply andb_prop in Hall as [Hc Hall].
    rewrite includes_double_dash in Hdd.
    apply Bool.orb_false_iff in Hdd as [Hpair Hdd].
    destruct (IH Hall Hdd) as (Hall' & Hdd' & Hend & Hstart).
    destruct (strip_trailing_dashes s) as [| c' t] eqn:Hstrip.
    - destruct (Ascii.eqb c "-") eqn:Hdash.
      + repeat split; try reflexivity; discriminate.
      + rewrite includes_double_dash.
        change (includes "--" "") with false.
        cbn [all_chars starts_with_dash ends_with_dash andb orb].
        rewrite Hc, Hdash. repeat split; discriminate.
    - rewrite includes_double_dash, Hdd'.
      change (all_chars tag_char (String c (String c' t)))
        with (tag_char c && all_chars tag_char (String c' t)).
      change (ends_with_dash (String c (String c' t)))
        with (ends_with_dash (String c' t)).
      rewrite Hc, Hall', Hend.
      assert (Hpair' : Ascii.eqb c "-" && starts_with_dash (String c' t)
                       = false).
      { destruct (Ascii.eqb c "-"); [| reflexivity]. cbn [andb] in *.
        destruct (starts_with_dash (String c' t)) eqn:Hs; [| reflexivity].
        rewrite (Hstart eq_refl) in Hpair. discriminate. }
      rewrite Hpair'. cbn [starts_with_dash]. repeat split; auto. }
  intros Hall Hdd Hstart.
  destruct (Hgen Hall Hdd) as (H1 & H2 & H3 & H4).
  repeat split; try assumption.
  destruct (starts_with_dash (strip_trailing_dashes s)) eqn:Hs;
    [| reflexivity].
  rewrite (H4 eq_refl) in Hstart. discriminate.
Qed.

Lemma generateSlug_is_slug title : is_slug (generateSlug title).
Proof.
  unfold generateSlug, is_slug.
  destruct (dash_runs_shape false (toLowerCase title)) as (H1 & H2 & _).
  destruct (strip_leading_dashes_shape _ H1 H2) as (H3 & H4 & H5).
  destruct (strip_trailing_dashes_shape _ H3 H4 H5) as (H6 & H7 & H8 & H9 & _).
  auto.
Qed.

Lemma lower_ascii_tag_char c : tag_char c = true -> lower_ascii c = c.
Proof.
  unfold tag_char, lower_ascii. intros Hc.
  destruct ((65 <=? nat_of_ascii c) && (nat_of_ascii c <=? 90)) eqn:Hupper.
  - exfalso. apply andb_prop in Hupper as [H1 H2].
    apply Nat.leb_le in H1, H2.
    repeat (apply Bool.orb_prop in Hc as [Hc | Hc]);
      try (apply andb_prop in Hc as [H3 H4]; apply Nat.leb_le in H3, H4; lia).
    apply Nat.eqb_eq in Hc. lia.
  - destruct ((192 <=? nat_of_ascii c) && (nat_of_ascii c <=? 222)
              && negb (nat_of_ascii c =? 215)) eqn:Haccent;
      [| reflexivity].
    exfalso. apply andb_prop in Haccent as [Haccent _].
    apply andb_prop in Haccent as [H1 H2]. apply Nat.leb_le in H1, H2.
    repeat (apply Bool.orb_prop in Hc as [Hc | Hc]);
      try (apply andb_prop in Hc as [H3 H4]; apply Nat.leb_le in H3, H4; lia).
    apply Nat.eqb_eq in Hc. lia.
Qed.

Lemma toLowerCase_tag_chars s :
  all_chars tag_char s = true -> toLowerCase s = s.
Proof.
  induction s as [| c s IH]; cbn; [trivial |].
  intros Hall. apply andb_prop in Hall as [Hc Hall].
  now rewrite (lower_ascii_tag_char _ Hc), IH.
Qed.

Lemma dash_runs_fixed in_run s :
  all_chars tag_char s = true -> includes "--" s = false ->
  (in_run = true -> starts_with_dash s = false) ->
  dash_runs in_run s = s.
Proof.
  revert in_run. induction s as [| c s IH]; intros in_run; cbn [dash_runs];
    [trivial |].
  cbn [all_chars]. intros Hall Hdd Hstart.
  apply andb_prop in Hall as [Hc Hall].
  rewrite includes_double_dash in Hdd.
  apply Bool.orb_false_iff in Hdd as [Hpair Hdd].
  destruct (tag_char_cases _ Hc) as [Hslug | ->].
  - rewrite Hslug. f_equal. apply IH; [assumption | assumption | discriminate].
  - change (slug_char "-") with false. cbn [starts_with_dash] in Hstart.
    destruct in_run; [specialize (Hstart eq_refl); discriminate |].
    f_equal. apply IH; [assumption | assumption |].
    intros _. cbn in Hpair. exact Hpair.
Qed.

Lemma strip_leading_dashes_fixed s :
  starts_with_dash s = false -> strip_leading_dashes s = s.
Proof. destruct s as [| c s]; cbn; [trivial |]. now intros ->. Qed.

Lemma strip_trailing_dashes_fixed s :
  ends_with_dash s = false -> strip_trailing_dashes s = s.
Proof.
  induction s as [| c s IH]; cbn [strip_trailing_dashes ends_with_dash];
    [trivial |].
  destruct s as [| c' s'].
  - cbn. now intros ->.
  - intros Hend. rewrite (IH Hend). reflexivity.
Qed.

Lemma dash_runs_without_slug_chars in_run s :
  all_chars (fun c => negb (slug_char c)) s = true ->
  dash_runs in_run s = "" \/ (in_run = false /\ dash_runs in_run s = "-").
Proof.
  revert in_run. induction s as [| c s IH]; intros in_run; cbn;
    [now left |].
  intros Hall. apply andb_prop in Hall as [Hc Hall].
  apply Bool.negb_true_iff in Hc. rewrite Hc.
  destruct (IH true Hall) as [Hempty | [Hfalse _]]; [| discriminate].
  destruct in_run; [now left | right]. now rewrite Hempty.
Qed.

(** X16.  A slug is made of lower-case letters, digits and single
    dashes between them: it neither starts nor ends with a dash and has
    no two dashes in a row.  Making a slug of a slug changes nothing.
    A title without any letter or digit gives the empty slug. *)
Theorem generateSlug_is_url_safe_and_idempotent (title : string) :
  is_slug (generateSlug title)
  /\ generateSlug (generateSlug title) = generateSlug title
  /\ (all_chars (fun c => negb (slug_char c)) (toLowerCase title) = true ->
      generateSlug title = "").
Proof.
  split; [apply generateSlug_is_slug |]. split.
  - destruct (generateSlug_is_slug title) as (Hall & Hstart & Hend & Hdd).
    set (slug := generateSlug title) in *. unfold generateSlug.
    rewrite (@toLowerCase_tag_chars slug Hall).
    rewrite (@dash_runs_fixed false slug Hall Hdd) by discriminate.
    rewrite (@strip_leading_dashes_fixed slug Hstart).
    apply (@strip_trailing_dashes_fixed slug Hend).
  - intros Hnone. unfold generateSlug.
    destruct (@dash_runs_without_slug_chars false _ Hnone) as [-> | [_ ->]];
      reflexivity.
Qed.

Lemma generateSlug_is_url_safe_and_idempotent_witness :
  generateSlug "?!" = "".
Proof.
  apply (proj2 (proj2 (generateSlug_is_url_safe_and_idempotent "?!"))).
  reflexivity.
Defined.

(** ** The brace match *)

Lemma from_first_open_inv text s :
  from_first_open text = Some s ->
  exists pre rest,
    text = (pre ++ s)%string /\ s = String "{" rest
    /\ all_chars (fun c => negb (Ascii.eqb c "{")) pre = true.
Proof.
  induction text as [| c text IH]; cbn [from_first_open]; [discriminate |].
  destruct (Ascii.eqb c "{") eqn:Hc.
  - intros [= <-]. apply Ascii.eqb_eq in Hc. subst c.
    exists "", text. auto.
  - intros Hs. destruct (IH Hs) as (pre & rest & -> & -> & Hpre).
    exists (String c pre), rest. cbn [String.append all_chars].
    rewrite Hc, Hpre. auto.
Qed.

Lemma upto_last_close_inv s m :
  upto_last_close s = Some m ->
  exists body post,
    s = (m ++ post)%string /\ m = (body ++ "}")%string
    /\ all_chars (fun c => negb (Ascii.eqb c "}")) post = true.
Proof.
  revert m. induction s as [| c s IH]; cbn [upto_last_close]; intros m;
    [discriminate |].
  destruct (upto_last_close s) as [p |] eqn:Hp.
  - intros [= <-]. destruct (IH p eq_refl) as (body & post & -> & -> & Hpost).
    exists (String c body), post. auto.
  - destruct (Ascii.eqb c "}") eqn:Hc; [| discriminate].
    intros [= <-]. apply Ascii.eqb_eq in Hc. subst c.
    exists "", s. repeat split.
    clear IH. induction s as [| c s IH]; [reflexivity |].
    cbn [upto_last_close] in Hp.
    destruct (upto_last_close s); [discriminate |].
    destruct (Ascii.eqb c "}") eqn:Hc; [discriminate |].
    cbn [all_chars]. rewrite Hc. now apply IH.
Qed.

Lemma from_first_open_finds pre rest :
  exists before,
    from_first_open (pre ++ String "{" rest)
    = Some (before ++ String "{" rest)%string.
Proof.
  induction pre as [| c pre IH]; cbn [String.append from_first_open].
  - exists "". reflexivity.
  - destruct (Ascii.eqb c "{").
    + exists (String c pre). reflexivity.
    + exact IH.
Qed.

Lemma upto_last_close_finds before post :
  upto_last_close (before ++ String "}" post) <> None.
Proof.
  induction before as [| c before IH]; cbn [String.append upto_last_close].
  - destruct (upto_last_close post); discriminate.
  - destruct (upto_last_close (before ++ String "}" post)); [discriminate |].
    contradiction.
Qed.

Lemma append_assoc (a b c : string) :
  ((a ++ b) ++ c = a ++ (b ++ c))%string.
Proof. induction a as [| x a IH]; cbn; [reflexivity | now rewrite IH]. Qed.

(** X17.  The brace match every adapter applies to an agent's answer
    takes the text from its first opening brace to its last closing
    brace: what comes before has no opening brace and what comes after
    has no closing brace.  There is no match exactly when no opening
    brace is followed by a closing one. *)
Theorem match_braces_spans_first_open_to_last_close (text : string) :
  match match_braces text with
  | Some jsonMatch =>
      exists pre body post,
        text = (pre ++ jsonMatch ++ post)%string
        /\ jsonMatch = ("{" ++ body ++ "}")%string
        /\ all_chars (fun c => negb (Ascii.eqb c "{")) pre = true
        /\ all_chars (fun c => negb (Ascii.eqb c "}")) post = true
  | None =>
      forall pre body post, text <> (pre ++ "{" ++ body ++ "}" ++ post)%string
  end.
Proof.
  unfold match_braces.
  destruct (from_first_open text) as [s |] eqn:Hopen.
  - destruct (from_first_open_inv _ Hopen) as (pre & rest & -> & -> & Hpre).
    destruct (upto_last_close (String "{" rest)) as [m |] eqn:Hclose.
    + destruct (upto_last_close_inv _ Hclose)
        as (body & post & Hsplit & -> & Hpost).
      destruct body as [| c body].
      * exfalso. cbn in Hsplit. discriminate.
      * cbn [String.append] in Hsplit. injection Hsplit as <- Hrest.
        exists pre, body, post. cbn [String.append].
        rewrite Hrest. auto.
    + intros pre' body post Htext.
      destruct (from_first_open_finds pre' (body ++ "}" ++ post))
        as (before & Hfound).
      cbn [String.append] in Htext, Hfound.
      rewrite <- Htext, Hopen in Hfound.
      injection Hfound as Hrest.
      apply (@upto_last_close_finds (before ++ String "{" body) post).
      rewrite append_assoc. cbn [String.append] in *.
      rewrite <- Hrest. exact Hclose.
  - intros pre body post Htext.
    destruct (from_first_open_finds pre (body ++ "}" ++ post))
      as (before & Hfound).
    cbn [String.append] in Htext, Hfound.
    rewrite <- Htext, Hopen in Hfound. discriminate.
Qed.

Lemma match_braces_spans_first_open_to_last_close_witness :
  exists pre body post,
    "Here it is: {a} and {b}. Done."
    = (pre ++ ("{" ++ body ++ "}") ++ post)%string
    /\ all_chars (fun c => negb (Ascii.eqb c "{")) pre = true
    /\ all_chars (fun c => negb (Ascii.eqb c "}")) post = true.
Proof.
  pose proof (match_braces_spans_first_open_to_last_close
                "Here it is: {a} and {b}. Done.") as Hmatch.
  change (match_braces "Here it is: {a} and {b}. Done.")
    with (Some "{a} and {b}") in Hmatch.
  destruct Hmatch as (pre & body & post & Htext & Hbody & Hpre & Hpost).
  exists pre, body, post. rewrite <- Hbody. auto.
Defined.

(** ** Cosine similarity with a vector of zeros *)

Lemma is_zero_inv (x : float) :
  is_zero x -> exists sign, Prim2SF x = S754_zero sign.
Proof.
  unfold is_zero. rewrite eqb_spec.
  change (Prim2SF 0) with (S754_zero false).
  destruct (Prim2SF x) as [sx | sx | | sx mx ex]; cbn; try discriminate;
    eauto.
  all: destruct sx; discriminate.
Qed.

(** Zero times anything is a zero, or NaN. *)
Lemma zero_times (x y : float) : is_zero x -> zero_or_nan (x * y).
Proof.
  intros Hx. apply is_zero_inv in Hx as (sx & Hx).
  unfold zero_or_nan. rewrite mul_spec, Hx.
  destruct (Prim2SF y); exact I.
Qed.

Lemma zero_or_nan_plus (x y : float) :
  zero_or_nan x -> zero_or_nan y -> zero_or_nan (x + y).
Proof.
  unfold zero_or_nan. rewrite add_spec.
  destruct (Prim2SF x) as [sx | sx | | sx mx ex]; try contradiction;
    destruct (Prim2SF y) as [sy | sy | | sy my ey]; try contradiction;
    intros _ _; cbn; trivial.
  destruct sx, sy; exact I.
Qed.

Lemma zero_or_nan_quotient (x y : float) :
  zero_or_nan x -> zero_or_nan y -> (x / y)%float = nan.
Proof.
  unfold zero_or_nan. intros Hx Hy. apply Prim2SF_inj. rewrite div_spec.
  destruct (Prim2SF x) as [sx | sx | | sx mx ex]; try contradiction;
    destruct (Prim2SF y) as [sy | sy | | sy my ey]; try contradiction;
    reflexivity.
Qed.

(** The loop on a vector of zeros: [normA] stays the positive zero and
    [dotProduct] a zero or NaN. *)
Lemma accumulate_zeros (a b : list float) (dotProduct normB : float) :
  Forall is_zero a ->
  zero_or_nan dotProduct ->
  exists dotProduct' normB',
    accumulate a b (dotProduct, 0%float, normB)
    = (dotProduct', 0%float, normB')
    /\ zero_or_nan dotProduct'.
Proof.
  intros Hzeros. revert b dotProduct normB.
  induction Hzeros as [| x a Hx _ IH]; intros b dotProduct normB Hdot.
  - destruct b; cbn; eauto.
  - destruct b as [| y b]; cbn; [eauto |].
    rewrite (square_of_zero Hx).
    change (0 + 0)%float with 0%float.
    apply IH. apply zero_or_nan_plus; [exact Hdot | now apply zero_times].
Qed.

Lemma cosineSimilarity_zeros (a b : list float) :
  Forall is_zero a ->
  List.length a = List.length b ->
  cosineSimilarity a b = inr nan.
Proof.
  intros Hzeros Hlength. unfold cosineSimilarity.
  rewrite Hlength, Nat.eqb_refl. cbn [negb].
  destruct (@accumulate_zeros a b 0%float 0%float Hzeros I)
    as (dotProduct & normB & -> & Hdot).
  f_equal. apply zero_or_nan_quotient; [exact Hdot |].
  change (PrimFloat.sqrt 0) with 0%float.
  apply zero_times. reflexivity.
Qed.

(** X18.  In binary64, the similarity of a vector of zeros, of either
    sign, and any vector of the same length is NaN, whichever of the
    two comes first and whatever the components of the other, which
    may be infinite or NaN: the function has no guard for a norm of
    zero.  Nor is a result that is a number confined to [[-1,1]]: on
    (1, 1, 1) and (2, 2, 2) it is greater than 1. *)
Theorem cosineSimilarity_with_zeros_is_nan :
  (forall a b : list float,
      Forall is_zero a ->
      List.length a = List.length b ->
      cosineSimilarity a b = inr nan /\ cosineSimilarity b a = inr nan)
  /\ (exists x,
         cosineSimilarity [1; 1; 1]%float [2; 2; 2]%float = inr x
         /\ PrimFloat.ltb 1%float x = true).
Proof.
  split.
  - intros a b Hzeros Hlength.
    rewrite (cosineSimilarity_sym b a).
    split; now apply cosineSimilarity_zeros.
  - eexists. split; vm_compute; reflexivity.
Qed.

Lemma cosineSimilarity_with_zeros_is_nan_witness :
  cosineSimilarity [0; -0]%float [1; infinity]%float = inr nan
  /\ cosineSimilarity [1; infinity]%float [0; -0]%float = inr nan.
Proof.
  apply (proj1 cosineSimilarity_with_zeros_is_nan).
  - repeat constructor.
  - reflexivity.
Defined.

(** ** The route in front of the pipeline *)

Lemma processMarkdownWithAI_rejection env md s e :
  snd (processMarkdownWithAI env md s) = inl e ->
  exists cause, e = pipeline_failure cause.
Proof.
  pose proof (processMarkdownWithAI_cases env md s) as Hcases.
  cbv zeta in Hcases.
  destruct (snd (phase1 env md initial))
    as [e1 | [[[summaries seo] categoryResult] tags]].
  { rewrite Hcases. cbn [snd]. intros [= <-]. eauto. }
  destruct (converts (CategoryResult.category categoryResult)).
  2: { rewrite Hcases. cbn [snd]. intros [= <-]. eauto. }
  destruct (phase2 env md _) as [s2 [e2 | [[schema imagePrompt] embedding]]].
  { rewrite Hcases. cbn [snd]. intros [= <-]. eauto. }
  destruct (snd (validateMetadata env md _ initial)) as [e3 | validation];
    rewrite Hcases; cbn [snd]; [intros [= <-]; eauto |].
  destruct (warning_converts validation); [discriminate |].
  intros [= <-]. eauto.
Qed.

Lemma processMarkdownWithAI_blank env md s :
  cleanedContent md = "" ->
  exists e,
    snd (processMarkdownWithAI env md s) = inl e
    /\ 4 <= List.length
              (added (List.length (trace s))
                 (fst (processMarkdownWithAI env md s))).
Proof.
  intros Hblank.
  destruct (@processMarkdownWithAI_empty env md s Hblank)
    as (e & Hsnd & Htrace & _).
  eexists. split; [exact Hsnd |].
  rewrite (@added_app s _ _ Htrace), length_app. cbn. lia.
Qed.

(** X19.  The handler of POST /api/ai/process always answers and never
    throws: 400 exactly when the body does not match the schema, and
    then nothing has been sent; 200 with the pipeline's result; 500
    with the pipeline's message, which starts with "AI Pipeline
    failed: ".  Content of ten or more white-space characters passes
    the schema and is answered with 500 after at least the four
    requests of Phase 1 have been sent. *)
Theorem post_process_always_answers
  (env : Env) (body : value) (s : State) :
  let run := post_process env body s in
  (exists response,
      snd run = inr response
      /\ match response with
         | Ok200 data =>
             exists content,
               ProcessMarkdownSchema_parse body = inr content
               /\ processMarkdownWithAI env content s = (fst run, inr data)
         | BadRequest400 _ details =>
             ProcessMarkdownSchema_parse body = inl details /\ fst run = s
         | ServerError500 message =>
             exists content cause,
               ProcessMarkdownSchema_parse body = inr content
               /\ processMarkdownWithAI env content s
                  = (fst run, inl (Error message))
               /\ message = ("AI Pipeline failed: " ++ cause)%string
         end)
  /\ (forall o content,
         body = Some (JObj o) ->
         get o "content" = Some (JStr content) ->
         10 <= String.length content ->
         cleanedContent content = "" ->
         exists message,
           snd run = inr (ServerError500 message)
           /\ 4 <= List.length (added (List.length (trace s)) (fst run))).
Proof.
  cbv zeta. split.
  - unfold post_process.
    destruct (ProcessMarkdownSchema_parse body) as [issue | content].
    { eexists. split; [reflexivity |]. cbn. auto. }
    unfold_bind.
    pose proof (@processMarkdownWithAI_rejection env content s) as Hrejects.
    destruct (processMarkdownWithAI env content s) as [s1 [e | data]]
      eqn:Hrun; cbn [fst snd] in *.
    + destruct (Hrejects e eq_refl) as (cause & ->).
      unfold pipeline_failure in *. eexists. split; [reflexivity |].
      exists content, (message_of cause). repeat split. exact Hrun.
    + eexists. split; [reflexivity |]. exists content.
      split; [reflexivity | exact Hrun].
  - intros o content -> Hcontent Hlong Hblank.
    unfold post_process, ProcessMarkdownSchema_parse. rewrite Hcontent.
    apply Nat.ltb_ge in Hlong. rewrite Hlong. unfold_bind.
    destruct (@processMarkdownWithAI_blank env content s Hblank)
      as (e & Hfails & Hsent).
    destruct (processMarkdownWithAI env content s) as [s1 [e' | data]];
      cbn [fst snd] in *; [| discriminate].
    eexists. split; [reflexivity | exact Hsent].
Qed.

Lemma post_process_always_answers_witness :
  exists message,
    snd (post_process Sample.happy
           (Some (JObj [("content", JStr "            ")])) initial)
    = inr (ServerError500 message).
Proof.
  destruct (proj2 (post_process_always_answers Sample.happy
                     (Some (JObj [("content", JStr "            ")]))
                     initial)
              [("content", JStr "            ")] "            "
              eq_refl eq_refl)
    as (message & Hanswer & _).
  - cbn. lia.
  - reflexivity.
  - exists message. exact Hanswer.
Defined.

(* ================================================================== *)
(** * Lookups, version history and deletion *)
(* ================================================================== *)

Lemma filter_none {A} (f : A -> bool) (l : list A) :
  (forall x, In x l -> f x = false) -> filter f l = [].
Proof.
  induction l as [| x l IH]; cbn; [trivial |]. intros Hnone.
  rewrite (Hnone x) by now left. apply IH. intros y Hy. apply Hnone.
  now right.
Qed.

Lemma filter_all {A} (f : A -> bool) (l : list A) :
  (forall x, In x l -> f x = true) -> filter f l = l.
Proof.
  induction l as [| x l IH]; cbn; [trivial |]. intros Hall.
  rewrite (Hall x) by now left. f_equal. apply IH. intros y Hy. apply Hall.
  now right.
Qed.

(** What a fulfilled creation tells. *)
Lemma createModule_ok_inv env input s s' module aiResult :
  createModule env input s = (s', inr (module, aiResult)) ->
  exists s1 keywords,
    processMarkdownWithAI env (CreateModuleInput.markdownContent input) s
    = (s1, inr aiResult)
    /\ num_lt (AIPipelineResult.quality_score aiResult) (Fin 70) = false
    /\ module
       = (gen_random_uuid env (List.length (stored_modules (db s))),
          module_row input aiResult (map trim (split_comma keywords)))
    /\ stored_modules (db s') = stored_modules (db s) ++ [module]
    /\ stored_embeddings (db s')
       = stored_embeddings (db s)
         ++ stored_unless
              (insert_error env module_embeddings
                 (EmbeddingRow (fst module)
                    (AIPipelineResult.embedding aiResult)))
              (fst module, AIPipelineResult.embedding aiResult)
    /\ stored_versions (db s')
       = stored_versions (db s)
         ++ stored_unless
              (insert_error env module_versions
                 (VersionRow (fst module) 1%Z "Initial version"))
              (fst module, 1%Z, "Initial version").
Proof.
  intros Hcreated. pose proof Hcreated as Hrun'. revert Hcreated.
  unfold createModule. unfold_bind.
  destruct (processMarkdownWithAI env _ s) as [s1 [e | result]] eqn:Hrun;
    [discriminate |].
  destruct (num_lt (AIPipelineResult.quality_score result) (Fin 70))
    eqn:Hscore; [discriminate |].
  destruct (AIPipelineResult.seo_keywords result) as [| | | keywords | |]
    eqn:Hkeywords; try discriminate.
  intros _.
  rewrite (@createModule_run_passing env input s s1 result keywords
             Hrun Hscore Hkeywords) in Hrun'.
  destruct (insert_error env modules _); [discriminate |].
  injection Hrun' as <- <- <-.
  exists s1, keywords. cbn [db stored_modules stored_embeddings
                             stored_versions fst].
  repeat split; assumption.
Qed.

Lemma select_single_unique failures matching d m :
  select_error failures modules = None ->
  filter matching (stored_modules d) = [m] ->
  select_single failures matching d = Some m.
Proof. intros Hselect Hone. unfold select_single. now rewrite Hselect, Hone. Qed.

Lemma insert_by_version_In v l x :
  In x (insert_by_version v l) <-> x = v \/ In x l.
Proof.
  induction l as [| v' l IH]; cbn.
  - intuition.
  - destruct (snd (fst v') <=? snd (fst v))%Z; cbn; rewrite ?IH; intuition.
Qed.

Lemma order_by_version_In l x : In x (order_by_version l) <-> In x l.
Proof.
  induction l as [| v l IH]; cbn; [reflexivity |].
  rewrite insert_by_version_In, IH. intuition.
Qed.

Lemma insert_by_version_sorted v l :
  StronglySorted later_version l ->
  StronglySorted later_version (insert_by_version v l).
Proof.
  induction 1 as [| v' l Hsorted IH Hall]; cbn.
  - repeat constructor.
  - destruct (snd (fst v') <=? snd (fst v))%Z eqn:Hle.
    + apply Z.leb_le in Hle. constructor; [now constructor |].
      constructor; [exact Hle |].
      revert Hall. apply Forall_impl. unfold later_version. intros; lia.
    + apply Z.leb_gt in Hle. constructor; [exact IH |].
      apply Forall_forall. intros x Hx.
      apply insert_by_version_In in Hx as [-> | Hx].
      * unfold later_version. lia.
      * rewrite Forall_forall in Hall. now apply Hall.
Qed.

Lemma order_by_version_sorted l :
  StronglySorted later_version (order_by_version l).
Proof.
  induction l as [| v l IH]; cbn; [constructor |].
  now apply insert_by_version_sorted.
Qed.

Lemma insert_by_version_length v l :
  List.length (insert_by_version v l) = S (List.length l).
Proof.
  induction l as [| v' l IH]; cbn; [reflexivity |].
  destruct (snd (fst v') <=? snd (fst v))%Z; cbn; [reflexivity |].
  now rewrite IH.
Qed.

Lemma order_by_version_length l :
  List.length (order_by_version l) = List.length l.
Proof.
  induction l as [| v l IH]; cbn; [reflexivity |].
  now rewrite insert_by_version_length, IH.
Qed.

(** A stored id denotes itself. *)
Lemma denoted_stored failures ids text :
  In text ids -> denoted failures ids text = inr text.
Proof.
  intros Hin. unfold denoted.
  replace (existsb (String.eqb text) ids) with true; [reflexivity |].
  symmetry. apply existsb_exists. exists text. split; [exact Hin |].
  apply String.eqb_refl.
Qed.

(** X20.  What [createModule] returns can be read back: in the state it
    leaves, [getModuleById] on the returned id gives the returned
    module, provided that id was not in use; [getModuleBySlug] on the
    slug of the title gives it too, provided no other module has that
    slug; and when the version insert was accepted,
    [getModuleVersions] lists the initial version, 1. *)
Theorem created_module_can_be_read_back
  (env : Env) (failures : Failures) (input : CreateModuleInput.t)
  (s s' : State) (module : Module_) (aiResult : AIPipelineResult.t) :
  createModule env input s = (s', inr (module, aiResult)) ->
  (forall t, select_error failures t = None) ->
  (forall m, In m (stored_modules (db s)) -> fst m <> fst module) ->
  snd (getModuleById failures (fst module) s') = inr (Some module)
  /\ ModuleData.slug (snd module)
     = generateSlug (CreateModuleInput.title input)
  /\ ((forall m, In m (stored_modules (db s)) ->
                 ModuleData.slug (snd m) <> ModuleData.slug (snd module)) ->
      snd (getModuleBySlug failures
             (generateSlug (CreateModuleInput.title input)) s')
      = inr (Some module))
  /\ (insert_error env module_versions
        (VersionRow (fst module) 1%Z "Initial version") = None ->
      (forall v, In v (stored_versions (db s)) -> fst (fst v) <> fst module) ->
      snd (getModuleVersions failures (fst module) s')
      = inr [(fst module, 1%Z, "Initial version")]).
Proof.
  intros Hcreated Hselect Hfresh.
  destruct (@createModule_ok_inv env input s s' module aiResult Hcreated)
    as (s1 & keywords & _ & _ & Hmodule & Hmodules & _ & Hversions).
  assert (Hslug : ModuleData.slug (snd module)
                  = generateSlug (CreateModuleInput.title input))
    by (rewrite Hmodule; reflexivity).
  split; [| split; [exact Hslug | split]].
  - unfold getModuleById, get_db. unfold_bind.
    rewrite (@denoted_stored failures _ (fst module))
      by (rewrite Hmodules, map_app; apply in_or_app; right; now left).
    rewrite (@select_single_unique failures _ (db s') module (Hselect _));
      [reflexivity |].
    rewrite Hmodules, filter_app. cbn [filter].
    rewrite String.eqb_refl, filter_none; [reflexivity |].
    intros m Hm. apply String.eqb_neq. now apply Hfresh.
  - intros Hunique. unfold getModuleBySlug, get_db. unfold_bind.
    rewrite (@select_single_unique failures _ (db s') module (Hselect _));
      [reflexivity |].
    rewrite Hmodules, filter_app. cbn [filter].
    rewrite <- Hslug, String.eqb_refl, filter_none; [reflexivity |].
    intros m Hm. apply String.eqb_neq. now apply Hunique.
  - intros Haccepted Hnone. unfold getModuleVersions, get_db. unfold_bind.
    rewrite Hselect, Hversions, Haccepted. cbn [stored_unless].
    rewrite (@denoted_stored failures _ (fst module))
      by (rewrite map_app; apply in_or_app; right; now left).
    rewrite filter_app. cbn [filter fst]. rewrite String.eqb_refl.
    rewrite filter_none; [reflexivity |].
    intros v Hv. apply String.eqb_neq. now apply Hnone.
Qed.

Lemma created_module_can_be_read_back_witness :
  exists module,
    snd (getModuleBySlug Scenario.answering
           "understanding-react-hooks"
           (fst (createModule Sample.happy Sample.input initial)))
    = inr (Some module)
    /\ fst module = "module-0".
Proof.
  assert (Hcreated : exists s' module aiResult,
             createModule Sample.happy Sample.input initial
             = (s', inr (module, aiResult)) /\ fst module = "module-0").
  { eexists. eexists. eexists. vm_compute. split; reflexivity. }
  destruct Hcreated as (s' & module & aiResult & Hcreated & Hid).
  exists module. split; [| exact Hid].
  rewrite Hcreated. cbn [fst].
  apply (@created_module_can_be_read_back Sample.happy
           Scenario.answering Sample.input initial s'
           module aiResult Hcreated);
    try reflexivity; intros m [].
Defined.

(** The rows of a search are stored modules with a stored embedding. *)
Lemma search_rows_are_indexed env d query threshold count rows r :
  search_modules_by_embedding env d query (Some threshold) (Some count)
  = inr rows ->
  In r rows ->
  In (SearchRow.module r) (stored_modules d)
  /\ exists e, In (fst (SearchRow.module r), e) (stored_embeddings d).
Proof.
  intros Hrows Hin.
  destruct (@search_row_passed_filter env d query threshold count rows r
              Hrows Hin) as [(Hstored & e & He & _) _].
  eauto.
Qed.

Lemma deleteModule_run failures id uuid s :
  delete_error failures = None ->
  denoted failures (map fst (stored_modules (db s))) id = inr uuid ->
  deleteModule failures id s
  = (mkState (trace s) (openaiClient s)
       (mkDatabase
          (filter (fun m => negb (String.eqb (fst m) uuid))
             (stored_modules (db s)))
          (filter (fun e => negb (String.eqb (fst e) uuid))
             (stored_embeddings (db s)))
          (filter (fun v => negb (String.eqb (fst (fst v)) uuid))
             (stored_versions (db s)))),
     inr tt).
Proof.
  intros Hdelete Hdenoted. unfold deleteModule, get_db. unfold_bind.
  now rewrite Hdelete, Hdenoted.
Qed.

(** A text that is not a stored id is read by the input function. *)
Lemma denoted_unknown failures ids text :
  ~ In text ids -> denoted failures ids text = uuid_in failures text.
Proof.
  intros Hunknown. unfold denoted.
  destruct (existsb (String.eqb text) ids) eqn:Hstored; [| reflexivity].
  apply existsb_exists in Hstored as (id & Hin & Heq).
  apply String.eqb_eq in Heq. subst id. contradiction.
Qed.

(** What a text denotes does not change when rows with another id
    are deleted. *)
Lemma denoted_after_delete failures (ids : list string) uuid text uuid' :
  denoted failures ids text = inr uuid' ->
  uuid' <> uuid ->
  denoted failures
    (filter (fun id => negb (String.eqb id uuid)) ids) text
  = inr uuid'.
Proof.
  intros Hdenoted Hother. unfold denoted in *.
  destruct (existsb (String.eqb text) ids) eqn:Hstored.
  - injection Hdenoted as <-.
    apply existsb_exists in Hstored as (id & Hin & Heq).
    apply String.eqb_eq in Heq. subst id.
    replace (existsb _ _) with true; [reflexivity |].
    symmetry. apply existsb_exists. exists text.
    split; [| apply String.eqb_refl].
    apply filter_In. split; [exact Hin |].
    now apply Bool.negb_true_iff, String.eqb_neq.
  - replace (existsb _ _) with false; [exact Hdenoted |].
    symmetry. apply Bool.not_true_is_false. intros Hkept.
    apply existsb_exists in Hkept as (id & Hin & Heq).
    apply filter_In in Hin as [Hin _].
    assert (existsb (String.eqb text) ids = true)
      by (apply existsb_exists; eauto).
    congruence.
Qed.

(** Deleting the rows of one id keeps the rows of another. *)
Lemma filter_other {A} (uuid uuid' : string) (l : list (string * A)) :
  uuid' <> uuid ->
  filter (fun m => String.eqb (fst m) uuid')
    (filter (fun m => negb (String.eqb (fst m) uuid)) l)
  = filter (fun m => String.eqb (fst m) uuid') l.
Proof.
  intros Hother. induction l as [| m l IH]; cbn; [reflexivity |].
  destruct (String.eqb (fst m) uuid) eqn:Hid; cbn; rewrite IH.
  - apply String.eqb_eq in Hid.
    replace (String.eqb (fst m) uuid') with false; [reflexivity |].
    symmetry. apply String.eqb_neq. congruence.
  - reflexivity.
Qed.

Lemma map_fst_filter {A} (uuid : string) (l : list (string * A)) :
  map fst (filter (fun m => negb (String.eqb (fst m) uuid)) l)
  = filter (fun id => negb (String.eqb id uuid)) (map fst l).
Proof.
  induction l as [| m l IH]; cbn; [reflexivity |].
  destruct (String.eqb (fst m) uuid); cbn; now rewrite IH.
Qed.

Lemma filter_filter_negb {A} (f : A -> bool) (l : list A) :
  filter f (filter (fun x => negb (f x)) l) = [].
Proof.
  apply filter_none. intros x Hx. apply filter_In in Hx as [_ Hx].
  now apply Bool.negb_true_iff in Hx.
Qed.

Lemma filter_idempotent {A} (f : A -> bool) (l : list A) :
  filter f (filter f l) = filter f l.
Proof.
  apply filter_all. intros x Hx. now apply filter_In in Hx as [_ Hx].
Qed.

Lemma filter_comm {A} (f g : A -> bool) (l : list A) :
  filter f (filter g l) = filter g (filter f l).
Proof.
  induction l as [| x l IH]; cbn; [reflexivity |].
  destruct (f x) eqn:Hf, (g x) eqn:Hg; cbn; rewrite ?Hf, ?Hg, IH; reflexivity.
Qed.

(** X21.  Deleting a module removes it with its embedding and version
    rows.  The id is compared by value: the text given may be another
    spelling of the stored id, and a text that spells no id makes the
    deletion fail, as does an error of the database, with "Failed to
    delete module: " before the message.  Afterwards no module, no
    embedding and no version has the id, the other rows are as they
    were, [getModuleById] answers [null] for the id, no semantic search
    returns it, and the lookup of a text that denotes another id is as
    before.  Deleting succeeds also when no module has the id, then
    leaving the modules as they are, and deleting twice is deleting
    once. *)
Theorem deleted_module_is_gone
  (env : Env) (failures : Failures) (id : string) (s : State) :
  let s' := fst (deleteModule failures id s) in
  let read := denoted failures (map fst (stored_modules (db s))) id in
  (forall message,
      delete_error failures = Some message \/ read = inl message ->
      exists cause,
        deleteModule failures id s
        = (s, inl (Error ("Failed to delete module: " ++ cause))))
  /\ (forall uuid,
         delete_error failures = None ->
         read = inr uuid ->
         snd (deleteModule failures id s) = inr tt
         /\ (forall m, In m (stored_modules (db s'))
                       <-> In m (stored_modules (db s)) /\ fst m <> uuid)
         /\ (forall e, In e (stored_embeddings (db s'))
                       <-> In e (stored_embeddings (db s)) /\ fst e <> uuid)
         /\ (forall v, In v (stored_versions (db s'))
                       <-> In v (stored_versions (db s))
                           /\ fst (fst v) <> uuid)
         /\ (forall text uuid',
                denoted failures (map fst (stored_modules (db s))) text
                = inr uuid' ->
                uuid' <> uuid ->
                snd (getModuleById failures text s')
                = snd (getModuleById failures text s))
         /\ (forall input s'' rows,
                semanticSearch env input s' = (s'', inr rows) ->
                Forall (fun r => fst (SearchRow.module r) <> uuid) rows)
         /\ ((forall m, In m (stored_modules (db s)) -> fst m <> uuid) ->
             stored_modules (db s') = stored_modules (db s))
         /\ (uuid_in failures uuid = inr uuid ->
             snd (getModuleById failures uuid s') = inr None
             /\ deleteModule failures uuid s' = (s', inr tt))).
Proof.
  cbv zeta. split.
  { intros message Hfails. unfold deleteModule, get_db. unfold_bind.
    destruct (delete_error failures) as [message' |];
      [eexists; reflexivity |].
    destruct Hfails as [Hfails | ->]; [discriminate | eexists; reflexivity]. }
  intros uuid Hdelete Hdenoted.
  rewrite (@deleteModule_run failures id uuid s Hdelete Hdenoted).
  cbn [fst snd db stored_modules stored_embeddings stored_versions].
  assert (Hgone : ~ In uuid
                      (map fst
                         (filter (fun m : Module_ =>
                                    negb (String.eqb (fst m) uuid))
                            (stored_modules (db s))))).
  { intros Hin. apply in_map_iff in Hin as (m & Hid & Hin).
    apply filter_In in Hin as [_ Hin].
    apply Bool.negb_true_iff, String.eqb_neq in Hin. contradiction. }
  split; [reflexivity |].
  split.
  { intros m. rewrite filter_In, Bool.negb_true_iff, String.eqb_neq.
    reflexivity. }
  split.
  { intros e. rewrite filter_In, Bool.negb_true_iff, String.eqb_neq.
    reflexivity. }
  split.
  { intros v. rewrite filter_In, Bool.negb_true_iff, String.eqb_neq.
    reflexivity. }
  split.
  { intros text uuid' Htext Hother.
    unfold getModuleById, get_db. unfold_bind.
    cbn [db stored_modules]. rewrite Htext.
    unfold Module_ in *. rewrite map_fst_filter.
    rewrite (@denoted_after_delete failures _ uuid text uuid' Htext Hother).
    unfold select_single, Module_. cbn [snd stored_modules].
    now rewrite (@filter_other _ uuid uuid' (stored_modules (db s)) Hother). }
  split.
  { intros input s'' rows Hsearch.
    destruct (@semanticSearch_returns_search_rows env input _ s'' rows Hsearch)
      as (queryEmbedding & threshold & limit & Hrows & _).
    apply Forall_forall. intros r Hr.
    destruct (@search_rows_are_indexed env _ _ _ _ rows r Hrows Hr)
      as [Hstored _].
    cbn [db stored_modules] in Hstored.
    apply filter_In in Hstored as [_ Hstored].
    now apply Bool.negb_true_iff, String.eqb_neq in Hstored. }
  split.
  { intros Hunknown. apply filter_all.
    intros m Hm. apply Bool.negb_true_iff, String.eqb_neq. now apply Hunknown. }
  intros Hprinted.
  assert (Hread : denoted failures
                    (map fst
                       (filter (fun m : Module_ =>
                                  negb (String.eqb (fst m) uuid))
                          (stored_modules (db s)))) uuid = inr uuid)
    by (rewrite (@denoted_unknown failures _ uuid Hgone); exact Hprinted).
  split.
  { unfold getModuleById, get_db, select_single. unfold_bind.
    cbn [db stored_modules]. unfold Module_ in *. rewrite Hread. cbn [snd].
    rewrite filter_filter_negb.
    destruct (select_error failures modules); reflexivity. }
  match goal with
  | |- deleteModule _ _ ?state = _ =>
      rewrite (@deleteModule_run failures uuid uuid state Hdelete Hread)
  end.
  cbn [trace openaiClient db stored_modules stored_embeddings stored_versions].
  now rewrite !filter_idempotent.
Qed.

(** The second module of the library is deleted under an upper-case
    spelling of its id. *)
Lemma deleted_module_is_gone_witness :
  map fst
    (stored_modules
       (db (fst (deleteModule Scenario.answering
                   "FFFFFFFF-1234-5678-9ABC-0123456789AB"
                   (mkState [] false Scenario.library)))))
  = ["0a1b2c3d-1234-5678-9abc-0123456789ab"]
  /\ snd (getModuleById Scenario.answering
            "ffffffff-1234-5678-9abc-0123456789ab"
            (fst (deleteModule Scenario.answering
                    "FFFFFFFF-1234-5678-9ABC-0123456789AB"
                    (mkState [] false Scenario.library))))
     = inr None.
Proof.
  split; [reflexivity |].
  apply (proj2 (deleted_module_is_gone Sample.happy Scenario.answering
                  "FFFFFFFF-1234-5678-9ABC-0123456789AB"
                  (mkState [] false Scenario.library))
           "ffffffff-1234-5678-9abc-0123456789ab");
    reflexivity.
Defined.

(** X22.  [getModuleVersions] lists exactly the stored versions of the
    module whose id the text denotes, latest first.  Unlike the lookups
    of a module, which answer an error of the database with [null], it
    throws "Failed to get module versions: " with the database's
    message, also for a text that spells no id. *)
Theorem getModuleVersions_lists_latest_first
  (failures : Failures) (moduleId : string) (s : State) :
  let read :=
    denoted failures
      (map (fun v : Version => fst (fst v)) (stored_versions (db s)))
      moduleId in
  (forall message,
      select_error failures module_versions = Some message ->
      getModuleVersions failures moduleId s
      = (s, inl (Error ("Failed to get module versions: " ++ message))))
  /\ (forall message,
         select_error failures module_versions = None ->
         read = inl message ->
         getModuleVersions failures moduleId s
         = (s, inl (Error ("Failed to get module versions: " ++ message))))
  /\ (forall message,
         select_error failures modules = Some message ->
         getModuleById failures moduleId s = (s, inr None)
         /\ getModuleBySlug failures moduleId s = (s, inr None))
  /\ (forall uuid,
         select_error failures module_versions = None ->
         read = inr uuid ->
         exists versions,
           getModuleVersions failures moduleId s = (s, inr versions)
           /\ (forall v, In v versions
                         <-> In v (stored_versions (db s))
                             /\ fst (fst v) = uuid)
           /\ StronglySorted later_version versions
           /\ List.length versions
              = List.length
                  (filter (fun v : Version => String.eqb (fst (fst v)) uuid)
                     (stored_versions (db s)))).
Proof.
  cbv zeta. split; [| split; [| split]].
  - intros message Hselect. unfold getModuleVersions, get_db. unfold_bind.
    now rewrite Hselect.
  - intros message Hselect Hread.
    unfold getModuleVersions, get_db. unfold_bind.
    now rewrite Hselect, Hread.
  - intros message Hselect.
    unfold getModuleById, getModuleBySlug, get_db, select_single. unfold_bind.
    rewrite Hselect. split; [| reflexivity].
    destruct (denoted failures _ moduleId); reflexivity.
  - intros uuid Hselect Hread.
    unfold getModuleVersions, get_db. unfold_bind.
    rewrite Hselect, Hread. eexists. split; [reflexivity |].
    split; [| split].
    + intros v. rewrite order_by_version_In, filter_In, String.eqb_eq.
      reflexivity.
    + apply order_by_version_sorted.
    + apply order_by_version_length.
Qed.

(** The two versions of the first module of the library, asked for
    under an upper-case spelling of its id. *)
Lemma getModuleVersions_lists_latest_first_witness :
  exists versions,
    snd (getModuleVersions Scenario.answering
           "0A1B2C3D-1234-5678-9ABC-0123456789AB"
           (mkState [] false Scenario.library))
    = inr versions
    /\ List.length versions = 2
    /\ StronglySorted later_version versions.
Proof.
  destruct (proj2 (proj2 (proj2 (getModuleVersions_lists_latest_first
                                   Scenario.answering
                                   "0A1B2C3D-1234-5678-9ABC-0123456789AB"
                                   (mkState [] false Scenario.library))))
              "0a1b2c3d-1234-5678-9abc-0123456789ab" eq_refl eq_refl)
    as (versions & Hrun & _ & Hsorted & Hlength).
  exists versions. rewrite Hrun. auto.
Defined.

(* ================================================================== *)
(** * The module routes and the cost route *)
(* ================================================================== *)

Lemma Qred_inject_Z (n : Z) : Qred (inject_Z n) = inject_Z n.
Proof.
  unfold Qred, inject_Z.
  pose proof (Z.ggcd_gcd n 1) as Hg.
  pose proof (Z.ggcd_correct_divisors n 1) as Hd.
  destruct (Z.ggcd n 1) as [g [r1 r2]]. cbn in Hg, Hd.
  rewrite Z.gcd_1_r in Hg. subst g. destruct Hd as [H1 H2].
  rewrite Z.mul_1_l in H1, H2. subst. reflexivity.
Qed.

Lemma is_integer_value (q : Q) :
  is_integer q = true -> (q == inject_Z (Qnum (Qred q)))%Q.
Proof.
  unfold is_integer. intros Hden. apply Z.eqb_eq in Hden.
  rewrite <- (Qred_correct q) at 1.
  destruct (Qred q) as [n d]. cbn in *.
  injection Hden as ->. reflexivity.
Qed.

Lemma limit_schema_bounds (v : json) (l : Z) :
  limit_schema v = Some l -> (1 <= l <= 100)%Z.
Proof.
  destruct v as [| | [q |] | | |]; try discriminate. cbn [limit_schema].
  destruct (is_integer q) eqn:Hint; [| discriminate].
  destruct (Qle_bool 1 q) eqn:H1; [| discriminate].
  destruct (Qle_bool q 100) eqn:H100; [| discriminate].
  intros [= <-]. apply Qle_bool_iff in H1, H100.
  rewrite (is_integer_value _ Hint) in H1, H100.
  unfold Qle in H1, H100. cbn in H1, H100. lia.
Qed.

Lemma threshold_schema_bounds (v : json) (t : Q) :
  threshold_schema v = Some t -> (0 <= t)%Q /\ (t <= 1)%Q.
Proof.
  destruct v as [| | [q |] | | |]; try discriminate. cbn [threshold_schema].
  destruct (Qle_bool 0 q) eqn:H0; [| discriminate].
  destruct (Qle_bool q 1) eqn:H1; [| discriminate].
  intros [= <-]. now apply Qle_bool_iff in H0, H1.
Qed.

Lemma SemanticSearchSchema_parse_inv body input :
  SemanticSearchSchema_parse body = Some input ->
  SemanticSearchInput.query input <> ""
  /\ (1 <= limit_or_default input <= 100)%Z
  /\ (0 < threshold_or_default input)%Q
  /\ (threshold_or_default input <= 1)%Q.
Proof.
  unfold SemanticSearchSchema_parse.
  destruct body as [[| | | | | o] |]; try discriminate.
  destruct (get o "query") as [[| | | query | |] |]; try discriminate.
  unfold optional.
  destruct (get o "limit") as [limit |].
  - destruct (limit_schema limit) as [l |] eqn:Hlimit; [| discriminate].
    apply limit_schema_bounds in Hlimit.
    destruct (get o "threshold") as [threshold |].
    + destruct (threshold_schema threshold) as [t |] eqn:Hthreshold;
        [| discriminate].
      apply threshold_schema_bounds in Hthreshold as [H0 H1].
      destruct (1 <=? String.length query) eqn:Hquery; [| discriminate].
      intros [= <-].
      unfold limit_or_default, threshold_or_default.
      cbn [SemanticSearchInput.query SemanticSearchInput.limit
             SemanticSearchInput.threshold].
      split; [intros ->; discriminate |].
      split; [destruct (l =? 0)%Z eqn:Hl; [apply Z.eqb_eq in Hl |]; lia |].
      destruct (Qeq_bool t 0) eqn:Ht; [split; [reflexivity | discriminate] |].
      split; [| exact H1].
      apply Qle_lt_or_eq in H0 as [Hlt | Heq]; [exact Hlt |].
      symmetry in Heq. apply Qeq_bool_iff in Heq. congruence.
    + destruct (1 <=? String.length query) eqn:Hquery; [| discriminate].
      intros [= <-].
      unfold limit_or_default, threshold_or_default.
      cbn [SemanticSearchInput.query SemanticSearchInput.limit
             SemanticSearchInput.threshold].
      split; [intros ->; discriminate |].
      split; [destruct (l =? 0)%Z eqn:Hl; [apply Z.eqb_eq in Hl |]; lia |].
      split; [reflexivity | discriminate].
  - destruct (get o "threshold") as [threshold |].
    + destruct (threshold_schema threshold) as [t |] eqn:Hthreshold;
        [| discriminate].
      apply threshold_schema_bounds in Hthreshold as [H0 H1].
      destruct (1 <=? String.length query) eqn:Hquery; [| discriminate].
      intros [= <-].
      unfold limit_or_default, threshold_or_default.
      cbn [SemanticSearchInput.query SemanticSearchInput.limit
             SemanticSearchInput.threshold].
      split; [intros ->; discriminate |].
      split; [lia |].
      destruct (Qeq_bool t 0) eqn:Ht; [split; [reflexivity | discriminate] |].
      split; [| exact H1].
      apply Qle_lt_or_eq in H0 as [Hlt | Heq]; [exact Hlt |].
      symmetry in Heq. apply Qeq_bool_iff in Heq. congruence.
    + destruct (1 <=? String.length query) eqn:Hquery; [| discriminate].
      intros [= <-].
      unfold limit_or_default, threshold_or_default.
      cbn [SemanticSearchInput.query SemanticSearchInput.limit
             SemanticSearchInput.threshold].
      split; [intros ->; discriminate |].
      split; [lia |]. split; [reflexivity | discriminate].
Qed.

Lemma search_modules_by_embedding_length env d query threshold count rows :
  search_modules_by_embedding env d query (Some threshold) (Some count)
  = inr rows ->
  List.length rows <= Z.to_nat count.
Proof.
  intros Hrows.
  apply search_modules_by_embedding_rows in Hrows as (_ & _ & ->).
  rewrite length_map, firstn_length_bounds. lia.
Qed.

(** X23.  The handler of POST /api/modules/search always answers, and
    only reads.  The body is checked first: a body that fails the
    schema, as one with limit 0, is answered with 400 and nothing is
    sent.  Every call of the search function it makes carries a query
    vector of 3072 components, a count between 1 and 100 and a
    threshold above 0 and at most 1, and a 200 answer reports as many
    results as it holds, 100 at most. *)
Theorem post_search_sends_bounded_searches
  (env : Env) (body : value) (s : State) :
  let run := post_search env body s in
  let sent := added (List.length (trace s)) (fst run) in
  (exists response,
      snd run = inr response
      /\ match response with
         | SearchOk200 query results count =>
             query <> "" /\ count = List.length results /\ count <= 100
         | SearchBadRequest400 => fst run = s
         | SearchServerError500 _ => True
         end)
  /\ Forall search_event_in_bounds sent
  /\ db (fst run) = db s
  /\ (forall o,
         body = Some (JObj o) ->
         get o "limit" = Some (JNum (Fin 0)) ->
         run = (s, inr SearchBadRequest400)).
Proof.
  cbv zeta.
  assert (Hnothing : added (List.length (trace s)) s = []).
  { apply (@added_app s s []). now rewrite app_nil_r. }
  split; [| split; [| split]].
  - unfold post_search.
    destruct (SemanticSearchSchema_parse body) as [input |] eqn:Hparse;
      [| eexists; split; reflexivity].
    destruct (SemanticSearchSchema_parse_inv _ Hparse)
      as (Hquery & Hlimit & _).
    unfold_bind. rewrite semanticSearch_run.
    destruct (generateEmbeddings env _ s) as [s1 [e | queryEmbedding]];
      [eexists; split; [reflexivity | exact I] |].
    destruct (rpc_error env);
      [eexists; split; [reflexivity | exact I] |].
    destruct (search_modules_by_embedding env _ _ _ _) as [message | rows]
      eqn:Hrows; [eexists; split; [reflexivity | exact I] |].
    eexists. split; [reflexivity |].
    apply search_modules_by_embedding_length in Hrows.
    split; [exact Hquery |]. split; [reflexivity | lia].
  - unfold post_search.
    destruct (SemanticSearchSchema_parse body) as [input |] eqn:Hparse;
      [| cbn [ret fst]; rewrite Hnothing; constructor].
    destruct (SemanticSearchSchema_parse_inv _ Hparse)
      as (_ & Hlimit & Hpositive & Hbound).
    unfold_bind. rewrite semanticSearch_run.
    destruct (generateEmbeddings_effect env (SemanticSearchInput.query input) s)
      as [_ Htrace].
    destruct (generateEmbeddings env (SemanticSearchInput.query input) s)
      as [s1 [e | queryEmbedding]] eqn:Hembedded; cbn [fst] in Htrace.
    + cbn [fst]. destruct Htrace as [Htrace | Htrace].
      * rewrite <- (app_nil_r (trace s)) in Htrace.
        rewrite (@added_app s s1 _ Htrace). constructor.
      * rewrite (@added_app s s1 _ Htrace). repeat constructor.
    + destruct (generateEmbeddings_ok_inv _ _ _ Hembedded)
        as (Hlength & _ & Htrace' & _).
      assert (Hsent : forall outcome : exn + SearchResponse,
                 Forall search_event_in_bounds
                   (added (List.length (trace s))
                      (fst (record s1
                              (Rpc queryEmbedding (threshold_or_default input)
                                 (limit_or_default input)),
                            outcome)))).
      { intros outcome. cbn [fst].
        rewrite (@added_app s (record s1 _)
                   [Invoke Embeddings
                      (cleanedContent (SemanticSearchInput.query input));
                    Rpc queryEmbedding (threshold_or_default input)
                      (limit_or_default input)]
                   ltac:(cbn [record trace];
                         now rewrite Htrace', <- app_assoc)).
        constructor; [reflexivity |]. constructor; [| constructor].
        cbn. destruct Hlimit. repeat split; assumption. }
      destruct (rpc_error env); [apply Hsent |].
      destruct (search_modules_by_embedding env _ _ _ _); apply Hsent.
  - unfold post_search.
    destruct (SemanticSearchSchema_parse body) as [input |]; [| reflexivity].
    unfold_bind. rewrite semanticSearch_run.
    destruct (generateEmbeddings_effect env (SemanticSearchInput.query input) s)
      as [Hdb _].
    destruct (generateEmbeddings env (SemanticSearchInput.query input) s)
      as [s1 [e | queryEmbedding]]; cbn [fst] in *; [exact Hdb |].
    destruct (rpc_error env); [exact Hdb |].
    destruct (search_modules_by_embedding env _ _ _ _); exact Hdb.
  - intros o -> Hlimit. unfold post_search, SemanticSearchSchema_parse.
    rewrite Hlimit. cbn [optional limit_schema].
    destruct (get o "query") as [[| | | query | |] |]; reflexivity.
Qed.

Lemma post_search_sends_bounded_searches_witness :
  post_search Sample.happy
    (Some (JObj [("query", JStr "react hooks"); ("limit", JNum (Fin 0))]))
    initial
  = (initial, inr SearchBadRequest400).
Proof.
  apply (proj2 (proj2 (proj2 (post_search_sends_bounded_searches
                                Sample.happy
                                (Some (JObj [("query", JStr "react hooks");
                                             ("limit", JNum (Fin 0))]))
                                initial)))
           [("query", JStr "react hooks"); ("limit", JNum (Fin 0))]);
    reflexivity.
Defined.

Lemma createModule_rejects_db env input s e :
  snd (createModule env input s) = inl e ->
  db (fst (createModule env input s)) = db s.
Proof.
  destruct (processMarkdownWithAI_effect env
              (CreateModuleInput.markdownContent input) s) as (Hdb & _).
  unfold createModule, get_db. unfold_bind.
  destruct (processMarkdownWithAI env _ s) as [s1 [e1 | aiResult]];
    cbn [fst snd] in *; [intros _; exact Hdb |].
  destruct (num_lt _ (Fin 70)); [intros _; exact Hdb |].
  destruct (AIPipelineResult.seo_keywords aiResult);
    try (intros _; exact Hdb).
  unfold_bind. rewrite supabase_insert_run.
  destruct (insert_error env modules _); [intros _; exact Hdb |].
  unfold_bind. rewrite (supabase_insert_run env module_embeddings).
  destruct (insert_error env module_embeddings _); unfold_bind;
    rewrite (supabase_insert_run env module_versions);
    destruct (insert_error env module_versions _); discriminate.
Qed.

Lemma string_schema_bounds min max v x :
  string_schema min max v = Some x ->
  v = JStr x /\ min <= String.length x
  /\ match max with
     | Some n => String.length x <= n
     | None => True
     end.
Proof.
  destruct v; try discriminate. cbn [string_schema].
  destruct (min <=? String.length s) eqn:Hmin; [| discriminate].
  apply Nat.leb_le in Hmin. destruct max as [n |].
  - destruct (String.length s <=? n) eqn:Hmax; [| discriminate].
    apply Nat.leb_le in Hmax. intros [= <-]. auto.
  - intros [= <-]. auto.
Qed.

Lemma CreateModuleSchema_parse_inv is_url body input :
  CreateModuleSchema_parse is_url body = Some input ->
  1 <= String.length (CreateModuleInput.title input) <= 200
  /\ 10 <= String.length (CreateModuleInput.markdownContent input)
  /\ exists o,
       body = Some (JObj o)
       /\ get o "title" = Some (JStr (CreateModuleInput.title input))
       /\ get o "markdownContent"
          = Some (JStr (CreateModuleInput.markdownContent input)).
Proof.
  unfold CreateModuleSchema_parse.
  destruct body as [[| | | | | o] |]; try discriminate.
  destruct (get o "title") as [title |] eqn:Hget_title; [| discriminate].
  destruct (get o "markdownContent") as [content |] eqn:Hget_content;
    [| discriminate].
  destruct (string_schema 1 (Some 200) title) as [title' |] eqn:Htitle;
    [| discriminate].
  destruct (string_schema 10 None content) as [content' |] eqn:Hcontent;
    [| discriminate].
  apply string_schema_bounds in Htitle as (-> & Hmin & Hmax).
  apply string_schema_bounds in Hcontent as (-> & Hlong & _).
  destruct (optional _ (get o "owner")); [| discriminate].
  destruct (optional _ (get o "source_url")); [| discriminate].
  destruct (optional _ (get o "source_label")); [| discriminate].
  intros [= <-]. cbn. split; [lia |]. split; [exact Hlong |].
  exists o. auto.
Qed.

(** X24.  The handler of POST /api/modules/create always answers.  A
    body whose content has fewer than 10 characters, or whose title is
    empty or longer than 200, is answered with 400 before anything is
    sent or stored.  A 201 answer carries a module that is stored, as a
    draft, under a title of 1 to 200 characters, with the score the
    answer reports, which is 70 at least.  After a 500 answer the
    database is as it was. *)
Theorem post_create_validates_then_creates
  (env : Env) (is_url : string -> bool) (body : value) (s : State) :
  let run := post_create env is_url body s in
  (exists response,
      snd run = inr response
      /\ match response with
         | Created201 module quality_score _ _ =>
             In module (stored_modules (db (fst run)))
             /\ ModuleData.quality_score (snd module) = quality_score
             /\ num_le (Fin 70) quality_score = true
             /\ 1 <= String.length (ModuleData.title (snd module)) <= 200
             /\ ModuleData.status (snd module) = "draft"
         | CreateBadRequest400 => fst run = s
         | CreateServerError500 _ => db (fst run) = db s
         end)
  /\ (forall o content,
         body = Some (JObj o) ->
         get o "markdownContent" = Some (JStr content) ->
         String.length content < 10 ->
         run = (s, inr CreateBadRequest400))
  /\ (forall o title,
         body = Some (JObj o) ->
         get o "title" = Some (JStr title) ->
         title = "" \/ 200 < String.length title ->
         run = (s, inr CreateBadRequest400)).
Proof.
  cbv zeta. split; [| split].
  - unfold post_create.
    destruct (CreateModuleSchema_parse is_url body) as [input |] eqn:Hparse;
      [| eexists; split; reflexivity].
    destruct (CreateModuleSchema_parse_inv _ _ Hparse) as (Htitle & _).
    unfold_bind.
    pose proof (@createModule_rejects_db env input s) as Hrejects.
    pose proof (@createModule_ok_inv env input s) as Hcreated.
    destruct (createModule env input s) as [s' [e | [module aiResult]]];
      cbn [fst snd] in *.
    + eexists. split; [reflexivity |]. now apply (Hrejects e).
    + destruct (Hcreated s' module aiResult eq_refl)
        as (s1 & keywords & _ & Hscore & -> & Hmodules & _).
      eexists. split; [reflexivity |].
      cbn [fst snd module_row ModuleData.quality_score ModuleData.title
             ModuleData.status].
      split; [rewrite Hmodules; apply in_or_app; right; now left |].
      split; [reflexivity |].
      split; [now apply num_lt_false_le |]. split; [exact Htitle | reflexivity].
  - intros o content -> Hcontent Hshort.
    unfold post_create.
    destruct (CreateModuleSchema_parse is_url (Some (JObj o)))
      as [input |] eqn:Hparse; [| reflexivity].
    destruct (CreateModuleSchema_parse_inv _ _ Hparse)
      as (_ & Hlong & o' & [= <-] & _ & Hcontent').
    rewrite Hcontent in Hcontent'. injection Hcontent' as Hcontent'.
    rewrite <- Hcontent' in Hlong. lia.
  - intros o title -> Htitle Hbad.
    unfold post_create.
    destruct (CreateModuleSchema_parse is_url (Some (JObj o)))
      as [input |] eqn:Hparse; [| reflexivity].
    destruct (CreateModuleSchema_parse_inv _ _ Hparse)
      as (Hbounds & _ & o' & [= <-] & Htitle' & _).
    rewrite Htitle in Htitle'. injection Htitle' as Htitle'.
    rewrite <- Htitle' in Hbounds. destruct Hbad as [-> | Hbad]; cbn in *; lia.
Qed.

Lemma post_create_validates_then_creates_witness :
  post_create Sample.happy (fun _ => true)
    (Some (JObj [("title", JStr "Hooks"); ("markdownContent", JStr "# Hooks")]))
    initial
  = (initial, inr CreateBadRequest400).
Proof.
  apply (proj1 (proj2 (post_create_validates_then_creates
                         Sample.happy (fun _ => true)
                         (Some (JObj [("title", JStr "Hooks");
                                      ("markdownContent", JStr "# Hooks")]))
                         initial))
           [("title", JStr "Hooks"); ("markdownContent", JStr "# Hooks")]
           "# Hooks");
    [reflexivity | reflexivity | cbn; lia].
Defined.

(** ** Lookup by identifier *)

Lemma select_single_inv failures matching d data :
  select_single failures matching d = Some data ->
  In data (stored_modules d) /\ matching data = true.
Proof.
  unfold select_single. destruct (select_error failures modules);
    [discriminate |].
  destruct (filter matching (stored_modules d)) as [| m [| m' l]] eqn:Hfilter;
    try discriminate.
  intros [= <-]. apply filter_In. rewrite Hfilter. now left.
Qed.

(** X25.  The handler of GET /api/modules/:identifier leaves the
    database as it is, and always answers.  It looks the identifier up
    among the ids when it has the form of a UUID, in either case of the
    letters, and among the slugs otherwise, never both: a 200 answer
    carries a stored module whose id is the one the identifier
    denotes, which may be spelled otherwise, or whose slug is the
    identifier; and a module whose slug has the form of a UUID is not
    found by its slug. *)
Theorem get_module_resolves_identifier_by_form
  (failures : Failures) (identifier : string) (s : State) :
  let run := get_module failures identifier s in
  let read := denoted failures (map fst (stored_modules (db s))) identifier in
  db (fst run) = db s
  /\ (exists response, snd run = inr response)
  /\ (forall data,
         snd run = inr (ModuleOk200 data) ->
         In data (stored_modules (db s))
         /\ if isUUID identifier then read = inr (fst data)
            else ModuleData.slug (snd data) = identifier)
  /\ (isUUID identifier = true ->
      (forall m, In m (stored_modules (db s)) -> read <> inr (fst m)) ->
      snd run = inr ModuleNotFound404).
Proof.
  cbv zeta. unfold get_module, getModuleById, getModuleBySlug, get_db.
  unfold_bind.
  destruct (isUUID identifier).
  - destruct (denoted failures _ identifier) as [message | uuid]; cbn.
    { split; [reflexivity |]. split; [eauto |].
      split; [discriminate | reflexivity]. }
    destruct (select_single failures _ (db s)) as [data |] eqn:Hone.
    + apply select_single_inv in Hone as [Hstored Hid].
      apply String.eqb_eq in Hid. cbn.
      split; [reflexivity |]. split; [eauto |]. split.
      * intros data' [= <-]. split; [exact Hstored | now rewrite Hid].
      * intros _ Hnone. destruct (Hnone _ Hstored). now rewrite Hid.
    + cbn. split; [reflexivity |]. split; [eauto |].
      split; [discriminate | reflexivity].
  - destruct (select_single failures _ (db s)) as [data |] eqn:Hone.
    + apply select_single_inv in Hone as [Hstored Hslug].
      apply String.eqb_eq in Hslug. cbn.
      split; [reflexivity |]. split; [eauto |]. split; [| discriminate].
      intros data' [= <-]. auto.
    + cbn. split; [reflexivity |]. split; [eauto |].
      split; discriminate.
Qed.

(** A module whose slug has the form of a UUID is not found by it. *)
Lemma get_module_resolves_identifier_by_form_witness :
  generateSlug "0a1b2c3d 1234 5678 9abc 0123456789ab"
  = "0a1b2c3d-1234-5678-9abc-0123456789ab"
  /\ snd (get_module Scenario.answering
            "0a1b2c3d-1234-5678-9abc-0123456789ab"
            (mkState [] false
               (mkDatabase
                  [("module-0",
                    Sample.module_data "0a1b2c3d 1234 5678 9abc 0123456789ab")]
                  [] [])))
     = inr ModuleNotFound404.
Proof.
  split; [reflexivity |].
  apply (proj2 (proj2 (proj2 (get_module_resolves_identifier_by_form
                                Scenario.answering
                                "0a1b2c3d-1234-5678-9abc-0123456789ab" _))));
    [reflexivity |].
  intros m [<- | []]. discriminate.
Defined.

(** ** The cost route *)

(** X26.  POST /api/ai/estimate-cost answers 200 exactly for a count
    that is a whole number from 1 to 10000: the estimate is then for
    that count, which is echoed, its total is 0.072 times the count,
    hence between 0.072 and 720 dollars.  Everything else, as 0, 2.5 or
    10001, is answered with 400. *)
Theorem post_estimate_cost_accepts_1_to_10000 (body : value) :
  match post_estimate_cost body with
  | EstimateOk200 estimate count =>
      exists n : Z,
        (count == inject_Z n)%Q /\ (1 <= n <= 10000)%Z
        /\ estimate = estimateProcessingCost count
        /\ (CostEstimate.total estimate == 0.072 * inject_Z n)%Q
        /\ (0.072 <= CostEstimate.total estimate)%Q
        /\ (CostEstimate.total estimate <= 720)%Q
  | EstimateBadRequest400 =>
      forall o n,
        body = Some (JObj o) ->
        get o "count" = Some (JNum (Fin (inject_Z n))) ->
        (n <= 0 \/ 10000 < n)%Z
  end.
Proof.
  unfold post_estimate_cost, EstimateCostSchema_parse.
  destruct body as [[| | | | | o] |];
    try (intros ? ? Hbody; discriminate Hbody).
  destruct (get o "count") as [[| | [q | negative] | | |] |] eqn:Hcount;
    try (intros ? ? [= <-] Hc; rewrite Hcount in Hc; discriminate Hc).
  destruct (is_integer q) eqn:Hint; cbn [andb].
  - destruct (Qle_bool q 0) eqn:H0; cbn [andb negb].
    + intros o' n [= <-] Hc. rewrite Hcount in Hc. injection Hc as ->.
      apply Qle_bool_iff in H0. unfold Qle in H0. cbn in H0. lia.
    + destruct (Qle_bool q 10000) eqn:Hmax.
      * apply Qle_bool_false_lt in H0. apply Qle_bool_iff in Hmax.
        pose proof (is_integer_value _ Hint) as Hvalue.
        set (n := Qnum (Qred q)) in *.
        assert (Hn : (1 <= n <= 10000)%Z).
        { rewrite Hvalue in H0, Hmax. unfold Qlt, Qle in *. cbn in *. lia. }
        exists n. split; [exact Hvalue |]. split; [exact Hn |].
        split; [reflexivity |].
        assert (Htotal : (CostEstimate.total (estimateProcessingCost q)
                          == 0.072 * inject_Z n)%Q).
        { change (CostEstimate.total (estimateProcessingCost q))
            with (CostEstimate.perModule (estimateProcessingCost q) * q)%Q.
          assert (Hper : (CostEstimate.perModule (estimateProcessingCost q)
                          == 0.072)%Q) by (vm_compute; reflexivity).
          rewrite Hper, Hvalue. reflexivity. }
        split; [exact Htotal |]. rewrite Htotal.
        unfold Qle. cbn -[Z.mul]. lia.
      * intros o' n [= <-] Hc. rewrite Hcount in Hc. injection Hc as ->.
        apply Qle_bool_false_lt in Hmax. unfold Qlt in Hmax. cbn in Hmax. lia.
  - intros o' n [= <-] Hc. rewrite Hcount in Hc. injection Hc as ->. exfalso.
    unfold is_integer in Hint. rewrite Qred_inject_Z in Hint. discriminate.
Qed.

Lemma post_estimate_cost_accepts_1_to_10000_witness :
  match post_estimate_cost (Some (JObj [("count", JNum (Fin 100))])) with
  | EstimateOk200 estimate _ => (CostEstimate.total estimate <= 720)%Q
  | EstimateBadRequest400 => False
  end.
Proof.
  pose proof (post_estimate_cost_accepts_1_to_10000
                (Some (JObj [("count", JNum (Fin 100))]))) as Hanswer.
  change (post_estimate_cost (Some (JObj [("count", JNum (Fin 100))])))
    with (EstimateOk200 (estimateProcessingCost 100) 100) in *.
  destruct Hanswer as (n & _ & _ & _ & _ & _ & Hmax). exact Hmax.
Defined.

(* ================================================================== *)
(** * More on the adapters *)
(* ================================================================== *)

Lemma lower_trim_all_length tags lowered :
  lower_trim_all tags = inr lowered ->
  List.length lowered = List.length tags.
Proof.
  revert lowered. induction tags as [| tag tags IH]; cbn; intros lowered.
  - now intros [= <-].
  - destruct tag; try discriminate.
    destruct (lower_trim_all tags) as [e | rest]; [discriminate |].
    intros [= <-]. cbn. now rewrite (IH rest eq_refl).
Qed.

Lemma lower_trim_all_In tags lowered tag :
  lower_trim_all tags = inr lowered ->
  In tag lowered ->
  exists given, In (JStr given) tags /\ tag = trim (toLowerCase given).
Proof.
  revert lowered. induction tags as [| x tags IH]; cbn; intros lowered.
  - intros [= <-] [].
  - destruct x as [| | | given | |]; try discriminate.
    destruct (lower_trim_all tags) as [e | rest]; [discriminate |].
    intros [= <-] [<- | Hin].
    + exists given. auto.
    + destruct (IH rest eq_refl Hin) as (given' & Hgiven & ->). eauto.
Qed.

Lemma first_five {A} (l : list A) :
  (if 5 <? List.length l then firstn 5 l else l) = firstn 5 l.
Proof.
  destruct (5 <? List.length l) eqn:Hlong; [reflexivity |].
  apply Nat.ltb_ge in Hlong. symmetry. now apply firstn_all2.
Qed.

(** X27.  The tags adapter only ever uses the first five tags of the
    agent's answer: what it returns are those of them that, lower-cased
    and trimmed, pass the test, in the agent's order.  A tag after the
    fifth is never used, so that an answer whose first five tags leave
    fewer than three valid ones is rejected with "Not enough valid
    tags after normalization" however many good tags follow; an answer
    with fewer than three tags is rejected with "Must have at least 3
    tags". *)
Theorem generateTags_uses_the_first_five
  (env : Env) (md : string) (s : State) (parsed : object)
  (given : list json) :
  snd (extract_json env Tags (request Tags md) s) = inr parsed ->
  get parsed "tags" = Some (JArr given) ->
  (List.length given < 3 ->
   snd (generateTags env md s)
   = inl (Error "Failed to generate tags: Must have at least 3 tags"))
  /\ (forall lowered,
         3 <= List.length given ->
         lower_trim_all (firstn 5 given) = inr lowered ->
         (List.length (filter valid_tag lowered) < 3 ->
          snd (generateTags env md s)
          = inl (Error
                   "Failed to generate tags: Not enough valid tags after normalization"))
         /\ (3 <= List.length (filter valid_tag lowered) ->
             snd (generateTags env md s) = inr (filter valid_tag lowered)
             /\ forall tag,
                  In tag (filter valid_tag lowered) ->
                  exists original,
                    In (JStr original) (firstn 5 given)
                    /\ tag = trim (toLowerCase original))).
Proof.
  intros Hparsed Htags. cbv beta iota delta [request] in Hparsed.
  unfold generateTags. unfold_bind.
  destruct (extract_json env Tags _ s) as [s1 o]. cbn [snd] in Hparsed.
  subst o. rewrite Htags. split.
  - intros Hfew. apply Nat.ltb_lt in Hfew. now rewrite Hfew.
  - intros lowered Hmany Hlowered.
    apply Nat.ltb_ge in Hmany. rewrite Hmany, first_five, Hlowered.
    fold valid_tag.
    change (filter (fun tag => (0 <? String.length tag) && test_tag tag)
              lowered) with (filter valid_tag lowered).
    split.
    + intros Hfew. apply Nat.ltb_lt in Hfew. now rewrite Hfew.
    + intros Henough. apply Nat.ltb_ge in Henough. rewrite Henough.
      split.
      * cbn [snd]. f_equal. apply firstn_all2.
        pose proof (filter_length_le valid_tag lowered) as Hle.
        rewrite (@lower_trim_all_length _ lowered Hlowered) in Hle.
        rewrite length_firstn in Hle. lia.
      * intros tag Hin. apply filter_In in Hin as [Hin _].
        now apply (@lower_trim_all_In _ lowered tag Hlowered).
Qed.

Lemma generateTags_uses_the_first_five_witness :
  snd (generateTags Scenario.six_tags Sample.document initial)
  = inl (Error
           "Failed to generate tags: Not enough valid tags after normalization").
Proof.
  apply (proj1 (proj2 (@generateTags_uses_the_first_five
                         Scenario.six_tags Sample.document initial
                         [ ("tags",
                            JArr [JStr "react"; JStr "web dev"; JStr "c++";
                                  JStr "hooks"; JStr "node.js";
                                  JStr "state"]) ]
                         [JStr "react"; JStr "web dev"; JStr "c++";
                          JStr "hooks"; JStr "node.js"; JStr "state"]
                         eq_refl eq_refl)
                  ["react"; "web dev"; "c++"; "hooks"; "node.js"]
                  ltac:(cbn; lia) eq_refl)).
  vm_compute. lia.
Defined.

(** ** The client of the embedding provider *)

Lemma generateEmbeddings_with_client env md s :
  openaiClient s = true ->
  generateEmbeddings env md s = generateEmbeddings (without_key env) md s.
Proof.
  intros Hclient.
  unfold generateEmbeddings, request_embedding, getOpenAIClient, try_catch,
    bind.
  now rewrite Hclient.
Qed.

Lemma generateEmbeddings_keeps_client env md s :
  openaiClient s = true ->
  openaiClient (fst (generateEmbeddings env md s)) = true.
Proof.
  intros Hclient. rewrite generateEmbeddings_state.
  unfold request_embedding, getOpenAIClient. unfold_bind. rewrite Hclient.
  destruct (String.eqb _ ""); [exact Hclient |].
  destruct (embeddings_create env _) as [e | [[| | | | components |] |]];
    try exact Hclient.
  destruct (negb _); exact Hclient.
Qed.

(** A run of the catch block is not a run that returns. *)
Ltac explained_failure :=
  let Hrun := fresh "Hrun" in
  intros Hrun;
  match type of Hrun with
  | explain_embedding_failure ?e ?st = _ =>
      let message := fresh "message" in
      let Hmessage := fresh "Hmessage" in
      destruct (explain_embedding_failure_rejects e st)
        as (message & Hmessage);
      rewrite Hmessage in Hrun; discriminate
  end.

(** X28.  The client of the embedding provider is created once: when
    [generateEmbeddings] has returned an embedding the client is set,
    it stays set whatever is embedded next, and with the client set
    the key is not read again, so that a later call behaves the same
    when the key has been removed from the environment. *)
Theorem embeddings_client_is_created_once
  (env : Env) (md : string) (s s' : State) (embedding : list json) :
  generateEmbeddings env md s = (s', inr embedding) ->
  openaiClient s' = true
  /\ (forall env' md',
         openaiClient (fst (generateEmbeddings env' md' s')) = true)
  /\ (forall env' md',
         generateEmbeddings env' md' s'
         = generateEmbeddings (without_key env') md' s').
Proof.
  intros Hrun.
  assert (Hclient : openaiClient s' = true).
  { revert Hrun.
    unfold generateEmbeddings, request_embedding, getOpenAIClient.
    unfold_bind.
    destruct (openaiClient s) eqn:Hs.
    - destruct (String.eqb _ ""); [explained_failure |].
      destruct (embeddings_create env _) as [e | [[| | | | components |] |]];
        try explained_failure.
      destruct (negb _); [explained_failure |].
      intros [= <- _]. exact Hs.
    - destruct (OPENAI_API_KEY env) as [[| c key] |];
        try explained_failure.
      destruct (String.eqb _ ""); [explained_failure |].
      destruct (embeddings_create env _) as [e | [[| | | | components |] |]];
        try explained_failure.
      destruct (negb _); [explained_failure |].
      intros [= <- _]. reflexivity. }
  split; [exact Hclient |]. split.
  - intros env' md'. now apply generateEmbeddings_keeps_client.
  - intros env' md'. now apply generateEmbeddings_with_client.
Qed.

Lemma embeddings_client_is_created_once_witness :
  openaiClient
    (fst (generateEmbeddings Sample.happy Sample.document initial)) = true.
Proof.
  assert (Hrun : exists s' embedding,
             generateEmbeddings Sample.happy Sample.document initial
             = (s', inr embedding)).
  { eexists. eexists. vm_compute. reflexivity. }
  destruct Hrun as (s' & embedding & Hrun). rewrite Hrun. cbn [fst].
  exact (proj1 (@embeddings_client_is_created_once
                  Sample.happy Sample.document initial s' embedding Hrun)).
Defined.

(** ** Creation and search *)

Lemma joined_ids env d query dist m :
  In (dist, m) (joined env d query) ->
  exists e, In (fst m, e) (stored_embeddings d).
Proof.
  intros Hin. apply joined_In in Hin as (_ & e & He & _). eauto.
Qed.

(** X29.  A created module can be found by semantic search exactly when
    its embedding row was stored.  When the database accepted the row,
    the module is a candidate of every search, with the similarity of
    its embedding to the query.  When the database refused it, which
    [createModule] only logs, the module is stored but no semantic
    search ever returns it. *)
Theorem created_module_is_searchable_iff_indexed
  (env : Env) (input : CreateModuleInput.t) (s s' : State)
  (module : Module_) (aiResult : AIPipelineResult.t) :
  createModule env input s = (s', inr (module, aiResult)) ->
  (forall e, ~ In (fst module, e) (stored_embeddings (db s))) ->
  let embedding := AIPipelineResult.embedding aiResult in
  let embeddingError :=
    insert_error env module_embeddings (EmbeddingRow (fst module) embedding) in
  In module (stored_modules (db s'))
  /\ (embeddingError = None ->
      forall query,
        In (cosine_distance env embedding query, module)
           (joined env (db s') query))
  /\ (embeddingError <> None ->
      forall search s'' rows,
        semanticSearch env search s' = (s'', inr rows) ->
        Forall (fun r => fst (SearchRow.module r) <> fst module) rows).
Proof.
  intros Hcreated Hfresh. cbv zeta.
  destruct (@createModule_ok_inv env input s s' module aiResult Hcreated)
    as (s1 & keywords & _ & _ & _ & Hmodules & Hembeddings & _).
  assert (Hstored : In module (stored_modules (db s'))).
  { rewrite Hmodules. apply in_or_app. right. now left. }
  split; [exact Hstored |]. split.
  - intros Haccepted query. apply joined_complete; [exact Hstored |].
    rewrite Hembeddings, Haccepted. apply in_or_app. right. now left.
  - intros Hrefused search s'' rows Hsearch.
    destruct (@semanticSearch_returns_search_rows env search s' s'' rows
                Hsearch)
      as (queryEmbedding & threshold & limit & Hrows & _).
    apply Forall_forall. intros r Hr Hid.
    destruct (@search_rows_are_indexed env _ _ _ _ rows r Hrows Hr)
      as [_ (e & He)].
    rewrite Hid, Hembeddings in He.
    destruct (insert_error env module_embeddings _); [| contradiction].
    cbn [stored_unless] in He. rewrite app_nil_r in He.
    exact (Hfresh e He).
Qed.

Lemma created_module_is_searchable_iff_indexed_witness :
  exists module,
    In module
      (stored_modules
         (db (fst (createModule Sample.happy Sample.input initial))))
    /\ fst module = "module-0".
Proof.
  assert (Hcreated : exists s' module aiResult,
             createModule Sample.happy Sample.input initial
             = (s', inr (module, aiResult)) /\ fst module = "module-0").
  { eexists. eexists. eexists. vm_compute. split; reflexivity. }
  destruct Hcreated as (s' & module & aiResult & Hcreated & Hid).
  exists module. split; [| exact Hid]. rewrite Hcreated. cbn [fst].
  apply (@created_module_is_searchable_iff_indexed
           Sample.happy Sample.input initial s' module aiResult Hcreated).
  intros e [].
Defined.

(* ================================================================== *)
(** * What a failed run tells *)
(* ================================================================== *)

Lemma rethrown_names_prefix {A} (m : M A) prefix s e :
  snd (try_catch m (rethrow prefix) s) = inl e ->
  exists cause, e = Error (prefix ++ ": " ++ cause).
Proof.
  unfold try_catch, rethrow, throw.
  destruct (m s) as [s1 [e1 | a]]; cbn [snd]; [| discriminate].
  intros [= <-]. eexists. reflexivity.
Qed.

Lemma rejection_names_capability {A} (m : M A) k s e :
  rejection (snd (try_catch m (rethrow (failure_prefix k)) s)) = Some e ->
  exists message, e = Error message /\ names_capability k message.
Proof.
  destruct (snd (try_catch m (rethrow (failure_prefix k)) s))
    as [e1 | a] eqn:Hrun; cbn [rejection]; [| discriminate].
  intros [= <-]. apply rethrown_names_prefix in Hrun as (cause & ->).
  eexists. split; [reflexivity |]. left. eexists. reflexivity.
Qed.

Lemma embeddings_rejection_names_capability env md s e :
  snd (generateEmbeddings env md s) = inl e ->
  exists message, e = Error message /\ names_capability Embeddings message.
Proof.
  unfold generateEmbeddings, try_catch.
  destruct (request_embedding env md s) as [s1 [e1 | a]]; [| discriminate].
  unfold explain_embedding_failure, rethrow, throw.
  destruct e1 as [message |].
  - destruct (includes "API key" message);
      [intros [= <-]; eexists; split; [reflexivity |]; right;
       split; [reflexivity |]; cbn; auto |].
    destruct (includes "rate limit" message);
      [intros [= <-]; eexists; split; [reflexivity |]; right;
       split; [reflexivity |]; cbn; auto |].
    destruct (includes "quota" message);
      [intros [= <-]; eexists; split; [reflexivity |]; right;
       split; [reflexivity |]; cbn; auto |].
    intros [= <-]. eexists. split; [reflexivity |]. left. eexists.
    reflexivity.
  - intros [= <-]. eexists. split; [reflexivity |]. left. eexists.
    reflexivity.
Qed.

(** A rejection of Phase 1 is the rejection of one of its adapters. *)
Lemma phase1_rejection_inv env md e :
  snd (phase1 env md initial) = inl e ->
  exists k, phase k = 1 /\ phase1_rejection env md k = Some e.
Proof.
  intros Hrejects.
  assert (Hone : rejection (snd (generateSummaries env md initial)) = Some e
                 \/ rejection (snd (generateSEOMetadata env md initial))
                    = Some e
                 \/ rejection (snd (categorizeContent env md initial)) = Some e
                 \/ rejection (snd (generateTags env md initial)) = Some e).
  { revert Hrejects.
    pose proof (generateSummaries_run env md) as H1.
    pose proof (generateSEOMetadata_run env md) as H2.
    pose proof (categorizeContent_run env md) as H3.
    pose proof (generateTags_run env md) as H4.
    set (o1 := snd (generateSummaries env md initial)) in *.
    set (o2 := snd (generateSEOMetadata env md initial)) in *.
    set (o3 := snd (categorizeContent env md initial)) in *.
    set (o4 := snd (generateTags env md initial)) in *.
    unfold phase1, Promise_all4. unfold_run.
    rewrite H1. unfold_run. rewrite H2. unfold_run.
    rewrite H3. unfold_run. rewrite H4. unfold_run.
    destruct o1, o2, o3, o4; unfold_run; cbn [first_rejection rejection];
      repeat (split_match; unfold_run); cbn [rejection];
      try discriminate; intros [= <-];
      first [ left; reflexivity
            | right; left; reflexivity
            | right; right; left; reflexivity
            | right; right; right; reflexivity ]. }
  destruct Hone as [H | [H | [H | H]]];
    [ exists Summary | exists SEO | exists Category | exists Tags ];
    split; try reflexivity; exact H.
Qed.

(** A rejection of Phase 2 is the rejection of one of its adapters. *)
Lemma phase2_rejection_inv env md s s2 e :
  phase2 env md s = (s2, inl e) ->
  rejection (snd (generateSchemaOrgData env md initial)) = Some e
  \/ rejection (snd (generateImagePrompt env md initial)) = Some e
  \/ snd (generateEmbeddings env md (record_all s (phase2_requests md)))
     = inl e.
Proof.
  pose proof (generateSchemaOrgData_run env md) as H1.
  pose proof (generateImagePrompt_run env md) as H2.
  set (o1 := snd (generateSchemaOrgData env md initial)) in *.
  set (o2 := snd (generateImagePrompt env md initial)) in *.
  unfold phase2, Promise_all3. unfold_run.
  rewrite H1. unfold_run. rewrite H2. unfold_run.
  rewrite !record_as_record_all, !record_all_app. simpl app.
  fold (phase2_requests md).
  destruct (generateEmbeddings env md (record_all s (phase2_requests md)))
    as [s3 o3].
  destruct o1, o2, o3; unfold_run; cbn [first_rejection rejection];
    repeat (split_match; unfold_run); cbn [rejection snd];
    try discriminate; intros [= _ <-];
    first [ left; reflexivity
          | right; left; reflexivity
          | right; right; reflexivity ].
Qed.

(** X30.  A run that fails tells what failed: what the pipeline throws
    is always an error whose message is "AI Pipeline failed: " followed
    by the message of one of the eight adapters, which starts with the
    adapter's own prefix unless it is one of the three messages of the
    embeddings adapter about the provider's key, rate limit and quota;
    or followed by "Cannot convert object to primitive value", when a
    value the orchestrator writes to the console has no conversion to
    a string.  That is how a run ends whose category is such a value:
    after the four requests of Phase 1, with no other request sent. *)
Theorem failed_run_names_the_capability
  (env : Env) (md : string) (s : State) :
  (forall e,
      snd (processMarkdownWithAI env md s) = inl e ->
      exists message,
        e = Error ("AI Pipeline failed: " ++ message)
        /\ ((exists k, names_capability k message)
            \/ message = no_primitive_value))
  /\ (forall summaries seo categoryResult tags,
         snd (phase1 env md initial)
         = inr (summaries, seo, categoryResult, tags) ->
         converts (CategoryResult.category categoryResult) = false ->
         processMarkdownWithAI env md s
         = (record_all s (phase1_requests md),
            inl (Error
              "AI Pipeline failed: Cannot convert object to primitive value"))).
Proof.
  pose proof (processMarkdownWithAI_cases env md s) as Hcases.
  cbv zeta in Hcases. split.
  2: { intros summaries seo categoryResult tags Hphase1 Hcategory.
       rewrite Hphase1, Hcategory in Hcases. exact Hcases. }
  intros e.
  destruct (snd (phase1 env md initial))
    as [e1 | [[[summaries seo] categoryResult] tags]] eqn:Hphase1.
  { rewrite Hcases. cbn [snd]. intros [= <-].
    destruct (@phase1_rejection_inv env md e1 Hphase1)
      as (k & _ & Hrejected).
    assert (Hnames : exists message,
               e1 = Error message /\ names_capability k message).
    { destruct k; try discriminate; cbn [phase1_rejection] in Hrejected;
        [ unfold generateSummaries in Hrejected
        | unfold generateSEOMetadata in Hrejected
        | unfold categorizeContent in Hrejected
        | unfold generateTags in Hrejected ];
        [ eapply (@rejection_names_capability _ _ Summary initial)
        | eapply (@rejection_names_capability _ _ SEO initial)
        | eapply (@rejection_names_capability _ _ Category initial)
        | eapply (@rejection_names_capability _ _ Tags initial) ];
        exact Hrejected. }
    destruct Hnames as (message & -> & Hnames). exists message. eauto. }
  destruct (converts (CategoryResult.category categoryResult)).
  2: { rewrite Hcases. cbn [snd]. intros [= <-]. eexists.
       split; [reflexivity | now right]. }
  destruct (phase2 env md _) as [s2 [e2 | [[schema imagePrompt] embedding]]]
    eqn:Hphase2.
  { rewrite Hcases. cbn [snd]. intros [= <-].
    destruct (@phase2_rejection_inv env md _ s2 e2 Hphase2)
      as [Hk | [Hk | Hk]].
    - unfold generateSchemaOrgData in Hk.
      apply (@rejection_names_capability _ _ Schema initial) in Hk
        as (message & -> & Hnames).
      exists message. eauto.
    - unfold generateImagePrompt in Hk.
      apply (@rejection_names_capability _ _ ImagePrompt initial) in Hk
        as (message & -> & Hnames).
      exists message. eauto.
    - apply embeddings_rejection_names_capability in Hk
        as (message & -> & Hnames).
      exists message. eauto. }
  destruct (snd (validateMetadata env md _ initial)) as [e3 | validation]
    eqn:Hvalid; rewrite Hcases; cbn [snd].
  2: { destruct (warning_converts validation); [discriminate |].
       intros [= <-]. eexists. split; [reflexivity | now right]. }
  intros [= <-].
  assert (Hnames : exists message,
             e3 = Error message /\ names_capability Validator message).
  { unfold validateMetadata in Hvalid.
    eapply (@rejection_names_capability _ _ Validator initial).
    cbn [failure_prefix]. rewrite Hvalid. reflexivity. }
  destruct Hnames as (message & -> & Hnames).
  exists message. eauto.
Qed.

(** A category that is an object with a property [toString] ends the
    run after Phase 1. *)
Lemma failed_run_names_the_capability_witness :
  processMarkdownWithAI Scenario.unprintable_category Sample.document initial
  = (record_all initial (phase1_requests Sample.document),
     inl (Error
       "AI Pipeline failed: Cannot convert object to primitive value")).
Proof.
  assert (Hphase1 : exists summaries seo confidence reasoning tags,
             snd (phase1 Scenario.unprintable_category Sample.document initial)
             = inr (summaries, seo,
                    CategoryResult.mk (JObj [("toString", JNum (Fin 1))])
                      confidence reasoning,
                    tags)).
  { do 5 eexists. vm_compute. reflexivity. }
  destruct Hphase1 as (summaries & seo & confidence & reasoning & tags
                       & Hphase1).
  apply (proj2 (failed_run_names_the_capability
                  Scenario.unprintable_category Sample.document initial)
           summaries seo _ tags Hphase1).
  reflexivity.
Defined.
